(** * The requirements graph of wavis-helloworld: indexer, query engine,
      impact analyzer and sync engine

    A shallow embedding of the four Python components under
    [demeter/core/ssot/graphrag] and the properties the design document
    states about them.

    - [ssot-indexer.py]    : [Module SSOTIndexer]
    - [ssot-query.py]      : [Module SSOTQuery]
    - [impact-analyzer.py] : [Module ImpactAnalyzer]
    - [sync-engine.py]     : [Module SyncEngine]

    The documents the code handles are YAML and JSON trees, so they are
    embedded as one type [value] of Python objects, and the dictionary and
    string operations the code applies to them are embedded with the
    exceptions Python raises on an object of the wrong shape.  Reading the
    wall clock and writing the three index files are the effects of the
    code; they are threaded through a state monad over a [world]. *)

From Stdlib Require Import String Ascii List ZArith QArith Bool Lia PeanoNat Floats
  Sorted.
Import ListNotations.
Set Warnings "-inexact-float,-register-all".
Close Scope Q_scope.
Open Scope string_scope.

(** ** Python objects *)

(** The objects [yaml.safe_load] and [json.load] build.  A dictionary keeps
    its insertion order, which is the order [items()] iterates in, so it is
    an association list; its keys are strings. *)
Inductive value : Type :=
| VNone
| VBool (b : bool)
| VInt (z : Z)
| VStr (s : string)
| VList (l : list value)
| VDict (d : list (string * value)).

(** The exceptions that the embedded code can raise. *)
Inductive exn : Type :=
| KeyError (key : string)
| TypeError
| AttributeError
| ValueError (msg : string)
| JSONDecodeError
| UnicodeEncodeError.

(** [str(e)], and the pieces of a line that [print] writes.  The text of
    an exception does not hold its class: that of a [ValueError] is its
    message, and that of a [KeyError] is the [repr] of its key.  The texts
    that the interpreter gives the other exceptions name the objects at
    hand; they are not spelled out. *)
Inductive str_text : Type :=
| Str (s : string)
| Repr (key : string)
| InterpreterText (e : exn).

Definition str_of (e : exn) : str_text :=
  match e with
  | ValueError msg => Str msg
  | KeyError key => Repr key
  | _ => InterpreterText e
  end.

(** What a call comes to: a value, or an exception.  [OutOfFuel] is not a
    Python outcome: a [while] loop, and a [for] loop over a list that its
    body extends, is embedded with a bound on its iterations (the fuel),
    and [OutOfFuel] says that the bound was reached before the loop ended.
    No [except] clause catches it. *)
Inductive result (A : Type) : Type :=
| Ok (a : A)
| Raise (e : exn)
| OutOfFuel.
Arguments Ok {A} a.
Arguments Raise {A} e.
Arguments OutOfFuel {A}.

Definition rbind {A B} (r : result A) (k : A -> result B) : result B :=
  match r with
  | Ok a => k a
  | Raise e => Raise e
  | OutOfFuel => OutOfFuel
  end.

Definition rmap {A B} (f : A -> B) (r : result A) : result B :=
  rbind r (fun a => Ok (f a)).

Fixpoint rmapM {A B} (f : A -> result B) (l : list A) : result (list B) :=
  match l with
  | [] => Ok []
  | x :: t => rbind (f x) (fun y => rbind (rmapM f t) (fun ys => Ok (y :: ys)))
  end.

(** [[x for x in l if p(x)]] where the test can raise. *)
Fixpoint rfilter {A} (p : A -> result bool) (l : list A) : result (list A) :=
  match l with
  | [] => Ok []
  | x :: t =>
      rbind (p x) (fun b =>
      rbind (rfilter p t) (fun r => Ok (if b then x :: r else r)))
  end.

Declare Scope result_scope.
Delimit Scope result_scope with result.
Notation "x <- m ;; k" := (rbind m (fun x => k))
  (at level 61, m at next level, right associativity) : result_scope.

(** *** Strings *)

Definition is_upper (c : ascii) : bool :=
  let n := nat_of_ascii c in (65 <=? n)%nat && (n <=? 90)%nat.

Definition is_digit (c : ascii) : bool :=
  let n := nat_of_ascii c in (48 <=? n)%nat && (n <=? 57)%nat.

(** The characters [str.split()] splits on, within ASCII. *)
Definition is_space (c : ascii) : bool :=
  let n := nat_of_ascii c in
  ((9 <=? n)%nat && (n <=? 13)%nat) || ((28 <=? n)%nat && (n <=? 32)%nat).

Definition lower_char (c : ascii) : ascii :=
  if is_upper c then ascii_of_nat (nat_of_ascii c + 32) else c.

(** [s.lower()] *)
Fixpoint lower (s : string) : string :=
  match s with
  | EmptyString => EmptyString
  | String c t => String (lower_char c) (lower t)
  end.

(** [s.startswith(p)] *)
Fixpoint startswith (p s : string) : bool :=
  match p, s with
  | EmptyString, _ => true
  | String a p', String b s' => Ascii.eqb a b && startswith p' s'
  | String _ _, EmptyString => false
  end.

(** [sub in s] *)
Fixpoint str_in (sub s : string) : bool :=
  startswith sub s ||
  match s with
  | EmptyString => false
  | String _ t => str_in sub t
  end.

(** [s.count(sub)]: occurrences that do not overlap, from the left; [skip]
    counts the characters of the last occurrence still to be passed. *)
Fixpoint count_from (skip : nat) (sub s : string) : nat :=
  match s with
  | EmptyString => 0
  | String _ t =>
      match skip with
      | S k => count_from k sub t
      | O => if startswith sub s
             then S (count_from (String.length sub - 1) sub t)
             else count_from 0 sub t
      end
  end.

Definition str_count (s sub : string) : nat :=
  match sub with
  | EmptyString => S (String.length s)
  | _ => count_from 0 sub s
  end.

(** [s.split()]: the maximal runs of characters that are not whitespace.
    [cur] is the run being read, reversed. *)
Fixpoint rev_string (acc s : string) : string :=
  match s with
  | EmptyString => acc
  | String c t => rev_string (String c acc) t
  end.

Fixpoint split_from (cur : string) (s : string) : list string :=
  match s with
  | EmptyString =>
      match cur with EmptyString => [] | _ => [rev_string "" cur] end
  | String c t =>
      if is_space c
      then match cur with
           | EmptyString => split_from "" t
           | _ => rev_string "" cur :: split_from "" t
           end
      else split_from (String c cur) t
  end.

Definition split (s : string) : list string := split_from "" s.

(** [sep.join(l)] *)
Fixpoint join (sep : string) (l : list string) : string :=
  match l with
  | [] => ""
  | [x] => x
  | x :: t => x ++ sep ++ join sep t
  end.

Fixpoint chars (s : string) : list string :=
  match s with
  | EmptyString => []
  | String c t => String c "" :: chars t
  end.

(** *** Dictionaries and the other containers *)

Fixpoint dict_get (d : list (string * value)) (k : string) : option value :=
  match d with
  | [] => None
  | (k', v) :: t => if String.eqb k' k then Some v else dict_get t k
  end.

Definition dict_keys (d : list (string * value)) : list string := map fst d.

(** [d[k] = v]: an existing key keeps its place, a new one goes last. *)
Fixpoint dict_set (d : list (string * value)) (k : string) (v : value)
  : list (string * value) :=
  match d with
  | [] => [(k, v)]
  | (k', v') :: t =>
      if String.eqb k' k then (k', v) :: t else (k', v') :: dict_set t k v
  end.

(** [a == b] on documents.  Equality is structural: key order in a
    dictionary and the identification of [True] with [1] are not modelled;
    every comparison in the code has a string, an id or a relationship of
    the one loaded list on one side. *)
Fixpoint value_eqb (a b : value) : bool :=
  match a, b with
  | VNone, VNone => true
  | VBool x, VBool y => Bool.eqb x y
  | VInt x, VInt y => Z.eqb x y
  | VStr x, VStr y => String.eqb x y
  | VList l1, VList l2 =>
      (fix go (l1 l2 : list value) {struct l1} : bool :=
         match l1, l2 with
         | [], [] => true
         | x :: t1, y :: t2 => value_eqb x y && go t1 t2
         | _, _ => false
         end) l1 l2
  | VDict d1, VDict d2 =>
      (fix go (d1 d2 : list (string * value)) {struct d1} : bool :=
         match d1, d2 with
         | [], [] => true
         | (k1, x) :: t1, (k2, y) :: t2 =>
             String.eqb k1 k2 && value_eqb x y && go t1 t2
         | _, _ => false
         end) d1 d2
  | _, _ => false
  end.

(** [x in l] for a list [l] *)
Definition mem (x : value) (l : list value) : bool := existsb (value_eqb x) l.

(** [o == 's'] for a string literal or a string variable [s] *)
Definition py_is (o : value) (s : string) : bool := value_eqb o (VStr s).

(** [o.get(k, dflt)] *)
Definition py_get (o : value) (k : string) (dflt : value) : result value :=
  match o with
  | VDict d => Ok (match dict_get d k with Some v => v | None => dflt end)
  | _ => Raise AttributeError
  end.

(** [o[k]] for a string [k] *)
Definition py_getitem (o : value) (k : string) : result value :=
  match o with
  | VDict d => match dict_get d k with Some v => Ok v | None => Raise (KeyError k) end
  | _ => Raise TypeError
  end.

(** [k in o] for a string [k] *)
Definition py_in (k : string) (o : value) : result bool :=
  match o with
  | VDict d => Ok (existsb (String.eqb k) (dict_keys d))
  | VList l => Ok (mem (VStr k) l)
  | VStr s => Ok (str_in k s)
  | _ => Raise TypeError
  end.

(** [o.items()] *)
Definition py_items (o : value) : result (list (string * value)) :=
  match o with
  | VDict d => Ok d
  | _ => Raise AttributeError
  end.

(** [for x in o] *)
Definition py_iter (o : value) : result (list value) :=
  match o with
  | VList l => Ok l
  | VStr s => Ok (map VStr (chars s))
  | VDict d => Ok (map VStr (dict_keys d))
  | _ => Raise TypeError
  end.

(** The truth value of [o] in [if o] and [not o] *)
Definition py_bool (o : value) : bool :=
  match o with
  | VNone => false
  | VBool b => b
  | VInt z => negb (Z.eqb z 0)
  | VStr s => negb (String.eqb s "")
  | VList l => match l with [] => false | _ => true end
  | VDict d => match d with [] => false | _ => true end
  end.

(** A string where the code needs one ([join], [lower], [in]) *)
Definition as_str (o : value) : result string :=
  match o with
  | VStr s => Ok s
  | _ => Raise TypeError
  end.

(** [sep.join(o)] *)
Definition py_join (sep : string) (o : value) : result string :=
  rbind (py_iter o) (fun l => rmap (join sep) (rmapM as_str l)).

(** [[f(x) for x in l if p(x)]]: [f x] is [None] for an [x] that the
    condition leaves out; test and expression are evaluated element by
    element. *)
Fixpoint rfilter_map {A B} (f : A -> result (option B)) (l : list A)
  : result (list B) :=
  match l with
  | [] => Ok []
  | x :: t =>
      rbind (f x) (fun o =>
      rbind (rfilter_map f t) (fun r =>
      Ok (match o with Some y => y :: r | None => r end)))
  end.

(** A loop that appends to a list and is left by an exception keeps what
    it had appended: a body, and the loop, come to the items appended and
    to how they ended. *)
Definition once {B} (r : result (list B)) : list B * result unit :=
  match r with
  | Ok ys => (ys, Ok tt)
  | Raise e => ([], Raise e)
  | OutOfFuel => ([], OutOfFuel)
  end.

Fixpoint collect {A B} (f : A -> list B * result unit) (l : list A)
  : list B * result unit :=
  match l with
  | [] => ([], Ok tt)
  | x :: t =>
      match f x with
      | (ys, Ok _) => let (r, e) := collect f t in ((ys ++ r)%list, e)
      | (ys, stop) => (ys, stop)
      end
  end.

(** A loop whose body updates a state and can raise. *)
Fixpoint rfold {S A} (f : S -> A -> result S) (l : list A) (s : S) : result S :=
  match l with
  | [] => Ok s
  | x :: t => rbind (f s x) (rfold f t)
  end.

(** An f-string, kept as its pieces: literal text and formatted objects. *)
Inductive piece : Type :=
| Lit (s : string)
| Fmt (v : value).

Definition fstring : Type := list piece.

(** [l.sort(key=..., reverse=True)]: the sort is stable, so [x], which
    stands before every item of [l], goes before the items of [l] that
    do not have a greater key. *)
Fixpoint insert_desc {A} (gtb : A -> A -> bool) (x : A) (l : list A) : list A :=
  match l with
  | [] => [x]
  | y :: t => if gtb y x then y :: insert_desc gtb x t else x :: y :: t
  end.

Definition sort_desc {A} (gtb : A -> A -> bool) (l : list A) : list A :=
  fold_right (insert_desc gtb) [] l.

(** A set can only hold hashable objects. *)
Definition hashable (o : value) : result unit :=
  match o with
  | VList _ | VDict _ => Raise TypeError
  | _ => Ok tt
  end.

(** ** The world: the wall clock and the index directory *)

(** [clock k] is what the [k]-th call of [datetime.now().isoformat()]
    returns. *)
Definition Clock : Type := nat -> string.

(** A file of the index directory holds a complete JSON document, or it
    has been opened for writing and the document is not complete yet. *)
Inductive file (A : Type) : Type :=
| Partial
| Doc (a : A).
Arguments Partial {A}.
Arguments Doc {A} a.

(** The three files of the index directory; [None] is a file that does not
    exist. *)
Record index_store : Type := mkStore {
  entities_json : option (file (list value));
  relationships_json : option (file (list value));
  metadata_json : option (file value)
}.

(** [ticks] counts the readings of the clock so far; [past] holds the
    earlier states of the index directory, the latest first. *)
Record world : Type := mkWorld {
  ticks : nat;
  index_dir : index_store;
  past : list index_store
}.

Definition M (A : Type) : Type := Clock -> world -> result A * world.

Definition ret {A} (a : A) : M A := fun _ w => (Ok a, w).

Definition raise {A} (e : exn) : M A := fun _ w => (Raise e, w).

Definition bind {A B} (m : M A) (k : A -> M B) : M B :=
  fun c w =>
    match m c w with
    | (Ok a, w') => k a c w'
    | (Raise e, w') => (Raise e, w')
    | (OutOfFuel, w') => (OutOfFuel, w')
    end.

Definition lift {A} (r : result A) : M A := fun _ w => (r, w).

(** [try: m  except Exception as e: h e] *)
Definition try_except {A} (m : M A) (h : exn -> M A) : M A :=
  fun c w =>
    match m c w with
    | (Ok a, w') => (Ok a, w')
    | (Raise e, w') => h e c w'
    | (OutOfFuel, w') => (OutOfFuel, w')
    end.

(** [datetime.now().isoformat()] *)
Definition now_isoformat : M string :=
  fun c w => (Ok (c (ticks w)), mkWorld (S (ticks w)) (index_dir w) (past w)).

(** A step that changes the index directory; the state before it is kept. *)
Definition modify_store (f : index_store -> index_store) : M unit :=
  fun _ w =>
    (Ok tt, mkWorld (ticks w) (f (index_dir w)) (index_dir w :: past w)).

Definition read_store : M index_store := fun _ w => (Ok (index_dir w), w).

Declare Scope monad_scope.
Delimit Scope monad_scope with monad.
Notation "x <- m ;; k" := (bind m (fun x => k))
  (at level 61, m at next level, right associativity) : monad_scope.
Notation "m ;;; k" := (bind m (fun _ => k))
  (at level 61, right associativity) : monad_scope.

Fixpoint mapM {A B} (f : A -> M B) (l : list A) : M (list B) :=
  match l with
  | [] => ret []
  | x :: t => bind (f x) (fun y => bind (mapM f t) (fun ys => ret (y :: ys)))
  end.

(** A loop whose body appends some items to one list. *)
Definition concatM {A B} (f : A -> M (list B)) (l : list A) : M (list B) :=
  bind (mapM f l) (fun ls => ret (concat ls)).

(** The functions of [json] and [hashlib] that the code calls. *)
Record library : Type := mkLibrary {
  (** [json.dumps(data, sort_keys=True, ensure_ascii=False)] *)
  json_dumps : value -> string;
  (** [hashlib.sha256(content.encode('utf-8')).hexdigest()] *)
  sha256_hexdigest : string -> string
}.

(** [sys.stdout] as [print] finds it.  A line is kept as the pieces of
    its f-string; the console answers [None] when it has written the line
    and the exception that writing it raises otherwise: a
    [UnicodeEncodeError] for a line that its encoding does not have.  What
    has been written is not kept.  The lines of the code that hold no more
    than a fixed text and a count are taken to be written; [print] stands
    where a line holds an argument of the call or the text of an
    exception. *)
Definition Console : Type := list str_text -> option exn.

Definition print (stdout : Console) (line : list str_text) : result unit :=
  match stdout line with
  | None => Ok tt
  | Some e => Raise e
  end.

Open Scope monad_scope.

(** ** ssot-indexer.py *)

Module SSOTIndexer.

(** [self.entity_types] and [self.relationship_types] *)
Definition entity_types : list (string * string) :=
  [ ("FUNCTIONAL_REQUIREMENT", "functional_requirement");
    ("NON_FUNCTIONAL_REQUIREMENT", "non_functional_requirement");
    ("UNIT_OF_WORK", "unit_of_work");
    ("CONTRACT", "contract");
    ("BDD_SCENARIO", "bdd_scenario");
    ("EXTENSION", "extension");
    ("DEPENDENCY", "dependency") ].

Definition relationship_types : list (string * string) :=
  [ ("IMPLEMENTS", "implements");
    ("DEPENDS_ON", "depends_on");
    ("EXTENDS", "extends");
    ("VALIDATES", "validates");
    ("COVERS", "covers");
    ("CONFLICTS_WITH", "conflicts_with") ].

(** [table[k]] for a key the table holds *)
Fixpoint lookup (table : list (string * string)) (k : string) : string :=
  match table with
  | [] => ""
  | (k', v) :: t => if String.eqb k' k then v else lookup t k
  end.

Section WithLibrary.

Context (L : library).

Definition _generate_hash (data : value) : string :=
  let content := json_dumps L data in
  substring 0 16 (sha256_hexdigest L content).

(** The [metadata] entry of an entity. *)
Definition entity_metadata (source : string) (spec : value) : M value :=
  last_updated <- now_isoformat ;;
  ret (VDict [ ("source", VStr source);
               ("last_updated", VStr last_updated);
               ("hash", VStr (_generate_hash spec)) ]).

Definition functional_requirement (fr_id : string) (fr_spec : value) : M value :=
  title <- lift (py_get fr_spec "title" (VStr "")) ;;
  description <- lift (py_get fr_spec "description" (VStr "")) ;;
  category <- lift (py_get fr_spec "category" (VStr "")) ;;
  priority <- lift (py_get fr_spec "priority" (VStr "")) ;;
  acceptance_criteria <- lift (py_get fr_spec "acceptance_criteria" (VList [])) ;;
  metadata <- entity_metadata "framework_requirements" fr_spec ;;
  ret (VDict [ ("id", VStr fr_id);
               ("type", VStr (lookup entity_types "FUNCTIONAL_REQUIREMENT"));
               ("title", title);
               ("description", description);
               ("category", category);
               ("priority", priority);
               ("acceptance_criteria", acceptance_criteria);
               ("metadata", metadata) ]).

Definition non_functional_requirement (nfr_id : string) (nfr_spec : value)
  : M value :=
  title <- lift (py_get nfr_spec "title" (VStr "")) ;;
  description <- lift (py_get nfr_spec "description" (VStr "")) ;;
  category <- lift (py_get nfr_spec "category" (VStr "")) ;;
  priority <- lift (py_get nfr_spec "priority" (VStr "")) ;;
  requirements <- lift (py_get nfr_spec "requirements" (VList [])) ;;
  measurement <- lift (py_get nfr_spec "measurement" (VStr "")) ;;
  metadata <- entity_metadata "framework_requirements" nfr_spec ;;
  ret (VDict [ ("id", VStr nfr_id);
               ("type", VStr (lookup entity_types "NON_FUNCTIONAL_REQUIREMENT"));
               ("title", title);
               ("description", description);
               ("category", category);
               ("priority", priority);
               ("requirements", requirements);
               ("measurement", measurement);
               ("metadata", metadata) ]).

Definition unit_of_work (uow_id : string) (uow_spec : value) : M value :=
  name <- lift (py_get uow_spec "name" (VStr "")) ;;
  goal <- lift (py_get uow_spec "goal" (VStr "")) ;;
  layer <- lift (py_get uow_spec "layer" (VStr "")) ;;
  priority <- lift (py_get uow_spec "priority" (VStr "")) ;;
  effort <- lift (py_get uow_spec "effort" (VStr "")) ;;
  implements <- lift (py_get uow_spec "implements" (VList [])) ;;
  dependencies <- lift (py_get uow_spec "dependencies" (VList [])) ;;
  acceptance_criteria <- lift (py_get uow_spec "acceptance_criteria" (VList [])) ;;
  metadata <- entity_metadata "framework_requirements" uow_spec ;;
  ret (VDict [ ("id", VStr uow_id);
               ("type", VStr (lookup entity_types "UNIT_OF_WORK"));
               ("name", name);
               ("goal", goal);
               ("layer", layer);
               ("priority", priority);
               ("effort", effort);
               ("implements", implements);
               ("dependencies", dependencies);
               ("acceptance_criteria", acceptance_criteria);
               ("metadata", metadata) ]).

Definition contract (contract_id : string) (contract_spec : value) : M value :=
  id <- lift (py_get contract_spec "contract_id" (VStr contract_id)) ;;
  title <- lift (py_get contract_spec "title" (VStr "")) ;;
  applies_to <- lift (py_get contract_spec "applies_to" (VDict [])) ;;
  preconditions <- lift (py_get contract_spec "preconditions" (VList [])) ;;
  postconditions <- lift (py_get contract_spec "postconditions" (VList [])) ;;
  invariants <- lift (py_get contract_spec "invariants" (VList [])) ;;
  performance <- lift (py_get contract_spec "performance" (VDict [])) ;;
  security <- lift (py_get contract_spec "security" (VDict [])) ;;
  metadata <- entity_metadata ("contracts/" ++ contract_id) contract_spec ;;
  ret (VDict [ ("id", id);
               ("type", VStr (lookup entity_types "CONTRACT"));
               ("title", title);
               ("applies_to", applies_to);
               ("preconditions", preconditions);
               ("postconditions", postconditions);
               ("invariants", invariants);
               ("performance", performance);
               ("security", security);
               ("metadata", metadata) ]).

Definition extension (category ext_name : string) (ext_spec : value) : M value :=
  name <- lift (py_get ext_spec "name" (VStr ext_name)) ;;
  description <- lift (py_get ext_spec "description" (VStr "")) ;;
  functional_requirements <-
    lift (py_get ext_spec "functional_requirements" (VDict [])) ;;
  non_functional_requirements <-
    lift (py_get ext_spec "non_functional_requirements" (VDict [])) ;;
  units_of_work <- lift (py_get ext_spec "units_of_work" (VDict [])) ;;
  metadata <-
    entity_metadata ("extensions/" ++ category ++ "/" ++ ext_name) ext_spec ;;
  ret (VDict [ ("id", VStr (category ++ "_" ++ ext_name));
               ("type", VStr (lookup entity_types "EXTENSION"));
               ("name", name);
               ("category", VStr category);
               ("description", description);
               ("functional_requirements", functional_requirements);
               ("non_functional_requirements", non_functional_requirements);
               ("units_of_work", units_of_work);
               ("metadata", metadata) ]).

(** [if key in container: for k, v in container[key].items(): body], the
    items that the bodies append. *)
Definition for_items_of {B} (key : string) (container : value)
    (body : string -> value -> M (list B)) : M (list B) :=
  present <- lift (py_in key container) ;;
  if present : bool then
    section <- lift (py_getitem container key) ;;
    items <- lift (py_items section) ;;
    concatM (fun kv => body (fst kv) (snd kv)) items
  else ret [].

Definition one {B} (m : M B) : M (list B) := x <- m ;; ret [x].

Definition extract_entities (ssot_data : value) : M (list value) :=
  present <- lift (py_in "framework_requirements" ssot_data) ;;
  framework <-
    (if present : bool then
       fr_data <- lift (py_getitem ssot_data "framework_requirements") ;;
       frs <- for_items_of "functional_requirements" fr_data
                (fun fr_id fr_spec => one (functional_requirement fr_id fr_spec)) ;;
       nfrs <- for_items_of "non_functional_requirements" fr_data
                 (fun nfr_id nfr_spec =>
                    one (non_functional_requirement nfr_id nfr_spec)) ;;
       uows <- for_items_of "units_of_work" fr_data
                 (fun uow_id uow_spec => one (unit_of_work uow_id uow_spec)) ;;
       ret (frs ++ nfrs ++ uows)%list
     else ret []) ;;
  contracts <- for_items_of "contracts" ssot_data
                 (fun contract_id contract_spec =>
                    one (contract contract_id contract_spec)) ;;
  extensions <- for_items_of "extensions" ssot_data
                  (fun category extensions =>
                     items <- lift (py_items extensions) ;;
                     mapM (fun kv => extension category (fst kv) (snd kv)) items) ;;
  ret (framework ++ contracts ++ extensions)%list.

End WithLibrary.

(** A relationship of [extract_relationships]. *)
Definition relationship (source target : value) (type source_file : string)
  : M value :=
  created <- now_isoformat ;;
  ret (VDict [ ("source", source);
               ("target", target);
               ("type", VStr type);
               ("metadata", VDict [ ("created", VStr created);
                                    ("source_file", VStr source_file) ]) ]).

Definition uow_relationships (uow_id : string) (uow_spec : value)
  : M (list value) :=
  implements <- lift (py_get uow_spec "implements" (VList [])) ;;
  req_ids <- lift (py_iter implements) ;;
  implemented <-
    mapM (fun req_id =>
            relationship (VStr uow_id) req_id
              (lookup relationship_types "IMPLEMENTS") "framework_requirements")
         req_ids ;;
  dependencies <- lift (py_get uow_spec "dependencies" (VList [])) ;;
  dep_ids <- lift (py_iter dependencies) ;;
  depended <-
    mapM (fun dep_id =>
            relationship (VStr uow_id) dep_id
              (lookup relationship_types "DEPENDS_ON") "framework_requirements")
         dep_ids ;;
  ret (implemented ++ depended)%list.

Definition contract_relationships (contract_id : string) (contract_spec : value)
  : M (list value) :=
  applies_to <- lift (py_get contract_spec "applies_to" (VDict [])) ;;
  entity_type <- lift (py_get applies_to "entity_type" VNone) ;;
  if py_is entity_type "uow" then
    entity_name <- lift (py_get applies_to "entity_name" VNone) ;;
    if py_bool entity_name then
      source <- lift (py_get contract_spec "contract_id" (VStr contract_id)) ;;
      one (relationship source entity_name
             (lookup relationship_types "VALIDATES") ("contracts/" ++ contract_id))
    else ret []
  else ret [].

Definition extract_relationships (ssot_data : value) : M (list value) :=
  present <- lift (py_in "framework_requirements" ssot_data) ;;
  framework <-
    (if present : bool then
       fr_data <- lift (py_getitem ssot_data "framework_requirements") ;;
       for_items_of "units_of_work" fr_data uow_relationships
     else ret []) ;;
  contracts <- for_items_of "contracts" ssot_data contract_relationships ;;
  ret (framework ++ contracts)%list.

(** [len([x for x in l if x['type'] == t])] *)
Definition count_of_type (l : list value) (t : string) : result nat :=
  rmap (@List.length value)
       (rfilter (fun x => rmap (fun ty => py_is ty t) (py_getitem x "type")) l).

Definition counts_by_type (l : list value) (types : list string) : result value :=
  rmap VDict
       (rmapM (fun t => rmap (fun n => (t, VInt (Z.of_nat n))) (count_of_type l t))
              types).

(** The six steps on the index directory.  [open(f, 'w')] creates or
    empties the file; the document is complete when [json.dump] has
    returned and the [with] block has closed the file. *)
Definition open_entities (s : index_store) : index_store :=
  mkStore (Some Partial) (relationships_json s) (metadata_json s).
Definition dump_entities (entities : list value) (s : index_store) : index_store :=
  mkStore (Some (Doc entities)) (relationships_json s) (metadata_json s).
Definition open_relationships (s : index_store) : index_store :=
  mkStore (entities_json s) (Some Partial) (metadata_json s).
Definition dump_relationships (relationships : list value) (s : index_store)
  : index_store :=
  mkStore (entities_json s) (Some (Doc relationships)) (metadata_json s).
Definition open_metadata (s : index_store) : index_store :=
  mkStore (entities_json s) (relationships_json s) (Some Partial).
Definition dump_metadata (metadata : value) (s : index_store) : index_store :=
  mkStore (entities_json s) (relationships_json s) (Some (Doc metadata)).

Definition index_metadata (entities relationships : list value) : M value :=
  indexed_at <- now_isoformat ;;
  entity_counts <- lift (counts_by_type entities (map snd entity_types)) ;;
  relationship_counts <-
    lift (counts_by_type relationships (map snd relationship_types)) ;;
  ret (VDict [ ("indexed_at", VStr indexed_at);
               ("total_entities", VInt (Z.of_nat (List.length entities)));
               ("total_relationships", VInt (Z.of_nat (List.length relationships)));
               ("entity_types", entity_counts);
               ("relationship_types", relationship_counts) ]).

Definition save_graphrag_data (entities relationships : list value) : M unit :=
  modify_store open_entities ;;;
  modify_store (dump_entities entities) ;;;
  modify_store open_relationships ;;;
  modify_store (dump_relationships relationships) ;;;
  metadata <- index_metadata entities relationships ;;
  modify_store open_metadata ;;;
  modify_store (dump_metadata metadata).

(** [index_ssot]; [ssot_data] is what [load_ssot_data] has read from the
    document directory. *)
Definition index_ssot (L : library) (ssot_data : value) : M value :=
  entities <- extract_entities L ssot_data ;;
  relationships <- extract_relationships ssot_data ;;
  save_graphrag_data entities relationships ;;;
  ret (VDict [ ("entities_count", VInt (Z.of_nat (List.length entities)));
               ("relationships_count", VInt (Z.of_nat (List.length relationships)));
               ("status", VStr "success") ]).

End SSOTIndexer.

(** ** ssot-query.py *)

Module SSOTQuery.

(** The state of an [SSOTQuery] object: the two lists and the knowledge
    loaded by [__init__], and what the feature directory holds:
    [features] is [None] when the directory does not exist, and otherwise
    lists, for each layer directory, the stems of its [*.feature] files. *)
Record SSOTQuery : Type := mkSSOTQuery {
  entities : list value;
  relationships : list value;
  knowledge : value;
  features : option (list (list string))
}.

Definition load {A} (f : option (file (list A))) : result (list A) :=
  match f with
  | None => Ok []
  | Some (Doc l) => Ok l
  | Some Partial => Raise JSONDecodeError
  end.

Definition _load_entities (s : index_store) : result (list value) :=
  load (entities_json s).

Definition _load_relationships (s : index_store) : result (list value) :=
  load (relationships_json s).

(** [SSOTQuery(...)]: the index directory is read from the world. *)
Definition __init__ (knowledge : value) (features : option (list (list string)))
  : M SSOTQuery :=
  s <- read_store ;;
  entities <- lift (_load_entities s) ;;
  relationships <- lift (_load_relationships s) ;;
  ret (mkSSOTQuery entities relationships knowledge features).

(** The error a result carries: a message the code writes, or [str(e)] of
    the exception that an [except] clause caught. *)
Inductive error_note : Type :=
| Message (s : string)
| Caught (e : exn).

Record found_impact : Type := mkFoundImpact {
  fi_entity : value;
  fi_relationship : value;
  fi_via : option value;
  fi_impact_type : string
}.

Record impact_analysis : Type := mkImpactAnalysis {
  ia_entity_id : string;
  ia_change_type : string;
  ia_direct_impacts : list found_impact;
  ia_indirect_impacts : list found_impact;
  ia_risk_level : string;
  ia_recommendations : list string;
  ia_analysis_timestamp : string;
  ia_error : option error_note
}.

Record gaps : Type := mkGaps {
  requirements_without_uows : list value;
  uows_without_contracts : list value;
  uows_without_bdd : list value;
  orphaned_contracts : list value;
  analysis_timestamp : string
}.

(** The dictionaries that the query processors put in [results]. *)
Inductive item : Type :=
| Match (entity : value) (relevance : Q) (matches : list string)
| ImplementingUoW (uow : value) (relationship : value) (direct : bool)
| RelatedContract (contract : value) (relationship_type : string)
    (applies_to : value)
| Pattern (id : string) (pattern : value) (frequency : value)
| Impact (entity_id : string) (analysis : impact_analysis)
| Coverage (coverage_analysis : gaps).

Record query_metadata : Type := mkMetadata {
  md_error : option error_note;
  md_query_type : string;
  md_timestamp : string;
  md_results_count : option nat
}.

(** [execution_time] is the difference of two readings of the clock, kept
    as the two readings; [None] is the [0.0] of a failed query. *)
Record QueryResult : Type := mkQueryResult {
  query_text_of : string;
  results : list item;
  metadata : query_metadata;
  execution_time : option (string * string)
}.

Section Methods.

Context (self : SSOTQuery).

Definition _get_entity_by_id (entity_id : value) : result value :=
  (fix find (l : list value) : result value :=
     match l with
     | [] => Ok VNone
     | entity :: t =>
         rbind (py_get entity "id" VNone) (fun id =>
         if value_eqb id entity_id then Ok entity else find t)
     end) (entities self).

Definition _calculate_relevance (keyword text : string) : Q :=
  let keyword_count := str_count (lower text) (lower keyword) in
  let text_length := List.length (split text) in
  (Z.of_nat keyword_count # Pos.of_nat (Nat.max text_length 1))%Q.

Definition _find_keyword_matches (keyword : string) (entity : value)
  : result (list string) :=
  let keyword_lower := lower keyword in
  (title <- rbind (py_get entity "title" (VStr "")) as_str ;;
   let m1 := if str_in keyword_lower (lower title)
             then ["title: " ++ title] else [] in
   description <- rbind (py_get entity "description" (VStr "")) as_str ;;
   let m2 := if str_in keyword_lower (lower description)
             then ["description: " ++ description] else [] in
   Ok (m1 ++ m2)%list)%result.

Definition is_requirement (ty : value) : bool :=
  mem ty [VStr "functional_requirement"; VStr "non_functional_requirement"].

Definition relevance_of (i : item) : Q :=
  match i with
  | Match _ r _ => r
  | _ => 0%Q
  end.

Definition relevance_gtb (a b : item) : bool :=
  negb (Qle_bool (relevance_of a) (relevance_of b)).

(** [searchable_text] of [find_requirements_by_keyword] *)
Definition searchable_text (entity : value) : result string :=
  (title <- py_get entity "title" (VStr "") ;;
   description <- py_get entity "description" (VStr "") ;;
   criteria <- py_get entity "acceptance_criteria" (VList []) ;;
   joined <- py_join " " criteria ;;
   text <- py_join " " (VList [title; description; VStr joined]) ;;
   Ok (lower text))%result.

(** The body of its loop: the result that one entity appends, if any. *)
Definition keyword_match (keyword : string) (entity : value)
  : result (option item) :=
  (ty <- py_get entity "type" VNone ;;
   if is_requirement ty then
     searchable_text <- searchable_text entity ;;
     if str_in (lower keyword) searchable_text then
       matches <- _find_keyword_matches keyword entity ;;
       Ok (Some (Match entity (_calculate_relevance keyword searchable_text)
                   matches))
     else Ok None
   else Ok None)%result.

Definition find_requirements_by_keyword (keyword : string) : result (list item) :=
  rmap (sort_desc relevance_gtb)
       (rfilter_map (keyword_match keyword) (entities self)).

(** The last loop of [_process_keyword_query]: [seen_ids] is a set. *)
Fixpoint unique_results (seen_ids : list value) (results : list item)
  : result (list item) :=
  match results with
  | [] => Ok []
  | r :: t =>
      (entity_id <- py_getitem (match r with Match e _ _ => e | _ => VNone end) "id" ;;
       _ <- hashable entity_id ;;
       if mem entity_id seen_ids then unique_results seen_ids t
       else rest <- unique_results (entity_id :: seen_ids) t ;;
            Ok (r :: rest))%result
  end.

Definition _process_keyword_query (query_text : string) : result (list item) :=
  let keywords := split query_text in
  (results <- rmap (@concat item) (rmapM find_requirements_by_keyword keywords) ;;
   unique_results [] results)%result.

(** [re.findall(prefix + r'\d+', text, re.IGNORECASE)] for the four id
    patterns of the code: [prefix] in any case, then digits, as many as
    follow.  The matches do not overlap; [skip] counts the characters of the
    last match still to be passed. *)
Fixpoint take_digits (s : string) : string :=
  match s with
  | EmptyString => EmptyString
  | String c t => if is_digit c then String c (take_digits t) else EmptyString
  end.

Definition match_id_at (prefix s : string) : option string :=
  let n := String.length prefix in
  if String.eqb (lower (substring 0 n s)) (lower prefix) then
    match take_digits (substring n (String.length s - n) s) with
    | EmptyString => None
    | digits => Some (substring 0 n s ++ digits)
    end
  else None.

Fixpoint findall_from (skip : nat) (prefix s : string) : list string :=
  match s with
  | EmptyString => []
  | String _ t =>
      match skip with
      | S k => findall_from k prefix t
      | O =>
          match match_id_at prefix s with
          | Some m => m :: findall_from (String.length m - 1) prefix t
          | None => findall_from 0 prefix t
          end
      end
  end.

Definition findall (prefix text : string) : list string :=
  findall_from 0 prefix text.

Definition entity_patterns : list string := ["FR-"; "NFR-"; "UoW-"; "CTR-"].

Definition found_entities (query_text : string) : list string :=
  concat (map (fun pattern => findall pattern query_text) entity_patterns).

Definition _find_dependent_uows (uow_id : value) : result (list value) :=
  rmap (@concat value)
    (rmapM (fun rel =>
              (ty <- py_get rel "type" VNone ;;
               target <- py_get rel "target" VNone ;;
               if py_is ty "depends_on" && value_eqb target uow_id then
                 source <- py_get rel "source" VNone ;;
                 dependent_entity <- _get_entity_by_id source ;;
                 Ok (if py_bool dependent_entity then [dependent_entity] else [])
               else Ok [])%result)
           (relationships self)).

Definition uow_of (i : item) : value :=
  match i with
  | ImplementingUoW uow _ _ => uow
  | _ => VNone
  end.

(** The second loop of [find_implementing_uows] runs over the list it
    appends to, so it also visits what it has appended: [pending] is the
    part of the list not yet visited, and the whole list comes out. *)
Fixpoint indirect_loop (fuel : nat) (pending : list item) : result (list item) :=
  match pending with
  | [] => Ok []
  | uow :: rest =>
      match fuel with
      | O => OutOfFuel
      | S fuel' =>
          (id <- py_getitem (uow_of uow) "id" ;;
           indirect_uows <- _find_dependent_uows id ;;
           let appended :=
             map (fun indirect_uow =>
                    ImplementingUoW indirect_uow
                      (VDict [("type", VStr "indirect")]) false)
                 indirect_uows in
           tail <- indirect_loop fuel' (rest ++ appended)%list ;;
           Ok (uow :: tail))%result
      end
  end.

Definition find_implementing_uows (fuel : nat) (requirement_id : string)
  : result (list item) :=
  (direct <-
     rmap (@concat item)
       (rmapM (fun rel =>
                 ty <- py_get rel "type" VNone ;;
                 target <- py_get rel "target" VNone ;;
                 if py_is ty "implements" && py_is target requirement_id then
                   source <- py_get rel "source" VNone ;;
                   uow_entity <- _get_entity_by_id source ;;
                   Ok (if py_bool uow_entity
                       then [ImplementingUoW uow_entity rel true] else [])
                 else Ok [])
              (relationships self)) ;;
   indirect_loop fuel direct)%result.

Definition find_related_contracts (entity_id : string) : result (list item) :=
  rfilter_map
    (fun entity =>
       (ty <- py_get entity "type" VNone ;;
        if py_is ty "contract" then
          applies_to <- py_get entity "applies_to" (VDict []) ;;
          entity_name <- py_get applies_to "entity_name" VNone ;;
          Ok (if py_is entity_name entity_id
              then Some (RelatedContract entity "validates" applies_to)
              else None)
        else Ok None)%result)
    (entities self).

Definition _process_relationship_query (fuel : nat) (query_text : string)
  : result (list item) :=
  rmap (@concat item)
    (rmapM (fun entity_id =>
              (implementing_uows <-
                 (if startswith "FR-" entity_id || startswith "NFR-" entity_id
                  then find_implementing_uows fuel entity_id
                  else Ok []) ;;
               contracts <- find_related_contracts entity_id ;;
               Ok (implementing_uows ++ contracts)%list)%result)
           (found_entities query_text)).

(** [patterns.sort(key=lambda x: x['relevance'], reverse=True)].  The
    frequencies are integers or they are strings; a list of two items or
    more that holds anything else cannot be ordered. *)
Definition frequency_of (i : item) : value :=
  match i with
  | Pattern _ _ f => f
  | _ => VNone
  end.

Definition as_int (v : value) : option Z :=
  match v with
  | VInt z => Some z
  | VBool b => Some (if b then 1%Z else 0%Z)
  | _ => None
  end.

Definition is_str (v : value) : bool :=
  match v with VStr _ => true | _ => false end.

Definition frequency_gtb (a b : item) : bool :=
  match as_int (frequency_of a), as_int (frequency_of b) with
  | Some x, Some y => Z.ltb y x
  | _, _ =>
      match frequency_of a, frequency_of b with
      | VStr x, VStr y => String.ltb y x
      | _, _ => false
      end
  end.

Definition sort_patterns (patterns : list item) : result (list item) :=
  match patterns with
  | [] | [_] => Ok patterns
  | _ =>
      if forallb (fun i => match as_int (frequency_of i) with
                           | Some _ => true | None => false end) patterns
         || forallb (fun i => is_str (frequency_of i)) patterns
      then Ok (sort_desc frequency_gtb patterns)
      else Raise TypeError
  end.

Definition search_patterns (pattern_type : option string) : result (list item) :=
  (present <- py_in "patterns" (knowledge self) ;;
   patterns <-
     (if present : bool then
        section <- py_getitem (knowledge self) "patterns" ;;
        items <- py_items section ;;
        rfilter_map
          (fun kv =>
             let pattern_id := fst kv in
             let pattern_data := snd kv in
             wanted <-
               match pattern_type with
               | None => Ok true
               | Some t => rmap (fun c => py_is c t)
                                (py_get pattern_data "category" VNone)
               end ;;
             if wanted : bool then
               frequency <- py_get pattern_data "frequency" (VInt 0) ;;
               Ok (Some (Pattern pattern_id pattern_data frequency))
             else Ok None)
          items
      else Ok []) ;;
   sort_patterns patterns)%result.

Definition pattern_keywords : list (string * string) :=
  [ ("error", "error_handling");
    ("validation", "data_validation");
    ("config", "configuration");
    ("test", "testing");
    ("performance", "performance") ].

Definition _process_pattern_query (query_text : string) : result (list item) :=
  let pattern_type :=
    match filter (fun kv => str_in (fst kv) (lower query_text)) pattern_keywords with
    | [] => None
    | kv :: _ => Some (snd kv)
    end in
  search_patterns pattern_type.

Definition _determine_impact_type (relationship : value) : result string :=
  (rel_type <- py_get relationship "type" VNone ;;
   Ok (if py_is rel_type "implements" then "implementation_change"
       else if py_is rel_type "depends_on" then "dependency_impact"
       else if py_is rel_type "validates" then "contract_validation"
       else "general_impact"))%result.

Definition _calculate_risk_level (direct_count indirect_count : nat)
    (entity_type : value) : string :=
  let total_impacts := (direct_count + indirect_count)%nat in
  let risk_multiplier :=
    if mem entity_type [VStr "functional_requirement"; VStr "contract"]
    then (3 # 2)%Q else 1%Q in
  let adjusted_impact :=
    (inject_Z (Z.of_nat total_impacts) * risk_multiplier)%Q in
  if Qle_bool 10%Q adjusted_impact then "high"
  else if Qle_bool 5%Q adjusted_impact then "medium"
  else "low".

Definition _generate_impact_recommendations (entity : value)
    (direct_impacts indirect_impacts : list found_impact) : result (list string) :=
  let r1 := if (5 <? List.length direct_impacts)%nat
            then ["Consider breaking down this entity due to high coupling"]
            else [] in
  let r2 := if (10 <? List.length indirect_impacts)%nat
            then ["Review architecture to reduce indirect dependencies"]
            else [] in
  (ty <- py_get entity "type" VNone ;;
   let r3 :=
     if py_is ty "functional_requirement"
        && (List.length direct_impacts =? 0)%nat
     then ["This requirement has no implementing UoWs - consider adding implementation"]
     else [] in
   Ok (r1 ++ r2 ++ r3)%list)%result.

(** The relationships with [id] at one end, and the other end of one. *)
Definition touches (id : value) (r : value) : result bool :=
  (source <- py_get r "source" VNone ;;
   target <- py_get r "target" VNone ;;
   Ok (value_eqb source id || value_eqb target id))%result.

Definition other_end (id : value) (rel : value) : result value :=
  (source <- py_get rel "source" VNone ;;
   if value_eqb source id then py_get rel "target" VNone else Ok source)%result.

(** The [try] block of [analyze_impact] fills the dictionary step by step:
    an exception leaves it as it is at that step, with the error added. *)
Definition with_error (e : error_note) (a : impact_analysis) : impact_analysis :=
  mkImpactAnalysis (ia_entity_id a) (ia_change_type a) (ia_direct_impacts a)
    (ia_indirect_impacts a) (ia_risk_level a) (ia_recommendations a)
    (ia_analysis_timestamp a) (Some e).

Definition caught {A} (r : result A) (a : impact_analysis)
    (k : A -> result impact_analysis) : result impact_analysis :=
  match r with
  | Ok x => k x
  | Raise e => Ok (with_error (Caught e) a)
  | OutOfFuel => OutOfFuel
  end.

Definition direct_impact_of (entity_id : string) (rel : value)
  : result (list found_impact) :=
  (related_entity_id <- other_end (VStr entity_id) rel ;;
   related_entity <- _get_entity_by_id related_entity_id ;;
   if py_bool related_entity then
     impact_type <- _determine_impact_type rel ;;
     Ok [mkFoundImpact related_entity rel None impact_type]
   else Ok [])%result.

Definition indirect_impacts_of (entity_id : string)
    (direct_relationships : list value) (direct_impact : found_impact)
  : list found_impact * result unit :=
  let via := (e <- Ok (fi_entity direct_impact) ;; py_getitem e "id")%result in
  match rfilter (fun r =>
                   (id <- via ;;
                    b <- touches id r ;;
                    Ok (b && negb (mem r direct_relationships)))%result)
                (relationships self) with
  | Ok indirect_rels =>
      collect
        (fun indirect_rel =>
           once (id <- via ;;
                 related_entity_id <- other_end id indirect_rel ;;
                 related_entity <- _get_entity_by_id related_entity_id ;;
                 if py_bool related_entity then
                   related_id <- py_getitem related_entity "id" ;;
                   if negb (py_is related_id entity_id) then
                     Ok [mkFoundImpact related_entity indirect_rel (Some id)
                           "indirect"]
                   else Ok []
                 else Ok [])%result)
        indirect_rels
  | Raise e => ([], Raise e)
  | OutOfFuel => ([], OutOfFuel)
  end.

Definition analyze_impact (entity_id change_type : string) : M impact_analysis :=
  timestamp <- now_isoformat ;;
  let a0 := mkImpactAnalysis entity_id change_type [] [] "low" [] timestamp None in
  lift
    (caught (_get_entity_by_id (VStr entity_id)) a0 (fun entity =>
     if negb (py_bool entity) then
       Ok (with_error (Message ("Entity " ++ entity_id ++ " not found")) a0)
     else
     caught (rfilter (touches (VStr entity_id)) (relationships self)) a0
       (fun direct_relationships =>
     let (direct_impacts, ended) :=
       collect (fun rel => once (direct_impact_of entity_id rel))
               direct_relationships in
     let a1 := mkImpactAnalysis entity_id change_type direct_impacts [] "low" []
                 timestamp None in
     caught ended a1 (fun _ =>
     let (indirect_impacts, ended) :=
       collect (indirect_impacts_of entity_id direct_relationships)
               direct_impacts in
     let a2 := mkImpactAnalysis entity_id change_type direct_impacts
                 indirect_impacts "low" [] timestamp None in
     caught ended a2 (fun _ =>
     caught (py_get entity "type" VNone) a2 (fun entity_type =>
     let risk_level :=
       _calculate_risk_level (List.length direct_impacts)
         (List.length indirect_impacts) entity_type in
     let a3 := mkImpactAnalysis entity_id change_type direct_impacts
                 indirect_impacts risk_level [] timestamp None in
     caught (_generate_impact_recommendations entity direct_impacts
               indirect_impacts) a3 (fun recommendations =>
     Ok (mkImpactAnalysis entity_id change_type direct_impacts indirect_impacts
           risk_level recommendations timestamp None)))))))).

Definition _process_impact_query (query_text : string) : M (list item) :=
  mapM (fun entity_id =>
          impact_analysis <- analyze_impact entity_id "modification" ;;
          ret (Impact entity_id impact_analysis))
       (found_entities query_text).

(** [re.search(r'uow[_-](\d+)', stem)]: the digits of the first match. *)
Definition uow_number_at (s : string) : option string :=
  if startswith "uow" s then
    match substring 3 (String.length s - 3) s with
    | String c t =>
        if Ascii.eqb c "_"%char || Ascii.eqb c "-"%char then
          match take_digits t with
          | EmptyString => None
          | digits => Some digits
          end
        else None
    | EmptyString => None
    end
  else None.

Fixpoint search_uow (s : string) : option string :=
  match uow_number_at s with
  | Some digits => Some digits
  | None =>
      match s with
      | EmptyString => None
      | String _ t => search_uow t
      end
  end.

Definition uows_with_bdd : list value :=
  match features self with
  | None => []
  | Some layers =>
      concat
        (map (fun stems =>
                concat
                  (map (fun stem =>
                          match search_uow stem with
                          | Some uow_num => [VStr ("UoW-" ++ uow_num)]
                          | None => []
                          end)
                       stems))
             layers)
  end.

Definition ids_of_type (p : value -> bool) : result (list value) :=
  rfilter_map
    (fun e =>
       (ty <- py_get e "type" VNone ;;
        if p ty then id <- py_getitem e "id" ;; Ok (Some id) else Ok None)%result)
    (entities self).

Definition analyze_coverage_gaps : M gaps :=
  analysis_timestamp <- now_isoformat ;;
  lift
    (requirement_ids <- ids_of_type is_requirement ;;
     implemented_reqs <-
       rfilter_map
         (fun r =>
            ty <- py_get r "type" VNone ;;
            if py_is ty "implements"
            then target <- py_getitem r "target" ;; Ok (Some target)
            else Ok None)
         (relationships self) ;;
     let requirements_without_uows :=
       filter (fun req_id => negb (mem req_id implemented_reqs)) requirement_ids in
     uow_ids <- ids_of_type (fun ty => py_is ty "unit_of_work") ;;
     contracted_uows <-
       rfilter_map
         (fun entity =>
            ty <- py_get entity "type" VNone ;;
            if py_is ty "contract" then
              applies_to <- py_get entity "applies_to" (VDict []) ;;
              entity_type <- py_get applies_to "entity_type" VNone ;;
              if py_is entity_type "uow"
              then entity_name <- py_get applies_to "entity_name" VNone ;;
                   Ok (Some entity_name)
              else Ok None
            else Ok None)
         (entities self) ;;
     let uows_without_contracts :=
       filter (fun uow_id => negb (mem uow_id contracted_uows)) uow_ids in
     let uows_without_bdd :=
       filter (fun uow_id => negb (mem uow_id uows_with_bdd)) uow_ids in
     valid_entity_ids <- rmapM (fun e => py_getitem e "id") (entities self) ;;
     orphaned_contracts <-
       rfilter_map
         (fun entity =>
            ty <- py_get entity "type" VNone ;;
            if py_is ty "contract" then
              applies_to <- py_get entity "applies_to" (VDict []) ;;
              target_entity <- py_get applies_to "entity_name" VNone ;;
              if py_bool target_entity && negb (mem target_entity valid_entity_ids)
              then id <- py_getitem entity "id" ;; Ok (Some id)
              else Ok None
            else Ok None)
         (entities self) ;;
     Ok (mkGaps requirements_without_uows uows_without_contracts
           uows_without_bdd orphaned_contracts analysis_timestamp))%result.

Definition _process_coverage_query (query_text : string) : M (list item) :=
  coverage_gaps <- analyze_coverage_gaps ;;
  ret [Coverage coverage_gaps].

Definition _process_gap_query (query_text : string) : M (list item) :=
  _process_coverage_query query_text.

Definition any_in (words : list string) (text : string) : bool :=
  existsb (fun word => str_in word text) words.

Definition _detect_query_type (query_text : string) : string :=
  let query_lower := lower query_text in
  if any_in ["impact"; "affect"; "change"] query_lower then "impact"
  else if any_in ["implement"; "cover"; "relate"] query_lower then "relationship"
  else if any_in ["pattern"; "frequent"; "common"] query_lower then "pattern"
  else if any_in ["gap"; "missing"; "without"] query_lower then "gap"
  else if any_in ["coverage"; "complete"] query_lower then "coverage"
  else "keyword".

(** [self.query_processors] *)
Definition query_processors (fuel : nat) : list (string * (string -> M (list item))) :=
  [ ("keyword", fun q => lift (_process_keyword_query q));
    ("relationship", fun q => lift (_process_relationship_query fuel q));
    ("pattern", fun q => lift (_process_pattern_query q));
    ("impact", _process_impact_query);
    ("coverage", _process_coverage_query);
    ("gap", _process_gap_query) ].

(** [self.query_processors.get(query_type, self._process_keyword_query)] *)
Fixpoint get_processor (table : list (string * (string -> M (list item))))
    (query_type : string) : string -> M (list item) :=
  match table with
  | [] => fun q => lift (_process_keyword_query q)
  | (k, processor) :: t =>
      if String.eqb k query_type then processor else get_processor t query_type
  end.

Definition query (fuel : nat) (query_text query_type : string) : M QueryResult :=
  start_time <- now_isoformat ;;
  let query_type :=
    if String.eqb query_type "auto" then _detect_query_type query_text
    else query_type in
  try_except
    (let processor := get_processor (query_processors fuel) query_type in
     results <- processor query_text ;;
     end_time <- now_isoformat ;;
     ret (mkQueryResult query_text results
            (mkMetadata None query_type end_time (Some (List.length results)))
            (Some (start_time, end_time))))
    (fun e =>
       timestamp <- now_isoformat ;;
       ret (mkQueryResult query_text []
              (mkMetadata (Some (Caught e)) query_type timestamp None)
              None)).

End Methods.

End SSOTQuery.

(** ** impact-analyzer.py *)

Module ImpactAnalyzer.

Record ImpactItem : Type := mkImpactItem {
  entity_id : value;
  entity_type : value;
  impact_type : string;
  severity : string;
  description : fstring;
  path : list value;
  recommendations : list string
}.

(** [risk_assessment]: the empty dictionary of a new report, the one
    entry [error] of a failed analysis, which is [str(e)], or the four
    entries of [_perform_risk_assessment]. *)
Inductive assessment : Type :=
| NoAssessment
| AssessmentError (error : str_text)
| Assessment (overall_risk : string) (risk_score : nat)
    (risk_factors : list string) (mitigation_required : bool).

(** [affected_layers] is a set: a list without duplicates, in the order
    in which the layers were added. *)
Record ImpactReport : Type := mkImpactReport {
  source_entity : string;
  change_type : string;
  analysis_timestamp : string;
  direct_impacts : list ImpactItem;
  indirect_impacts : list ImpactItem;
  cascade_impacts : list ImpactItem;
  risk_assessment : assessment;
  mitigation_strategies : list string;
  affected_layers : list value;
  testing_recommendations : list string
}.

(** [entity_index] is a dictionary from ids to entities. *)
Record ImpactAnalyzer : Type := mkImpactAnalyzer {
  entities : list value;
  relationships : list value;
  entity_index : list (value * value)
}.

Fixpoint index_get (index : list (value * value)) (k : value) : value :=
  match index with
  | [] => VNone
  | (k', v) :: t => if value_eqb k' k then v else index_get t k
  end.

Fixpoint index_set (index : list (value * value)) (k v : value)
  : list (value * value) :=
  match index with
  | [] => [(k, v)]
  | (k', v') :: t =>
      if value_eqb k' k then (k', v) :: t else (k', v') :: index_set t k v
  end.

(** [{e['id']: e for e in entities}] *)
Fixpoint build_index (index : list (value * value)) (l : list value)
  : result (list (value * value)) :=
  match l with
  | [] => Ok index
  | e :: t =>
      (id <- py_getitem e "id" ;;
       _ <- hashable id ;;
       build_index (index_set index id e) t)%result
  end.

Definition _load_entities (s : index_store) : result (list value) :=
  SSOTQuery.load (entities_json s).

Definition _load_relationships (s : index_store) : result (list value) :=
  SSOTQuery.load (relationships_json s).

Definition __init__ : M ImpactAnalyzer :=
  s <- read_store ;;
  entities <- lift (_load_entities s) ;;
  relationships <- lift (_load_relationships s) ;;
  entity_index <- lift (build_index [] entities) ;;
  ret (mkImpactAnalyzer entities relationships entity_index).

(** [self.severity_levels] *)
Definition severity_levels : list (string * nat) :=
  [ ("critical", 4); ("high", 3); ("medium", 2); ("low", 1) ].

Section Methods.

Context (self : ImpactAnalyzer) (stdout : Console).

(** [self.entity_index.get(k)] *)
Definition entity_index_get (k : value) : result value :=
  (_ <- hashable k ;; Ok (index_get (entity_index self) k))%result.

Definition touches (id : value) (r : value) : result bool :=
  (source <- py_get r "source" VNone ;;
   target <- py_get r "target" VNone ;;
   Ok (value_eqb source id || value_eqb target id))%result.

Definition other_end (id : value) (rel : value) : result value :=
  (source <- py_get rel "source" VNone ;;
   if value_eqb source id then py_get rel "target" VNone else Ok source)%result.

Definition _determine_impact_type (relationship : value) (change_type : string)
  : result string :=
  (rel_type <- py_get relationship "type" (VStr "unknown") ;;
   Ok (if py_is rel_type "implements" then "implementation_change"
       else if py_is rel_type "depends_on" then "dependency_impact"
       else if py_is rel_type "validates" then "contract_validation"
       else if py_is rel_type "extends" then "extension_impact"
       else "general_impact"))%result.

Definition _calculate_impact_severity (relationship affected_entity : value)
    (change_type : string) : result string :=
  (let base_severity := 1%nat in
   rel_type <- py_get relationship "type" (VStr "unknown") ;;
   let base_severity :=
     if mem rel_type [VStr "implements"; VStr "validates"]
     then (base_severity + 2)%nat
     else if py_is rel_type "depends_on" then (base_severity + 1)%nat
     else base_severity in
   entity_type <- py_get affected_entity "type" (VStr "unknown") ;;
   let base_severity :=
     if mem entity_type [VStr "functional_requirement"; VStr "contract"]
     then (base_severity + 2)%nat
     else if py_is entity_type "unit_of_work" then (base_severity + 1)%nat
     else base_severity in
   let base_severity :=
     if String.eqb change_type "removal" then (base_severity + 2)%nat
     else if String.eqb change_type "major_modification"
          then (base_severity + 1)%nat
     else base_severity in
   Ok (if (6 <=? base_severity)%nat then "critical"
       else if (4 <=? base_severity)%nat then "high"
       else if (2 <=? base_severity)%nat then "medium"
       else "low"))%result.

Definition _calculate_indirect_severity (direct_severity : string)
    (relationship : value) : string :=
  let direct_level :=
    match filter (fun kv => String.eqb (fst kv) direct_severity) severity_levels with
    | kv :: _ => snd kv
    | [] => 1%nat
    end in
  let indirect_level := Nat.max 1 (direct_level - 1) in
  match filter (fun kv => (snd kv =? indirect_level)%nat) severity_levels with
  | kv :: _ => fst kv
  | [] => "low"
  end.

Definition _calculate_cascade_severity (path_length : nat) : string :=
  if (path_length <=? 3)%nat then "medium"
  else if (path_length <=? 4)%nat then "low"
  else "low".

Definition _generate_impact_description (relationship affected_entity : value)
    (change_type : string) : result fstring :=
  (rel_type <- py_get relationship "type" (VStr "unknown") ;;
   entity_type <- py_get affected_entity "type" (VStr "unknown") ;;
   by_id <- py_get affected_entity "id" (VStr "Unknown") ;;
   by_name <- py_get affected_entity "name" by_id ;;
   entity_name <- py_get affected_entity "title" by_name ;;
   Ok (if py_is rel_type "implements" then
         [Lit "Implementation relationship will be affected: "; Fmt entity_name]
       else if py_is rel_type "depends_on" then
         [Lit "Dependency relationship will be affected: "; Fmt entity_name]
       else if py_is rel_type "validates" then
         [Lit "Contract validation will be affected: "; Fmt entity_name]
       else
         [Lit "Related "; Fmt entity_type; Lit " will be affected: ";
          Fmt entity_name]))%result.

Definition _generate_impact_recommendations (relationship affected_entity : value)
    (change_type : string) : result (list string) :=
  (rel_type <- py_get relationship "type" (VStr "unknown") ;;
   Ok (if py_is rel_type "implements" then
         [ "Update implementation to match changes";
           "Verify acceptance criteria still satisfied" ]
       else if py_is rel_type "depends_on" then
         [ "Check dependency compatibility";
           "Update dependent entity if needed" ]
       else if py_is rel_type "validates" then
         [ "Re-validate contract conditions";
           "Update contract if necessary" ]
       else []))%result.

(** The body of the loop of [_analyze_direct_impacts]: the item that one
    relationship appends, if it appends one. *)
Definition direct_impact_of (entity_id change_type : string) (rel : value)
  : result (list ImpactItem) :=
  (affected_entity_id <- other_end (VStr entity_id) rel ;;
   affected_entity <- entity_index_get affected_entity_id ;;
   if py_bool affected_entity then
     impact_type <- _determine_impact_type rel change_type ;;
     severity <- _calculate_impact_severity rel affected_entity change_type ;;
     entity_type <- py_get affected_entity "type" (VStr "unknown") ;;
     description <- _generate_impact_description rel affected_entity change_type ;;
     recommendations <-
       _generate_impact_recommendations rel affected_entity change_type ;;
     Ok [mkImpactItem affected_entity_id entity_type impact_type severity
           description [VStr entity_id; affected_entity_id] recommendations]
   else Ok [])%result.

Definition _analyze_direct_impacts (entity_id change_type : string)
  : result (list ImpactItem) :=
  (direct_relationships <-
     rfilter (touches (VStr entity_id)) (relationships self) ;;
   rmap (@concat ImpactItem)
        (rmapM (direct_impact_of entity_id change_type) direct_relationships))%result.

(** The body of the inner loop of [_analyze_indirect_impacts]:
    [indirect_impacts] is the list so far. *)
Definition indirect_step (entity_id : string) (direct_impact : ImpactItem)
    (indirect_impacts : list ImpactItem) (rel : value)
  : result (list ImpactItem) :=
  (affected_entity_id <- other_end (ImpactAnalyzer.entity_id direct_impact) rel ;;
   if negb (py_is affected_entity_id entity_id)
      && negb (existsb (fun impact =>
                          value_eqb (ImpactAnalyzer.entity_id impact)
                                    affected_entity_id)
                       indirect_impacts)
   then
     affected_entity <- entity_index_get affected_entity_id ;;
     if py_bool affected_entity then
       determined <- _determine_impact_type rel "modification" ;;
       let impact_type := "indirect_" ++ determined in
       let severity :=
         _calculate_indirect_severity (severity direct_impact) rel in
       entity_type <- py_get affected_entity "type" (VStr "unknown") ;;
       Ok (indirect_impacts ++
           [mkImpactItem affected_entity_id entity_type impact_type severity
              [Lit "Indirectly affected via ";
               Fmt (ImpactAnalyzer.entity_id direct_impact)]
              [VStr entity_id; ImpactAnalyzer.entity_id direct_impact;
               affected_entity_id]
              ["Review for potential side effects"]])%list
     else Ok indirect_impacts
   else Ok indirect_impacts)%result.

Definition _analyze_indirect_impacts (entity_id : string)
    (direct_impacts : list ImpactItem) : result (list ImpactItem) :=
  rfold
    (fun indirect_impacts direct_impact =>
       (second_level_rels <-
          rfilter
            (fun r =>
               b <- touches (ImpactAnalyzer.entity_id direct_impact) r ;;
               source <- py_get r "source" VNone ;;
               target <- py_get r "target" VNone ;;
               Ok (b && negb (py_is source entity_id)
                     && negb (py_is target entity_id)))
            (relationships self) ;;
        rfold (indirect_step entity_id direct_impact) second_level_rels
              indirect_impacts)%result)
    direct_impacts [].

(** The state of the search of [_analyze_cascade_impacts]. *)
Record cascade_state : Type := mkCascade {
  cs_impacts : list ImpactItem;
  cs_visited : list value;
  cs_queue : list (value * list value)
}.

(** The body of its inner loop. *)
Definition cascade_step (current_entity_id : value) (current_path : list value)
    (st : cascade_state) (rel : value) : result cascade_state :=
  (next_entity_id <- other_end current_entity_id rel ;;
   _ <- hashable next_entity_id ;;
   if negb (mem next_entity_id (cs_visited st)) then
     let visited := (cs_visited st ++ [next_entity_id])%list in
     next_entity <- entity_index_get next_entity_id ;;
     if py_bool next_entity then
       let severity := _calculate_cascade_severity (List.length current_path) in
       entity_type <- py_get next_entity "type" (VStr "unknown") ;;
       via <- py_join " → " (VList (tl current_path)) ;;
       let impact_item :=
         mkImpactItem next_entity_id entity_type "cascade" severity
           [Lit ("Cascade impact via " ++ via)]
           (current_path ++ [next_entity_id])%list
           ["Monitor for unexpected effects"] in
       Ok (mkCascade (cs_impacts st ++ [impact_item])%list visited
             (cs_queue st ++ [(next_entity_id,
                               (current_path ++ [next_entity_id])%list)])%list)
     else Ok (mkCascade (cs_impacts st) visited (cs_queue st))
   else Ok st)%result.

(** [while queue and len(cascade_impacts) < 20] *)
Fixpoint cascade_loop (fuel : nat) (st : cascade_state) : result (list ImpactItem) :=
  match cs_queue st with
  | [] => Ok (cs_impacts st)
  | (current_entity_id, current_path) :: queue =>
      if (List.length (cs_impacts st) <? 20)%nat then
        match fuel with
        | O => OutOfFuel
        | S fuel' =>
            let st := mkCascade (cs_impacts st) (cs_visited st) queue in
            if (5 <=? List.length current_path)%nat then cascade_loop fuel' st
            else
              (next_level_rels <-
                 rfilter (touches current_entity_id) (relationships self) ;;
               st' <- rfold (cascade_step current_entity_id current_path)
                            next_level_rels st ;;
               cascade_loop fuel' st')%result
        end
      else Ok (cs_impacts st)
  end.

Definition _analyze_cascade_impacts (fuel : nat) (entity_id : string)
    (existing_impacts : list ImpactItem) : result (list ImpactItem) :=
  let visited :=
    (VStr entity_id :: map ImpactAnalyzer.entity_id existing_impacts) in
  let queue :=
    map (fun impact => (ImpactAnalyzer.entity_id impact, path impact))
        existing_impacts in
  cascade_loop fuel (mkCascade [] visited queue).

(** [affected_layers.add(layer)] *)
Definition set_add (x : value) (l : list value) : list value :=
  if mem x l then l else (l ++ [x])%list.

Definition _analyze_affected_layers (report : ImpactReport) : result (list value) :=
  let all_impacts :=
    (direct_impacts report ++ indirect_impacts report ++ cascade_impacts report)%list in
  rfold
    (fun affected_layers impact =>
       (entity <- entity_index_get (ImpactAnalyzer.entity_id impact) ;;
        if py_bool entity then
          layer <- py_get entity "layer" (VStr "unknown") ;;
          if negb (py_is layer "unknown") then
            _ <- hashable layer ;;
            Ok (set_add layer affected_layers)
          else Ok affected_layers
        else Ok affected_layers)%result)
    all_impacts [].

Definition _perform_risk_assessment (source_entity : value) (report : ImpactReport)
  : result assessment :=
  (entity_type <- py_get source_entity "type" (VStr "unknown") ;;
   let critical_type :=
     mem entity_type [VStr "functional_requirement"; VStr "contract"] in
   let risk_factors := if critical_type then ["Critical entity type"] else [] in
   let risk_score := if critical_type then 3%nat else 0%nat in
   let total_impacts :=
     (List.length (direct_impacts report) + List.length (indirect_impacts report)
      + List.length (cascade_impacts report))%nat in
   let risk_factors :=
     if (10 <? total_impacts)%nat then (risk_factors ++ ["High impact count"])%list
     else if (5 <? total_impacts)%nat
          then (risk_factors ++ ["Medium impact count"])%list
     else risk_factors in
   let risk_score :=
     if (10 <? total_impacts)%nat then (risk_score + 2)%nat
     else if (5 <? total_impacts)%nat then (risk_score + 1)%nat
     else risk_score in
   let critical_impacts :=
     List.length
       (filter (fun impact => String.eqb (severity impact) "critical")
               (direct_impacts report ++ indirect_impacts report)%list) in
   let risk_factors :=
     if (0 <? critical_impacts)%nat
     then (risk_factors ++ ["Critical severity impacts"])%list
     else risk_factors in
   let risk_score := (risk_score + critical_impacts)%nat in
   affected_layers <- _analyze_affected_layers report ;;
   let risk_factors :=
     if (2 <? List.length affected_layers)%nat
     then (risk_factors ++ ["Multiple layer impact"])%list
     else risk_factors in
   let risk_score :=
     if (2 <? List.length affected_layers)%nat then (risk_score + 1)%nat
     else risk_score in
   let overall_risk :=
     if (8 <=? risk_score)%nat then "critical"
     else if (5 <=? risk_score)%nat then "high"
     else if (3 <=? risk_score)%nat then "medium"
     else "low" in
   Ok (Assessment overall_risk risk_score risk_factors
         (existsb (String.eqb overall_risk) ["critical"; "high"])))%result.

Definition has_impact_type (t : string) (impacts : list ImpactItem) : bool :=
  existsb (fun impact => String.eqb (impact_type impact) t) impacts.

Definition _generate_mitigation_strategies (report : ImpactReport) : list string :=
  let risk_level :=
    match risk_assessment report with
    | Assessment overall_risk _ _ _ => overall_risk
    | _ => "low"
    end in
  let general :=
    if String.eqb risk_level "critical" then
      [ "Implement phased rollout with rollback plan";
        "Create comprehensive test suite covering all impacts";
        "Set up monitoring for all affected entities";
        "Prepare hotfix deployment process" ]
    else if String.eqb risk_level "high" then
      [ "Perform staged deployment";
        "Enhanced testing of affected components";
        "Monitor key metrics during rollout" ]
    else [] in
  let impacts := (direct_impacts report ++ indirect_impacts report)%list in
  (general
   ++ (if has_impact_type "implementation_change" impacts
       then ["Update related contracts and BDD scenarios"] else [])
   ++ (if has_impact_type "dependency_impact" impacts
       then ["Verify dependency compatibility"] else [])
   ++ (if has_impact_type "contract_validation" impacts
       then ["Re-validate all affected contracts"] else [])
   ++ (if (1 <? List.length (affected_layers report))%nat
       then ["Coordinate changes across affected layers"] else []))%list.

Definition _generate_testing_recommendations (report : ImpactReport) : list string :=
  let total_impacts :=
    (List.length (direct_impacts report)
     + List.length (indirect_impacts report))%nat in
  let layers := affected_layers report in
  ([ "Unit tests for modified entity";
     "Integration tests for direct impacts" ]
   ++ (if (5 <? total_impacts)%nat
       then [ "Regression test suite execution";
              "End-to-end testing of affected workflows" ]
       else [])
   ++ (if mem (VStr "foundation") layers
       then ["Infrastructure and configuration testing"] else [])
   ++ (if mem (VStr "application") layers
       then ["Business logic validation testing"] else [])
   ++ (if mem (VStr "deployment") layers
       then ["Deployment and operational testing"] else [])
   ++ (if has_impact_type "contract_validation"
            (direct_impacts report ++ indirect_impacts report)%list
       then ["Contract compliance verification"] else []))%list.

(** The [except] clause of [analyze_change_impact]: it prints the text
    of the exception and puts it in the report, which keeps what the
    phases before the exception have assigned.  An exception that the
    [print] of the clause raises leaves the call. *)
Definition failed (e : exn) (report : ImpactReport) : ImpactReport :=
  mkImpactReport (source_entity report) (change_type report)
    (analysis_timestamp report) (direct_impacts report) (indirect_impacts report)
    (cascade_impacts report) (AssessmentError (str_of e))
    (mitigation_strategies report) (affected_layers report)
    (testing_recommendations report).

Definition phase {A} (r : result A) (report : ImpactReport)
    (k : A -> result ImpactReport) : result ImpactReport :=
  match r with
  | Ok x => k x
  | Raise e =>
      (_ <- print stdout [Str "❌ Impact analysis failed: "; str_of e] ;;
       Ok (failed e report))%result
  | OutOfFuel => OutOfFuel
  end.

Definition analyze_change_impact (fuel : nat) (entity_id change_type : string)
  : M ImpactReport :=
  lift (print stdout [ Str "🔍 Analyzing impact of "; Str change_type;
                       Str " to "; Str entity_id; Str "..." ]) ;;;
  timestamp <- now_isoformat ;;
  let report :=
    mkImpactReport entity_id change_type timestamp [] [] [] NoAssessment [] [] [] in
  lift
    (phase (source_entity <- entity_index_get (VStr entity_id) ;;
            if negb (py_bool source_entity)
            then Raise (ValueError ("Entity " ++ entity_id ++ " not found"))
            else Ok source_entity)%result report (fun source_entity =>
     phase (_analyze_direct_impacts entity_id change_type) report (fun direct =>
     let report :=
       mkImpactReport entity_id change_type timestamp direct [] [] NoAssessment
         [] [] [] in
     phase (_analyze_indirect_impacts entity_id direct) report (fun indirect =>
     let report :=
       mkImpactReport entity_id change_type timestamp direct indirect []
         NoAssessment [] [] [] in
     phase (_analyze_cascade_impacts fuel entity_id (direct ++ indirect)%list)
       report (fun cascade =>
     let report :=
       mkImpactReport entity_id change_type timestamp direct indirect cascade
         NoAssessment [] [] [] in
     phase (_perform_risk_assessment source_entity report) report (fun risk =>
     let report :=
       mkImpactReport entity_id change_type timestamp direct indirect cascade
         risk [] [] [] in
     let strategies := _generate_mitigation_strategies report in
     let report :=
       mkImpactReport entity_id change_type timestamp direct indirect cascade
         risk strategies [] [] in
     phase (_analyze_affected_layers report) report (fun layers =>
     let report :=
       mkImpactReport entity_id change_type timestamp direct indirect cascade
         risk strategies layers [] in
     Ok (mkImpactReport entity_id change_type timestamp direct indirect cascade
           risk strategies layers
           (_generate_testing_recommendations report))))))))).

(** The entities at the other end of the relationships of [current]. *)
Definition connected (current : value) : result (list value) :=
  rmap (@concat value)
    (rmapM (fun rel =>
              (source <- py_get rel "source" VNone ;;
               if value_eqb source current
               then target <- py_get rel "target" VNone ;; Ok [target]
               else target <- py_get rel "target" VNone ;;
                    if value_eqb target current then Ok [source] else Ok [])%result)
           (relationships self)).

(** The inner loop of [_find_shortest_path]: the path found, or the set
    and the queue after the loop. *)
Fixpoint visit (target : string) (path : list value) (next_entities : list value)
    (visited : list value) (queue : list (value * list value))
  : result (list value + list value * list (value * list value)) :=
  match next_entities with
  | [] => Ok (inr (visited, queue))
  | next_entity :: t =>
      if py_is next_entity target then Ok (inl (path ++ [VStr target])%list)
      else
        (_ <- hashable next_entity ;;
         if negb (mem next_entity visited)
         then visit target path t (visited ++ [next_entity])%list
                (queue ++ [(next_entity, (path ++ [next_entity])%list)])%list
         else visit target path t visited queue)%result
  end.

Fixpoint shortest_path_loop (fuel : nat) (target : string) (visited : list value)
    (queue : list (value * list value)) : result (option (list value)) :=
  match queue with
  | [] => Ok None
  | (current, path) :: queue =>
      match fuel with
      | O => OutOfFuel
      | S fuel' =>
          (next_entities <- connected current ;;
           found <- visit target path next_entities visited queue ;;
           match found with
           | inl p => Ok (Some p)
           | inr (visited, queue) => shortest_path_loop fuel' target visited queue
           end)%result
      end
  end.

Definition _find_shortest_path (fuel : nat) (source target : string)
  : result (option (list value)) :=
  if String.eqb source target then Ok (Some [VStr source])
  else shortest_path_loop fuel target [VStr source] [(VStr source, [VStr source])].

Definition _calculate_entity_impact (fuel : nat)
    (source_entity_id target_entity_id : string) : result string :=
  (path <- _find_shortest_path fuel source_entity_id target_entity_id ;;
   Ok (match path with
       | None | Some [] => "none"
       | Some p =>
           if (List.length p =? 2)%nat then "high"
           else if (List.length p =? 3)%nat then "medium"
           else "low"
       end))%result.

(** [d[k] = v] for the two levels of the impact matrix *)
Fixpoint set_key {V} (d : list (string * V)) (k : string) (v : V)
  : list (string * V) :=
  match d with
  | [] => [(k, v)]
  | (k', v') :: t =>
      if String.eqb k' k then (k', v) :: t else (k', v') :: set_key t k v
  end.

Definition generate_impact_matrix (fuel : nat) (entities : list string)
  : result (list (string * list (string * string))) :=
  rfold
    (fun impact_matrix source_entity =>
       (row <-
          rfold
            (fun row target_entity =>
               if negb (String.eqb source_entity target_entity) then
                 impact_level <-
                   _calculate_entity_impact fuel source_entity target_entity ;;
                 Ok (set_key row target_entity impact_level)
               else Ok row)
            entities [] ;;
        Ok (set_key impact_matrix source_entity row))%result)
    entities [].







(** [simulate_entity_removal]: the dictionary it returns.
    [affected_bdd_scenarios] is never filled; [sim_error] is [str(e)] of
    the exception that the [except] clause caught. *)
Record removal_simulation : Type := mkSimulation {
  removed_entity : string;
  broken_relationships : list value;
  orphaned_entities : list value;
  cascade_removals : list value;
  affected_contracts : list value;
  affected_bdd_scenarios : list value;
  recovery_plan : list string;
  simulation_timestamp : string;
  sim_error : option str_text
}.

Definition _generate_recovery_plan (simulation_result : removal_simulation)
  : list string :=
  ((match orphaned_entities simulation_result with
    | [] => []
    | _ => ["Create alternative implementations for orphaned requirements"]
    end)
   ++ (match cascade_removals simulation_result with
       | [] => []
       | _ => ["Establish alternative dependencies for cascade-affected entities"]
       end)
   ++ (match affected_contracts simulation_result with
       | [] => []
       | _ => ["Update or remove affected contracts"]
       end)
   ++ (match broken_relationships simulation_result with
       | [] => []
       | _ => ["Re-establish critical relationships with alternative entities"]
       end)
   ++ [ "Update documentation and traceability matrix";
        "Run full SSOT verification after changes" ])%list.

(** The [except] clause of [simulate_entity_removal]: the dictionary keeps
    what the [try] block has put in it. *)
Definition sim_failed (e : exn) (s : removal_simulation) : removal_simulation :=
  mkSimulation (removed_entity s) (broken_relationships s) (orphaned_entities s)
    (cascade_removals s) (affected_contracts s) (affected_bdd_scenarios s)
    (recovery_plan s) (simulation_timestamp s) (Some (str_of e)).

Definition stopped {A} (r : result A) (s : removal_simulation)
    (k : A -> result removal_simulation) : result removal_simulation :=
  match r with
  | Ok x => k x
  | Raise e => Ok (sim_failed e s)
  | OutOfFuel => OutOfFuel
  end.

(** The bodies of its four loops. *)
Definition orphaned_by (entity_id : string) (rel : value) : result (list value) :=
  (ty <- py_get rel "type" VNone ;;
   source <- py_get rel "source" VNone ;;
   if py_is ty "implements" && py_is source entity_id then
     target <- py_get rel "target" VNone ;;
     target_entity <- entity_index_get target ;;
     if py_bool target_entity
     then id <- py_getitem target_entity "id" ;; Ok [id]
     else Ok []
   else Ok [])%result.

Definition dependent_of (entity_id : string) (r : value) : result (option value) :=
  (ty <- py_get r "type" VNone ;;
   target <- py_get r "target" VNone ;;
   if py_is ty "depends_on" && py_is target entity_id
   then source <- py_get r "source" VNone ;; Ok (Some source)
   else Ok None)%result.

Definition alternative_dependency (entity_id : string) (dep_entity_id : value)
    (r : value) : result bool :=
  (source <- py_get r "source" VNone ;;
   ty <- py_get r "type" VNone ;;
   target <- py_get r "target" VNone ;;
   Ok (value_eqb source dep_entity_id && py_is ty "depends_on"
       && negb (py_is target entity_id)))%result.

Definition cascade_removal_of (entity_id : string) (dep_entity_id : value)
  : result (list value) :=
  (alternative_deps <-
     rfilter (alternative_dependency entity_id dep_entity_id)
             (relationships self) ;;
   Ok (match alternative_deps with
       | [] => [dep_entity_id]
       | _ => []
       end))%result.

Definition contract_affected_by (entity_id : string) (entity : value)
  : result (list value) :=
  (ty <- py_get entity "type" VNone ;;
   if py_is ty "contract" then
     applies_to <- py_get entity "applies_to" (VDict []) ;;
     entity_name <- py_get applies_to "entity_name" VNone ;;
     if py_is entity_name entity_id
     then id <- py_getitem entity "id" ;; Ok [id]
     else Ok []
   else Ok [])%result.

Definition simulate_entity_removal (entity_id : string) : M removal_simulation :=
  lift (print stdout [ Str "🎭 Simulating removal of "; Str entity_id;
                       Str "..." ]) ;;;
  timestamp <- now_isoformat ;;
  let s0 := mkSimulation entity_id [] [] [] [] [] [] timestamp None in
  lift
    (stopped (rfilter (touches (VStr entity_id)) (relationships self)) s0
       (fun related_relationships =>
     let (orphaned, ended) :=
       collect (fun rel => once (orphaned_by entity_id rel))
               related_relationships in
     let s1 := mkSimulation entity_id related_relationships orphaned [] [] [] []
                 timestamp None in
     stopped ended s1 (fun _ =>
     stopped (rfilter_map (dependent_of entity_id) related_relationships) s1
       (fun dependent_entities =>
     let (cascade, ended) :=
       collect (fun dep_entity_id =>
                  once (cascade_removal_of entity_id dep_entity_id))
               dependent_entities in
     let s2 := mkSimulation entity_id related_relationships orphaned cascade []
                 [] [] timestamp None in
     stopped ended s2 (fun _ =>
     let (contracts, ended) :=
       collect (fun entity => once (contract_affected_by entity_id entity))
               (entities self) in
     let s3 := mkSimulation entity_id related_relationships orphaned cascade
                 contracts [] [] timestamp None in
     stopped ended s3 (fun _ =>
     Ok (mkSimulation entity_id related_relationships orphaned cascade
           contracts [] (_generate_recovery_plan s3) timestamp None))))))).

End Methods.

End ImpactAnalyzer.

(** ** sync-engine.py *)

Module SyncEngine.

(** What [load_graphrag_state] has read of the index directory: the keys
    [entities] and [relationships] are there when the files are. *)
Definition graphrag_state_of (s : index_store) : result value :=
  (entities <-
     match entities_json s with
     | None => Ok []
     | Some (Doc l) => Ok [("entities", VList l)]
     | Some Partial => Raise JSONDecodeError
     end ;;
   relationships <-
     match relationships_json s with
     | None => Ok []
     | Some (Doc l) => Ok [("relationships", VList l)]
     | Some Partial => Raise JSONDecodeError
     end ;;
   Ok (VDict (entities ++ relationships)%list))%result.

Record changes : Type := mkChanges {
  ssot_updates : list string;
  graphrag_updates : list value;
  conflicts : list value
}.

Section WithLibrary.

Context (L : library).

Definition _generate_hash (data : value) : string :=
  let content := json_dumps L data in
  substring 0 16 (sha256_hexdigest L content).

(** The entities of [_extract_ssot_entities] are the values of a
    dictionary keyed by id. *)
Definition ssot_entity (id type : string) (spec : value) : value :=
  VDict [ ("id", VStr id);
          ("type", VStr type);
          ("content", spec);
          ("hash", VStr (_generate_hash spec)) ].

Definition extract_section (key type : string) (fr_data : value)
    (entities : list (string * value)) : result (list (string * value)) :=
  (present <- py_in key fr_data ;;
   if present : bool then
     section <- py_getitem fr_data key ;;
     items <- py_items section ;;
     Ok (fold_left (fun entities kv =>
                      dict_set entities (fst kv) (ssot_entity (fst kv) type (snd kv)))
                   items entities)
   else Ok entities)%result.

Definition _extract_ssot_entities (ssot_state : value)
  : result (list (string * value)) :=
  (present <- py_in "framework_requirements" ssot_state ;;
   if present : bool then
     fr_data <- py_getitem ssot_state "framework_requirements" ;;
     entities <- extract_section "functional_requirements"
                   "functional_requirement" fr_data [] ;;
     entities <- extract_section "non_functional_requirements"
                   "non_functional_requirement" fr_data entities ;;
     extract_section "units_of_work" "unit_of_work" fr_data entities
   else Ok [])%result.

Definition _entities_differ (ssot_entity graphrag_entity : value) : result bool :=
  (ssot_hash <- py_get ssot_entity "hash" VNone ;;
   metadata <- py_get graphrag_entity "metadata" (VDict []) ;;
   graphrag_hash <- py_get metadata "hash" VNone ;;
   Ok (negb (value_eqb ssot_hash graphrag_hash)))%result.

Definition is_knowledge (ty : value) : bool :=
  mem ty [VStr "pattern"; VStr "decision"; VStr "lesson"].

Definition detect_changes (ssot_state graphrag_state : value) : result changes :=
  (present <- py_in "entities" graphrag_state ;;
   if present : bool then
     ssot_entities <- _extract_ssot_entities ssot_state ;;
     listed <- rbind (py_getitem graphrag_state "entities") py_iter ;;
     graphrag_entities <- ImpactAnalyzer.build_index [] listed ;;
     ssot_updates <-
       rfilter_map
         (fun kv =>
            let entity_id := fst kv in
            let ssot_entity := snd kv in
            if existsb (fun k => value_eqb (fst k) (VStr entity_id))
                       graphrag_entities
            then
              let graphrag_entity :=
                ImpactAnalyzer.index_get graphrag_entities (VStr entity_id) in
              differ <- _entities_differ ssot_entity graphrag_entity ;;
              Ok (if differ : bool then Some entity_id else None)
            else Ok (Some entity_id))
         ssot_entities ;;
     only_graphrag <-
       rfilter_map
         (fun kv =>
            let entity_id := fst kv in
            let graphrag_entity := snd kv in
            if negb (existsb (fun k => value_eqb (VStr k) entity_id)
                             (dict_keys ssot_entities))
            then
              ty <- py_get graphrag_entity "type" VNone ;;
              Ok (Some (entity_id, is_knowledge ty))
            else Ok None)
         graphrag_entities ;;
     Ok (mkChanges ssot_updates
           (map fst (filter snd only_graphrag))
           (map fst (filter (fun x => negb (snd x)) only_graphrag)))
   else Ok (mkChanges [] [] []))%result.

End WithLibrary.

End SyncEngine.

(** * Statements

    The definitions that the statements of the properties use: the
    notions of the design document, and the graphs and documents of the
    examples. *)

(** ** Severity buckets of the design document *)

(** The three weights and the buckets of section 4.3, in its words: the
    relationship-type weight, the target-entity-type weight, the
    change-type weight, and the level that a sum maps to. *)
Definition relationship_weight (rel_type : value) : nat :=
  if mem rel_type [VStr "implements"; VStr "validates"] then 2
  else if py_is rel_type "depends_on" then 1
  else 0.

Definition entity_weight (entity_type : value) : nat :=
  if mem entity_type [VStr "functional_requirement"; VStr "contract"] then 2
  else if py_is entity_type "unit_of_work" then 1
  else 0.

Definition change_weight (change_type : string) : nat :=
  if String.eqb change_type "removal" then 2
  else if String.eqb change_type "major_modification" then 1
  else 0.

Definition severity_bucket (s : nat) : string :=
  if (s <? 2)%nat then "low"
  else if (s <=? 3)%nat then "medium"
  else if (s <=? 5)%nat then "high"
  else "critical".

(** ** Example graphs *)

Definition entity (id type : string) : value :=
  VDict [("id", VStr id); ("type", VStr type)].

Definition edge (source target type : string) : value :=
  VDict [("source", VStr source); ("target", VStr target); ("type", VStr type)].

(** An analyzer over the entities and relationships given, as [__init__]
    builds it ([None] if an entity has no id). *)
Definition analyzer_of (entities relationships : list value)
  : option ImpactAnalyzer.ImpactAnalyzer :=
  match ImpactAnalyzer.build_index [] entities with
  | Ok index => Some (ImpactAnalyzer.mkImpactAnalyzer entities relationships index)
  | _ => None
  end.

Definition midnight : Clock := fun _ => "2025-01-01T00:00:00".

(** A console in UTF-8.  It has every character but the surrogates, the
    code points that UTF-8 does not encode: an id read from the command
    line or from a JSON document can hold one.  A string is held as the
    bytes of its UTF-8 form, in which a surrogate shows as the byte 237
    followed by a byte from 160 to 191.  The [repr] of a string and the
    texts of the interpreter hold no surrogate. *)
Fixpoint has_surrogate (s : string) : bool :=
  match s with
  | String a (String b _ as t) =>
      ((nat_of_ascii a =? 237)%nat
       && (160 <=? nat_of_ascii b)%nat && (nat_of_ascii b <=? 191)%nat)
      || has_surrogate t
  | _ => false
  end.

Definition utf8 : Console :=
  fun line =>
    if existsb (fun piece => match piece with
                             | Str s => has_surrogate s
                             | _ => false
                             end) line
    then Some UnicodeEncodeError
    else None.

(** The id that is the one surrogate U+DC80. *)
Definition surrogate_id : string :=
  String (ascii_of_nat 237) (String (ascii_of_nat 178)
    (String (ascii_of_nat 128) "")).

Definition no_index : world := mkWorld 0 (mkStore None None None) [].

(** A unit of work that depends on an extension. *)
Definition dependency_graph : ImpactAnalyzer.ImpactAnalyzer :=
  ImpactAnalyzer.mkImpactAnalyzer
    [entity "UoW-001" "unit_of_work"; entity "EXT-001" "extension"]
    [edge "UoW-001" "EXT-001" "depends_on"]
    [ (VStr "UoW-001", entity "UoW-001" "unit_of_work");
      (VStr "EXT-001", entity "EXT-001" "extension") ].

(** A requirement, the unit of work that implements it, a unit of work
    that depends on that one, and twenty-one units of work that depend on
    the latter. *)
Definition fan_ids : list string :=
  [ "UoW-101"; "UoW-102"; "UoW-103"; "UoW-104"; "UoW-105"; "UoW-106"; "UoW-107";
    "UoW-108"; "UoW-109"; "UoW-110"; "UoW-111"; "UoW-112"; "UoW-113"; "UoW-114";
    "UoW-115"; "UoW-116"; "UoW-117"; "UoW-118"; "UoW-119"; "UoW-120"; "UoW-121" ].

Definition fan_entities : list value :=
  entity "FR-001" "functional_requirement"
  :: entity "UoW-001" "unit_of_work"
  :: entity "UoW-002" "unit_of_work"
  :: map (fun id => entity id "unit_of_work") fan_ids.

Definition fan_relationships : list value :=
  edge "UoW-001" "FR-001" "implements"
  :: edge "UoW-002" "UoW-001" "depends_on"
  :: map (fun id => edge id "UoW-002" "depends_on") fan_ids.

Definition fan_graph : ImpactAnalyzer.ImpactAnalyzer :=
  ImpactAnalyzer.mkImpactAnalyzer fan_entities fan_relationships
    (map (fun e => (match e with
                    | VDict d => match dict_get d "id" with Some i => i | None => VNone end
                    | _ => VNone
                    end, e)) fan_entities).

(** The report of a modification of [UoW-001] in [dependency_graph]. *)
Definition dependency_report : ImpactAnalyzer.ImpactReport :=
  Eval vm_compute in
    match fst (ImpactAnalyzer.analyze_change_impact dependency_graph utf8 8
                 "UoW-001" "modification" midnight no_index) with
    | Ok report => report
    | _ => ImpactAnalyzer.mkImpactReport "" "" "" [] [] []
             ImpactAnalyzer.NoAssessment [] [] []
    end.

(** A query engine over an index that holds nothing. *)
Definition empty_engine (knowledge : value) (features : option (list (list string)))
  : SSOTQuery.SSOTQuery :=
  SSOTQuery.mkSSOTQuery [] [] knowledge features.



(** ** Dangling references *)

(** The data model of the design document: a relationship whose target
    does not resolve to a known entity is a dangling reference. *)
Definition id_of (e : value) : value :=
  match e with
  | VDict d => match dict_get d "id" with Some id => id | None => VNone end
  | _ => VNone
  end.



(** Scenario A: [UoW-001 {implements: [FR-001]}] and no [FR-001]. *)
Definition scenario_a : value :=
  VDict [ ("framework_requirements",
           VDict [ ("units_of_work",
                    VDict [ ("UoW-001",
                             VDict [("implements", VList [VStr "FR-001"])]) ]) ]) ].

(** An index of one requirement, and the entity and the relationship
    that the next indexing writes over it. *)
Definition old_index : index_store :=
  mkStore (Some (Doc [entity "FR-001" "functional_requirement"]))
          (Some (Doc []))
          (Some (Doc (VDict [("total_entities", VInt 1)]))).

Definition new_entities : list value :=
  [entity "FR-001" "functional_requirement"; entity "UoW-001" "unit_of_work"].

Definition new_relationships : list value :=
  [edge "UoW-001" "FR-001" "implements"].

(** The world after the new index is written over [old_index]. *)
Definition overwritten : world :=
  snd (SSOTIndexer.save_graphrag_data new_entities new_relationships midnight
         (mkWorld 0 old_index [])).

Definition noon : Clock := fun _ => "2025-01-01T12:00:00".

(** ** Indexer outputs without their timestamps *)

(** The metadata of an entity or of a relationship without the time of
    the run, [last_updated] or [created]. *)
Definition timeless_metadata (m : value) : value :=
  match m with
  | VDict entries =>
      VDict (filter (fun kv => negb (String.eqb (fst kv) "last_updated"
                                     || String.eqb (fst kv) "created"))
                    entries)
  | _ => m
  end.

Definition without_timestamps (v : value) : value :=
  match v with
  | VDict d =>
      VDict (map (fun kv => if String.eqb (fst kv) "metadata"
                            then (fst kv, timeless_metadata (snd kv))
                            else kv) d)
  | _ => v
  end.

(** The content hash stored on an entity. *)
Definition hash_of (e : value) : value :=
  match e with
  | VDict d =>
      match dict_get d "metadata" with
      | Some (VDict m) =>
          match dict_get m "hash" with Some h => h | None => VNone end
      | _ => VNone
      end
  | _ => VNone
  end.

(** Two outcomes agree: the same exception, or values that [R] relates. *)
Definition agree {A} (R : A -> A -> Prop) (r1 r2 : result A) : Prop :=
  match r1, r2 with
  | Ok a, Ok b => R a b
  | Raise e1, Raise e2 => e1 = e2
  | OutOfFuel, OutOfFuel => True
  | _, _ => False
  end.

(** Two computations agree whatever the clocks and the worlds they run
    in. *)
Definition related {A} (R : A -> A -> Prop) (m1 m2 : M A) : Prop :=
  forall c1 w1 c2 w2, agree R (fst (m1 c1 w1)) (fst (m2 c2 w2)).

Definition same_but_time (a b : value) : Prop :=
  without_timestamps a = without_timestamps b.

(** ** Keyword results *)

Definition entity_of (i : SSOTQuery.item) : value :=
  match i with
  | SSOTQuery.Match e _ _ => e
  | _ => VNone
  end.

(** Descending relevance. *)
Definition by_relevance (a b : SSOTQuery.item) : Prop :=
  (SSOTQuery.relevance_of b <= SSOTQuery.relevance_of a)%Q.

(** Two requirements with the one word as their title, the later id
    first, and a query engine over them. *)
Definition requirement (id title : string) : value :=
  VDict [ ("id", VStr id); ("type", VStr "functional_requirement");
          ("title", VStr title) ].

Definition login_engine : SSOTQuery.SSOTQuery :=
  SSOTQuery.mkSSOTQuery
    [requirement "FR-002" "login"; requirement "FR-001" "login"] []
    (VDict []) None.

(** What the keyword query for [login] returns over [login_engine]. *)
Definition login_results : list SSOTQuery.item :=
  Eval vm_compute in
    match SSOTQuery._process_keyword_query login_engine "login" with
    | Ok results => results
    | _ => []
    end.

(** ** Change detection *)

(** The hash stored on an entity of the index, as [_entities_differ]
    reads it. *)
Definition stored_hash (graphrag_entity : value) : result value :=
  rbind (py_get graphrag_entity "metadata" (VDict []))
        (fun metadata => py_get metadata "hash" VNone).

(** A framework document with the one requirement [FR-001]. *)
Definition one_requirement : value :=
  VDict [ ("framework_requirements",
           VDict [ ("functional_requirements",
                    VDict [("FR-001", VDict [("title", VStr "Login")])]) ]) ].

(** A library whose hash is constant, for the examples that do not depend
    on the hash. *)
Definition constant_library : library :=
  mkLibrary (fun _ => "") (fun _ => "").


(** ** Induction on documents *)

(** A dictionary and a list hold documents, so the induction has a
    hypothesis for each of the documents held. *)
Section ValueInduction.

Variable P : value -> Prop.
Hypothesis HNone : P VNone.
Hypothesis HBool : forall b, P (VBool b).
Hypothesis HInt : forall z, P (VInt z).
Hypothesis HStr : forall s, P (VStr s).
Hypothesis HList : forall l, Forall P l -> P (VList l).
Hypothesis HDict : forall d, Forall (fun kv => P (snd kv)) d -> P (VDict d).

Fixpoint value_rect' (v : value) : P v :=
  match v with
  | VNone => HNone
  | VBool b => HBool b
  | VInt z => HInt z
  | VStr s => HStr s
  | VList l =>
      HList l ((fix all (l : list value) : Forall P l :=
                  match l with
                  | [] => Forall_nil P
                  | x :: t => Forall_cons x (value_rect' x) (all t)
                  end) l)
  | VDict d =>
      HDict d ((fix all (d : list (string * value))
                  : Forall (fun kv => P (snd kv)) d :=
                  match d with
                  | [] => Forall_nil _
                  | kv :: t => Forall_cons kv (value_rect' (snd kv)) (all t)
                  end) d)
  end.

End ValueInduction.
(** ** What the impact search keeps

    The properties that the loops of [_analyze_indirect_impacts] and
    [_analyze_cascade_impacts] keep from one iteration to the next. *)

Definition indexed (self : ImpactAnalyzer.ImpactAnalyzer) (k : value) : Prop :=
  In k (map fst (ImpactAnalyzer.entity_index self)).

(** An indirect impact of [entity_id], reached through one of [directs]. *)
Definition indirect_item (self : ImpactAnalyzer.ImpactAnalyzer)
    (entity_id : string) (directs : list ImpactAnalyzer.ImpactItem)
    (item : ImpactAnalyzer.ImpactItem) : Prop :=
  (exists d,
     In d directs
     /\ ImpactAnalyzer.path item
        = [VStr entity_id; ImpactAnalyzer.entity_id d;
           ImpactAnalyzer.entity_id item]
     /\ ImpactAnalyzer.severity item
        = (if String.eqb (ImpactAnalyzer.severity d) "critical" then "high"
           else if String.eqb (ImpactAnalyzer.severity d) "high" then "medium"
           else "low"))
  /\ indexed self (ImpactAnalyzer.entity_id item)
  /\ ImpactAnalyzer.entity_id item <> VStr entity_id
  /\ exists t, ImpactAnalyzer.impact_type item = "indirect_" ++ t.

Definition indirect_invariant (self : ImpactAnalyzer.ImpactAnalyzer)
    (entity_id : string) (directs items : list ImpactAnalyzer.ImpactItem)
  : Prop :=
  Forall (indirect_item self entity_id directs) items
  /\ NoDup (map ImpactAnalyzer.entity_id items).

(** A path of the search that starts at [entity_id]. *)
Definition path_from (entity_id : string) (n : nat) (p : list value) : Prop :=
  hd_error p = Some (VStr entity_id) /\ (n <= List.length p)%nat.

(** A cascade impact of [entity_id]. *)
Definition cascade_item (self : ImpactAnalyzer.ImpactAnalyzer)
    (entity_id : string) (item : ImpactAnalyzer.ImpactItem) : Prop :=
  path_from entity_id 3 (ImpactAnalyzer.path item)
  /\ (List.length (ImpactAnalyzer.path item) <= 5)%nat
  /\ last (ImpactAnalyzer.path item) VNone = ImpactAnalyzer.entity_id item
  /\ ImpactAnalyzer.impact_type item = "cascade"
  /\ ImpactAnalyzer.severity item
     = (if (List.length (ImpactAnalyzer.path item) <=? 4)%nat then "medium"
        else "low")
  /\ indexed self (ImpactAnalyzer.entity_id item).

Definition cascade_invariant (self : ImpactAnalyzer.ImpactAnalyzer)
    (entity_id : string) (visited0 : list value)
    (st : ImpactAnalyzer.cascade_state) : Prop :=
  Forall (cascade_item self entity_id) (ImpactAnalyzer.cs_impacts st)
  /\ Forall (fun q => path_from entity_id 2 (snd q)) (ImpactAnalyzer.cs_queue st)
  /\ NoDup (map ImpactAnalyzer.entity_id (ImpactAnalyzer.cs_impacts st))
  /\ incl (map ImpactAnalyzer.entity_id (ImpactAnalyzer.cs_impacts st))
          (ImpactAnalyzer.cs_visited st)
  /\ incl visited0 (ImpactAnalyzer.cs_visited st)
  /\ Forall (fun item => ~ In (ImpactAnalyzer.entity_id item) visited0)
            (ImpactAnalyzer.cs_impacts st).

(** What the simulation of the removal of [EXT-001] from
    [dependency_graph] returns. *)
Definition extension_removal : ImpactAnalyzer.removal_simulation :=
  Eval vm_compute in
    match fst (ImpactAnalyzer.simulate_entity_removal dependency_graph utf8
                 "EXT-001" midnight no_index) with
    | Ok sim => sim
    | _ => ImpactAnalyzer.mkSimulation "" [] [] [] [] [] [] "" None
    end.

(** ** What the extraction yields

    [yields P m]: the computation [m] leaves the index directory as it
    is and, when it returns, returns a value that has [P]. *)
Definition yields {A} (P : A -> Prop) (m : M A) : Prop :=
  forall (c : Clock) (w : world),
    match m c w with
    | (Ok a, w') => P a /\ index_dir w' = index_dir w /\ past w' = past w
    | (Raise _, w') => index_dir w' = index_dir w /\ past w' = past w
    | (OutOfFuel, _) => False
    end.

(** An entity as the indexer writes it: a dictionary with an id and one
    of the five types that [extract_entities] gives. *)
Definition extracted_entity (e : value) : Prop :=
  exists id type,
    py_getitem e "id" = Ok id
    /\ py_getitem e "type" = Ok (VStr type)
    /\ In type ["functional_requirement"; "non_functional_requirement";
                "unit_of_work"; "contract"; "extension"].

(** A relationship as the indexer writes it. *)
Definition extracted_relationship (r : value) : Prop :=
  exists source target type,
    py_getitem r "source" = Ok source
    /\ py_getitem r "target" = Ok target
    /\ py_getitem r "type" = Ok (VStr type)
    /\ In type ["implements"; "depends_on"; "validates"].

(** ** Paths of the graph

    Two entities are joined when a relationship has one as its source and
    the other as its target. *)
Definition joined (self : ImpactAnalyzer.ImpactAnalyzer) (a b : value) : Prop :=
  exists rel,
    In rel (ImpactAnalyzer.relationships self)
    /\ ((py_get rel "source" VNone = Ok a /\ py_get rel "target" VNone = Ok b)
        \/ (py_get rel "source" VNone = Ok b /\ py_get rel "target" VNone = Ok a)).

(** Every entity of the path is joined to the next one. *)
Fixpoint chain (self : ImpactAnalyzer.ImpactAnalyzer) (p : list value) : Prop :=
  match p with
  | a :: (b :: _) as t => joined self a b /\ chain self t
  | _ => True
  end.

(** A path of the search from [source] that has reached [entity]. *)
Definition path_to (self : ImpactAnalyzer.ImpactAnalyzer) (source : string)
    (entity : value) (p : list value) : Prop :=
  hd_error p = Some (VStr source) /\ last p VNone = entity /\ chain self p.

(** ** The index beside the documents

    What links the entity index that the indexer writes to the dictionary
    that [_extract_ssot_entities] builds from the same documents. *)

Definition type_of (e : value) : value :=
  match e with
  | VDict d => match dict_get d "type" with Some t => t | None => VNone end
  | _ => VNone
  end.

(** The entity that an index built from [l] holds for the id [k]: the last
    one of [l] with that id. *)
Fixpoint latest (l : list value) (k : value) : option value :=
  match l with
  | [] => None
  | e :: t =>
      match latest t k with
      | Some g => Some g
      | None => if value_eqb (id_of e) k then Some e else None
      end
  end.

(** The records of the section [key] of a document: none when the
    document has no such section. *)
Definition section_items (key : string) (container : value)
  : result (list (string * value)) :=
  (present <- py_in key container ;;
   if present : bool
   then section <- py_getitem container key ;; py_items section
   else Ok [])%result.

(** The dictionary [d] of the sync engine and the entities [es] of the
    indexer hold the same records: an id has an entry in [d] exactly when
    [es] has an entity for it, and the hash of the entry is the hash
    stored on the latest such entity. *)
Definition in_sync (L : library) (d : list (string * value)) (es : list value)
  : Prop :=
  forall id : string,
    match dict_get d id with
    | Some e =>
        exists type spec g,
          e = SyncEngine.ssot_entity L id type spec
          /\ latest es (VStr id) = Some g
          /\ stored_hash g = Ok (VStr (SyncEngine._generate_hash L spec))
    | None => latest es (VStr id) = None
    end.

(** An entity of the index that is a contract or an extension. *)
Definition contract_or_extension (e : value) : bool :=
  value_eqb (type_of e) (VStr "contract")
  || value_eqb (type_of e) (VStr "extension").

(** An entity that the indexer builds from a record of the framework
    document: it has the id of the record and the hash of its content. *)
Definition built_from (L : library) (kv : string * value) (g : value) : Prop :=
  id_of g = VStr (fst kv)
  /\ stored_hash g = Ok (VStr (SyncEngine._generate_hash L (snd kv)))
  /\ contract_or_extension g = false
  /\ extracted_entity g.

(** A requirement and a contract for a unit of work, the world after
    they have been indexed, and what the sync engine reads and reports
    then. *)
Definition requirement_and_contract : value :=
  VDict [ ("framework_requirements",
           VDict [ ("functional_requirements",
                    VDict [("FR-001", VDict [("title", VStr "Login")])]) ]);
          ("contracts",
           VDict [ ("login",
                    VDict [ ("contract_id", VStr "CT-001");
                            ("applies_to",
                             VDict [ ("entity_type", VStr "uow");
                                     ("entity_name", VStr "UoW-001") ]) ]) ]) ].

Definition indexed_run : result value * world :=
  Eval vm_compute in
    SSOTIndexer.index_ssot constant_library requirement_and_contract midnight
      no_index.

Definition indexed_state : value :=
  Eval vm_compute in
    match SyncEngine.graphrag_state_of (index_dir (snd indexed_run)) with
    | Ok state => state
    | _ => VNone
    end.

(** ** Dependency cycles

    Entities each of which has a dependent unit of work among the
    entities again; it can have other dependents as well. *)
Definition dependency_cycle (self : SSOTQuery.SSOTQuery) (cycle : list value)
  : Prop :=
  forall e,
    In e cycle ->
    exists id dependents dependent,
      py_getitem e "id" = Ok id
      /\ SSOTQuery._find_dependent_uows self id = Ok dependents
      /\ In dependent dependents
      /\ In dependent cycle.

(** Two units of work that depend on each other; the first implements
    [FR-001]. *)
Definition cyclic_engine : SSOTQuery.SSOTQuery :=
  SSOTQuery.mkSSOTQuery
    [ entity "FR-001" "functional_requirement";
      entity "UoW-001" "unit_of_work"; entity "UoW-002" "unit_of_work" ]
    [ edge "UoW-001" "FR-001" "implements";
      edge "UoW-001" "UoW-002" "depends_on";
      edge "UoW-002" "UoW-001" "depends_on" ]
    (VDict []) None.

(** The same with a third unit of work, which depends on the first and
    has no dependent. *)
Definition cycle_with_dependent : SSOTQuery.SSOTQuery :=
  SSOTQuery.mkSSOTQuery
    [ entity "FR-001" "functional_requirement";
      entity "UoW-001" "unit_of_work"; entity "UoW-002" "unit_of_work";
      entity "UoW-003" "unit_of_work" ]
    [ edge "UoW-001" "FR-001" "implements";
      edge "UoW-003" "UoW-001" "depends_on";
      edge "UoW-001" "UoW-002" "depends_on";
      edge "UoW-002" "UoW-001" "depends_on" ]
    (VDict []) None.

(** ** The ids of a query text

    The first [k] characters of [s] are none of them an [n] or an [N]. *)
Fixpoint covered (k : nat) (s : string) : Prop :=
  match k, s with
  | S k', String c t => lower_char c <> "n"%char /\ covered k' t
  | _, _ => True
  end.

(** * Properties *)

(** ** Equality of documents *)

Lemma value_eqb_eq : forall a b, value_eqb a b = true <-> a = b.
Proof.
  intros a. induction a using value_rect'; intros v; destruct v; simpl;
    try (split; [discriminate | intros E; discriminate E]).
  - tauto.
  - rewrite Bool.eqb_true_iff. split; congruence.
  - rewrite Z.eqb_eq. split; congruence.
  - rewrite String.eqb_eq. split; congruence.
  - revert l0. induction H as [|x t Hx _ IH]; intros [|y t'];
      try (split; [discriminate | intros E; discriminate E]).
    + tauto.
    + rewrite andb_true_iff, Hx. specialize (IH t').
      split.
      * intros [-> Ht]. apply IH in Ht. congruence.
      * intros E. injection E as -> ->. split; [reflexivity|].
        apply IH. reflexivity.
  - revert d0. induction H as [|[k x] t Hx _ IH]; intros [|[k' y] t'];
      try (split; [discriminate | intros E; discriminate E]).
    + tauto.
    + simpl in Hx. rewrite !andb_true_iff, Hx, String.eqb_eq. specialize (IH t').
      split.
      * intros [[-> ->] Ht]. apply IH in Ht. congruence.
      * intros E. injection E as -> -> ->. repeat split.
        apply IH. reflexivity.
Qed.

Lemma value_eqb_refl : forall a, value_eqb a a = true.
Proof. intros a. apply value_eqb_eq. reflexivity. Qed.

Lemma value_eqb_neq : forall a b, value_eqb a b = false <-> a <> b.
Proof.
  intros a b. rewrite <- value_eqb_eq. destruct (value_eqb a b); split; congruence.
Qed.

Lemma mem_In : forall x l, mem x l = true <-> In x l.
Proof.
  intros x l. unfold mem. rewrite existsb_exists. split.
  - intros [y [Hy E]]. apply value_eqb_eq in E. subst. assumption.
  - intros H. exists x. split; [assumption | apply value_eqb_refl].
Qed.

Lemma mem_not_In : forall x l, mem x l = false <-> ~ In x l.
Proof.
  intros x l. rewrite <- mem_In. destruct (mem x l); split; congruence.
Qed.

(** ** Loops that can raise *)

Lemma Ok_inj : forall {A} (a b : A), Ok a = Ok b -> a = b.
Proof. intros A a b H. injection H as ->. reflexivity. Qed.


Lemma rmapM_Ok : forall {A B} (f : A -> result B) l ys,
  rmapM f l = Ok ys -> Forall2 (fun x y => f x = Ok y) l ys.
Proof.
  induction l as [|x t IH]; simpl; intros ys H.
  - injection H as <-. constructor.
  - destruct (f x) eqn:Hx; try discriminate. simpl in H.
    destruct (rmapM f t) eqn:Ht; try discriminate. simpl in H.
    injection H as <-. constructor; auto.
Qed.

Lemma rfilter_Ok : forall {A} (p : A -> result bool) l out,
  rfilter p l = Ok out ->
  forall x, In x out -> In x l /\ p x = Ok true.
Proof.
  induction l as [|y t IH]; simpl; intros out H x Hin.
  - injection H as <-. contradiction.
  - destruct (p y) eqn:Hy; try discriminate. simpl in H.
    destruct (rfilter p t) eqn:Ht; try discriminate. simpl in H.
    injection H as <-. destruct a.
    + destruct Hin as [<- | Hin]; [tauto|].
      destruct (IH _ eq_refl x Hin). tauto.
    + destruct (IH _ eq_refl x Hin). tauto.
Qed.

Lemma rfilter_map_Ok : forall {A B} (f : A -> result (option B)) l out,
  rfilter_map f l = Ok out ->
  forall y, In y out <-> exists x, In x l /\ f x = Ok (Some y).
Proof.
  induction l as [|x t IH]; simpl; intros out H y.
  - injection H as <-. simpl. split; [contradiction | intros [x [[] _]]].
  - destruct (f x) eqn:Hx; try discriminate. simpl in H.
    destruct (rfilter_map f t) eqn:Ht; try discriminate. simpl in H.
    injection H as <-. specialize (IH _ eq_refl y).
    destruct a as [z|]; simpl; rewrite ?IH; split.
    + intros [<- | [x' [Hin E]]]; [exists x; tauto | exists x'; tauto].
    + intros [x' [[<- | Hin] E]].
      * left. congruence.
      * right. exists x'. tauto.
    + intros [x' [Hin E]]. exists x'. tauto.
    + intros [x' [[<- | Hin] E]]; [congruence | exists x'; tauto].
Qed.

Lemma in_concat_Forall2 : forall {A B} (R : A -> list B -> Prop) l ls y,
  Forall2 R l ls -> In y (concat ls) -> exists x ys, In x l /\ R x ys /\ In y ys.
Proof.
  intros A B R l ls y H. induction H as [|x ys l ls Hx _ IH]; simpl.
  - contradiction.
  - rewrite in_app_iff. intros [Hy | Hy].
    + exists x, ys. tauto.
    + destruct (IH Hy) as [x' [ys' [? [? ?]]]]. exists x', ys'. tauto.
Qed.

(** ** The impact analyzer *)

Lemma index_get_absent : forall index k,
  ~ In k (map fst index) -> ImpactAnalyzer.index_get index k = VNone.
Proof.
  induction index as [|[k' v] t IH]; simpl; intros k H.
  - reflexivity.
  - destruct (value_eqb k' k) eqn:E.
    + apply value_eqb_eq in E. tauto.
    + apply IH. tauto.
Qed.



(** C6, as the design document states it, fails.  For the id [FR-404],
    which the graph does not have, the caller gets a report like that of
    an analysis that found nothing, with a text as its risk assessment.
    And for an id that the console cannot encode, here the one surrogate
    U+DC80, which the graph does not have either, the caller gets no
    result: the [UnicodeEncodeError] of the first [print] leaves the
    call. *)
Lemma analyze_change_impact_entity_not_found_counterexample :
  fst (ImpactAnalyzer.analyze_change_impact dependency_graph utf8 0 "FR-404"
         "removal" midnight no_index)
  = Ok (ImpactAnalyzer.mkImpactReport "FR-404" "removal"
          "2025-01-01T00:00:00" [] [] []
          (ImpactAnalyzer.AssessmentError (Str "Entity FR-404 not found"))
          [] [] [])
  /\ ~ In (VStr surrogate_id)
          (map fst (ImpactAnalyzer.entity_index dependency_graph))
  /\ ImpactAnalyzer.analyze_change_impact dependency_graph utf8 0 surrogate_id
       "removal" midnight no_index
     = (Raise UnicodeEncodeError, no_index).
Proof.
  split; [vm_compute; reflexivity |]. split; [| vm_compute; reflexivity].
  simpl. intros [E | [E | []]]; discriminate E.
Qed.

Lemma severity_formula : forall rel affected_entity change_type s,
  ImpactAnalyzer._calculate_impact_severity rel affected_entity change_type
  = Ok s ->
  exists rel_type entity_type,
    py_get rel "type" (VStr "unknown") = Ok rel_type
    /\ py_get affected_entity "type" (VStr "unknown") = Ok entity_type
    /\ s = severity_bucket (1 + relationship_weight rel_type
                            + entity_weight entity_type
                            + change_weight change_type).
Proof.
  intros rel affected change_type s.
  unfold ImpactAnalyzer._calculate_impact_severity.
  destruct (py_get rel "type" (VStr "unknown")) as [rt| |]; try discriminate.
  cbv beta iota delta [rbind].
  destruct (py_get affected "type" (VStr "unknown")) as [et| |]; try discriminate.
  intros H. apply Ok_inj in H. subst s. exists rt, et.
  split; [reflexivity|]. split; [reflexivity|].
  unfold relationship_weight, entity_weight, change_weight.
  destruct (mem rt _); [| destruct (py_is rt _)];
    (destruct (mem et _); [| destruct (py_is et _)]);
    (destruct (String.eqb change_type "removal");
     [| destruct (String.eqb change_type "major_modification")]);
    reflexivity.
Qed.

Lemma direct_impact_of_severity :
  forall self entity_id change_type rel items impact,
    ImpactAnalyzer.direct_impact_of self entity_id change_type rel = Ok items ->
    In impact items ->
    exists rel_type entity_type,
      ImpactAnalyzer.other_end (VStr entity_id) rel
      = Ok (ImpactAnalyzer.entity_id impact)
      /\ py_get rel "type" (VStr "unknown") = Ok rel_type
      /\ py_get (ImpactAnalyzer.index_get (ImpactAnalyzer.entity_index self)
                   (ImpactAnalyzer.entity_id impact))
                "type" (VStr "unknown") = Ok entity_type
      /\ ImpactAnalyzer.severity impact
         = severity_bucket (1 + relationship_weight rel_type
                            + entity_weight entity_type
                            + change_weight change_type).
Proof.
  intros self entity_id change_type rel items impact.
  unfold ImpactAnalyzer.direct_impact_of.
  destruct (ImpactAnalyzer.other_end (VStr entity_id) rel) as [aid| |];
    try discriminate.
  simpl. unfold ImpactAnalyzer.entity_index_get.
  destruct (hashable aid); try discriminate. simpl.
  destruct (py_bool _).
  - destruct (ImpactAnalyzer._determine_impact_type rel change_type);
      try discriminate. simpl.
    destruct (ImpactAnalyzer._calculate_impact_severity rel _ change_type)
      as [s| |] eqn:Hs; try discriminate. simpl.
    destruct (py_get _ "type" (VStr "unknown")) eqn:Ht; try discriminate. simpl.
    destruct (ImpactAnalyzer._generate_impact_description rel _ change_type);
      try discriminate. simpl.
    destruct (ImpactAnalyzer._generate_impact_recommendations rel _
                change_type); try discriminate. simpl.
    intros H. injection H as <-. intros [<- | []]. simpl.
    destruct (severity_formula _ _ _ _ Hs) as [rt [et [H1 [H2 H3]]]].
    exists rt, et. tauto.
  - intros H. injection H as <-. contradiction.
Qed.

Lemma _analyze_direct_impacts_severity :
  forall self entity_id change_type items,
    ImpactAnalyzer._analyze_direct_impacts self entity_id change_type = Ok items ->
    Forall (fun impact =>
              exists rel rel_type entity_type,
                In rel (ImpactAnalyzer.relationships self)
                /\ ImpactAnalyzer.touches (VStr entity_id) rel = Ok true
                /\ ImpactAnalyzer.other_end (VStr entity_id) rel
                   = Ok (ImpactAnalyzer.entity_id impact)
                /\ py_get rel "type" (VStr "unknown") = Ok rel_type
                /\ py_get (ImpactAnalyzer.index_get
                             (ImpactAnalyzer.entity_index self)
                             (ImpactAnalyzer.entity_id impact))
                          "type" (VStr "unknown") = Ok entity_type
                /\ ImpactAnalyzer.severity impact
                   = severity_bucket (1 + relationship_weight rel_type
                                      + entity_weight entity_type
                                      + change_weight change_type))
           items.
Proof.
  intros self entity_id change_type items.
  unfold ImpactAnalyzer._analyze_direct_impacts.
  destruct (rfilter _ _) as [rels| |] eqn:Hf; try discriminate. simpl.
  destruct (rmapM _ rels) as [ls| |] eqn:Hm; try discriminate. simpl.
  intros H. injection H as <-.
  apply Forall_forall. intros impact Hin.
  destruct (in_concat_Forall2 _ _ _ _ (rmapM_Ok _ _ _ Hm) Hin)
    as [rel [ys [Hrel [Hys Hy]]]].
  destruct (rfilter_Ok _ _ _ Hf rel Hrel) as [Hin' Ht].
  destruct (direct_impact_of_severity _ _ _ _ _ _ Hys Hy)
    as [rt [et [H1 [H2 [H3 H4]]]]].
  exists rel, rt, et. tauto.
Qed.

(** The outcome that the goal examines next. *)
Ltac case_result :=
  match goal with
  | |- (match ?r with Ok _ => _ | Raise _ => _ | OutOfFuel => _ end) = _ -> _ =>
      destruct r
  end.

(** A line is printed: when the console raises, nothing is returned. *)
Ltac printed :=
  unfold print;
  match goal with
  | |- context [match ?stdout ?line with Some _ => _ | None => _ end] =>
      destruct (stdout line) as [?|]
  end;
  cbn [rbind]; [discriminate |].

Lemma report_direct_impacts :
  forall self stdout fuel entity_id change_type c w report,
    fst (ImpactAnalyzer.analyze_change_impact self stdout fuel entity_id change_type c w)
    = Ok report ->
    ImpactAnalyzer.direct_impacts report = []
    \/ ImpactAnalyzer._analyze_direct_impacts self entity_id change_type
       = Ok (ImpactAnalyzer.direct_impacts report).
Proof.
  intros self stdout fuel entity_id change_type c w report.
  unfold ImpactAnalyzer.analyze_change_impact, bind, now_isoformat, lift.
  unfold print at 1. destruct (stdout _) as [e|]; [discriminate |].
  cbv beta iota zeta delta [fst].
  unfold ImpactAnalyzer.phase at 1.
  case_result; [| printed; intros H; injection H as <-; auto | discriminate].
  unfold ImpactAnalyzer.phase at 1.
  destruct (ImpactAnalyzer._analyze_direct_impacts self entity_id change_type)
    as [direct| |];
    [| printed; intros H; injection H as <-; auto | discriminate].
  repeat (unfold ImpactAnalyzer.phase at 1;
          case_result;
          [| printed; intros H; injection H as <-; auto | discriminate]).
  intros H; injection H as <-; auto.
Qed.

(** C3, as the code has it.  The severity of every direct impact of
    [analyze_change_impact] is the bucket of the sum s = 1 + the
    relationship-type weight + the weight of the type of the affected
    entity + the change-type weight, with the buckets of the design
    document (s < 2 low, 2-3 medium, 4-5 high, s >= 6 critical): the sum
    starts from a base of 1. *)
Theorem direct_impact_severity :
  forall (self : ImpactAnalyzer.ImpactAnalyzer) (stdout : Console) (fuel : nat)
         (entity_id change_type : string) (c : Clock) (w : world)
         (report : ImpactAnalyzer.ImpactReport),
    fst (ImpactAnalyzer.analyze_change_impact self stdout fuel entity_id change_type c w)
    = Ok report ->
    Forall (fun impact =>
              exists rel rel_type entity_type,
                In rel (ImpactAnalyzer.relationships self)
                /\ ImpactAnalyzer.touches (VStr entity_id) rel = Ok true
                /\ ImpactAnalyzer.other_end (VStr entity_id) rel
                   = Ok (ImpactAnalyzer.entity_id impact)
                /\ py_get rel "type" (VStr "unknown") = Ok rel_type
                /\ py_get (ImpactAnalyzer.index_get
                             (ImpactAnalyzer.entity_index self)
                             (ImpactAnalyzer.entity_id impact))
                          "type" (VStr "unknown") = Ok entity_type
                /\ ImpactAnalyzer.severity impact
                   = severity_bucket (1 + relationship_weight rel_type
                                      + entity_weight entity_type
                                      + change_weight change_type))
           (ImpactAnalyzer.direct_impacts report).
Proof.
  intros self stdout fuel entity_id change_type c w report H.
  destruct (report_direct_impacts _ _ _ _ _ _ _ _ H) as [-> | Hd].
  - constructor.
  - exact (_analyze_direct_impacts_severity _ _ _ _ Hd).
Qed.

Lemma direct_impact_severity_witness :
  fst (ImpactAnalyzer.analyze_change_impact dependency_graph utf8 8 "UoW-001"
         "modification" midnight no_index)
  = Ok dependency_report
  /\ Forall (fun impact =>
               exists rel rel_type entity_type,
                 In rel (ImpactAnalyzer.relationships dependency_graph)
                 /\ ImpactAnalyzer.touches (VStr "UoW-001") rel = Ok true
                 /\ ImpactAnalyzer.other_end (VStr "UoW-001") rel
                    = Ok (ImpactAnalyzer.entity_id impact)
                 /\ py_get rel "type" (VStr "unknown") = Ok rel_type
                 /\ py_get (ImpactAnalyzer.index_get
                              (ImpactAnalyzer.entity_index dependency_graph)
                              (ImpactAnalyzer.entity_id impact))
                           "type" (VStr "unknown") = Ok entity_type
                 /\ ImpactAnalyzer.severity impact
                    = severity_bucket (1 + relationship_weight rel_type
                                       + entity_weight entity_type
                                       + change_weight "modification"))
            (ImpactAnalyzer.direct_impacts dependency_report).
Proof.
  assert (H : fst (ImpactAnalyzer.analyze_change_impact dependency_graph utf8 8
                     "UoW-001" "modification" midnight no_index)
              = Ok dependency_report) by (vm_compute; reflexivity).
  split; [exact H |].
  exact (direct_impact_severity dependency_graph utf8 8 "UoW-001" "modification"
           midnight no_index dependency_report H).
Defined.

(** C3, as the design document states it, fails: a modification of a unit
    of work that depends on an extension has the weights 1 + 0 + 0, which
    the document maps to low, and the direct impact on the extension is
    medium. *)
Lemma direct_impact_severity_counterexample :
  fst (ImpactAnalyzer.analyze_change_impact dependency_graph utf8 8 "UoW-001"
         "modification" midnight no_index)
  = Ok dependency_report
  /\ map (fun impact => (ImpactAnalyzer.entity_id impact,
                         ImpactAnalyzer.severity impact))
         (ImpactAnalyzer.direct_impacts dependency_report)
     = [(VStr "EXT-001", "medium")]
  /\ severity_bucket (relationship_weight (VStr "depends_on")
                      + entity_weight (VStr "extension")
                      + change_weight "modification")
     = "low".
Proof. repeat split; vm_compute; reflexivity. Qed.

(** C2, at an input where the code exceeds the bound.  [UoW-002] is an
    indirect impact of a change of [FR-001], and twenty-one units of work
    depend on it: the one iteration of the search that visits [UoW-002]
    appends all twenty-one to [cascade_impacts], and the bound of 20 is
    only tested between iterations. *)
Theorem cascade_impacts_exceed_twenty :
  rmap (fun report => List.length (ImpactAnalyzer.cascade_impacts report))
       (fst (ImpactAnalyzer.analyze_change_impact fan_graph utf8 64 "FR-001"
               "modification" midnight no_index))
  = Ok 21%nat.
Proof. vm_compute. reflexivity. Qed.

(** ** The query engine *)

(** C5, as the design document states it, fails: a keyword query with an
    empty text is a successful query without results. *)
Lemma query_empty_text_counterexample :
  fst (SSOTQuery.query (empty_engine (VDict []) None) 0 "" "keyword"
         midnight no_index)
  = Ok (SSOTQuery.mkQueryResult "" []
          (SSOTQuery.mkMetadata None "keyword" "2025-01-01T00:00:00" (Some 0%nat))
          (Some ("2025-01-01T00:00:00", "2025-01-01T00:00:00"))).
Proof. vm_compute. reflexivity. Qed.

(** C5, as the code has it.  With an empty text, a query of type auto,
    keyword, relationship or impact, and of a type that the engine does
    not know, is a successful query with an empty result list and no
    error: the text has no token and no entity id to look up.  A pattern,
    coverage or gap query does not look at the text for this. *)
Theorem query_empty_text :
  forall (self : SSOTQuery.SSOTQuery) (fuel : nat) (query_type : string)
         (c : Clock) (w : world),
    query_type <> "pattern" -> query_type <> "coverage" -> query_type <> "gap" ->
    fst (SSOTQuery.query self fuel "" query_type c w)
    = Ok (SSOTQuery.mkQueryResult "" []
            (SSOTQuery.mkMetadata None
               (if String.eqb query_type "auto" then "keyword" else query_type)
               (c (S (ticks w))) (Some 0%nat))
            (Some (c (ticks w), c (S (ticks w))))).
Proof.
  intros self fuel query_type c w Hp Hc Hg.
  unfold SSOTQuery.query.
  destruct (String.eqb query_type "auto") eqn:Hauto.
  - reflexivity.
  - unfold SSOTQuery.query_processors, SSOTQuery.get_processor.
    destruct (String.eqb_spec "keyword" query_type); [reflexivity |].
    destruct (String.eqb_spec "relationship" query_type); [reflexivity |].
    destruct (String.eqb_spec "pattern" query_type); [congruence |].
    destruct (String.eqb_spec "impact" query_type); [reflexivity |].
    destruct (String.eqb_spec "coverage" query_type); [congruence |].
    destruct (String.eqb_spec "gap" query_type); [congruence |].
    reflexivity.
Qed.

Lemma query_empty_text_witness :
  "relationship" <> "pattern" /\ "relationship" <> "coverage"
  /\ "relationship" <> "gap"
  /\ fst (SSOTQuery.query (empty_engine (VDict []) None) 0 "" "relationship"
            midnight no_index)
     = Ok (SSOTQuery.mkQueryResult "" []
             (SSOTQuery.mkMetadata None "relationship" "2025-01-01T00:00:00"
                (Some 0%nat))
             (Some ("2025-01-01T00:00:00", "2025-01-01T00:00:00"))).
Proof.
  assert (Hp : "relationship" <> "pattern") by discriminate.
  assert (Hc : "relationship" <> "coverage") by discriminate.
  assert (Hg : "relationship" <> "gap") by discriminate.
  exact (conj Hp (conj Hc (conj Hg
           (query_empty_text (empty_engine (VDict []) None) 0 "relationship"
              midnight no_index Hp Hc Hg)))).
Defined.

(** *** Over an index that holds nothing *)


Lemma py_get_fuel : forall o k d, py_get o k d <> OutOfFuel.
Proof. intros o k dflt. destruct o; discriminate. Qed.







Lemma analyze_coverage_gaps_empty : forall knowledge features c w,
  SSOTQuery.analyze_coverage_gaps (empty_engine knowledge features) c w
  = (Ok (SSOTQuery.mkGaps [] [] [] [] (c (ticks w))),
     mkWorld (S (ticks w)) (index_dir w) (past w)).
Proof. reflexivity. Qed.







(** ** The indexer *)


(** C4, as the design document states it, fails: while the new index is
    written over [old_index], the index directory passes through a
    state in which the entity file is not complete, and through one that
    has the new entities beside the old relationships and metadata. *)
Lemma save_graphrag_data_counterexample :
  In (mkStore (Some Partial) (relationships_json old_index)
        (metadata_json old_index)) (past overwritten)
  /\ In (mkStore (Some (Doc new_entities)) (relationships_json old_index)
           (metadata_json old_index)) (past overwritten)
  /\ new_entities <> [entity "FR-001" "functional_requirement"]
  /\ entities_json (index_dir overwritten) = Some (Doc new_entities)
  /\ relationships_json (index_dir overwritten) = Some (Doc new_relationships).
Proof.
  split; [vm_compute; tauto |]. split; [vm_compute; tauto |].
  split; [discriminate |]. split; reflexivity.
Qed.

(** C4, as the code has it.  [save_graphrag_data] writes the three files
    in place, one after the other: each is opened for writing, which
    empties it, and then holds its new document.  When the metadata can
    be computed, the call returns with the three new documents in the
    index directory, which has passed through the six states listed; when
    computing the metadata raises, the entity and relationship files are
    new and the metadata file is the old one. *)
Theorem save_graphrag_data_steps :
  forall (entities relationships : list value) (c : Clock) (w : world),
    let s0 := index_dir w in
    let s1 := SSOTIndexer.open_entities s0 in
    let s2 := SSOTIndexer.dump_entities entities s1 in
    let s3 := SSOTIndexer.open_relationships s2 in
    let s4 := SSOTIndexer.dump_relationships relationships s3 in
    let s5 := SSOTIndexer.open_metadata s4 in
    match fst (SSOTIndexer.index_metadata entities relationships c w) with
    | Ok metadata =>
        SSOTIndexer.save_graphrag_data entities relationships c w
        = (Ok tt,
           mkWorld (S (ticks w))
             (mkStore (Some (Doc entities)) (Some (Doc relationships))
                (Some (Doc metadata)))
             (s5 :: s4 :: s3 :: s2 :: s1 :: s0 :: past w))
    | Raise e =>
        SSOTIndexer.save_graphrag_data entities relationships c w
        = (Raise e,
           mkWorld (S (ticks w))
             (mkStore (Some (Doc entities)) (Some (Doc relationships))
                (metadata_json s0))
             (s3 :: s2 :: s1 :: s0 :: past w))
    | OutOfFuel =>
        fst (SSOTIndexer.save_graphrag_data entities relationships c w)
        = OutOfFuel
    end.
Proof.
  intros entities relationships c w.
  unfold SSOTIndexer.save_graphrag_data, SSOTIndexer.index_metadata,
    bind, modify_store, now_isoformat, lift, ret.
  cbn [fst snd ticks index_dir past].
  destruct (SSOTIndexer.counts_by_type entities _) as [ec| |];
    [| reflexivity | reflexivity].
  destruct (SSOTIndexer.counts_by_type relationships _) as [rc| |];
    reflexivity.
Qed.

(** *** Two runs of the indexer *)

Lemma related_ret : forall {A} (R : A -> A -> Prop) a b,
  R a b -> related R (ret a) (ret b).
Proof. intros A R a b H c1 w1 c2 w2. exact H. Qed.

Lemma related_lift : forall {A} (r : result A), related eq (lift r) (lift r).
Proof. intros A r c1 w1 c2 w2. destruct r; simpl; auto. Qed.

Lemma related_now : related (fun _ _ => True) now_isoformat now_isoformat.
Proof. intros c1 w1 c2 w2. exact I. Qed.

Lemma related_bind :
  forall {A B} (R : A -> A -> Prop) (R' : B -> B -> Prop) m1 m2 k1 k2,
    related R m1 m2 ->
    (forall a b, R a b -> related R' (k1 a) (k2 b)) ->
    related R' (bind m1 k1) (bind m2 k2).
Proof.
  intros A B R R' m1 m2 k1 k2 Hm Hk c1 w1 c2 w2.
  unfold bind. specialize (Hm c1 w1 c2 w2).
  destruct (m1 c1 w1) as [[a| |] w1'], (m2 c2 w2) as [[b| |] w2'];
    simpl in *; try contradiction; auto.
  apply Hk. exact Hm.
Qed.

Lemma related_mapM :
  forall {A B} (R : B -> B -> Prop) (f : A -> M B) l,
    (forall x, related R (f x) (f x)) ->
    related (Forall2 R) (mapM f l) (mapM f l).
Proof.
  intros A B R f l Hf. induction l as [|x t IH]; simpl.
  - apply related_ret. constructor.
  - apply (related_bind R); [apply Hf |]. intros a b Hab.
    apply (related_bind (Forall2 R)); [exact IH |]. intros l1 l2 Hl.
    apply related_ret. constructor; assumption.
Qed.

Lemma Forall2_concat : forall {A} (R : A -> A -> Prop) ls1 ls2,
  Forall2 (Forall2 R) ls1 ls2 -> Forall2 R (concat ls1) (concat ls2).
Proof.
  intros A R ls1 ls2 H. induction H; simpl.
  - constructor.
  - apply Forall2_app; assumption.
Qed.

Lemma related_concatM :
  forall {A B} (R : B -> B -> Prop) (f : A -> M (list B)) l,
    (forall x, related (Forall2 R) (f x) (f x)) ->
    related (Forall2 R) (concatM f l) (concatM f l).
Proof.
  intros A B R f l Hf. unfold concatM.
  apply (related_bind (Forall2 (Forall2 R))); [apply related_mapM; exact Hf |].
  intros ls1 ls2 H. apply related_ret. apply Forall2_concat. exact H.
Qed.

Lemma related_one : forall {B} (R : B -> B -> Prop) (m : M B),
  related R m m -> related (Forall2 R) (SSOTIndexer.one m) (SSOTIndexer.one m).
Proof.
  intros B R m H. unfold SSOTIndexer.one.
  apply (related_bind R); [exact H |]. intros a b Hab.
  apply related_ret. constructor; [exact Hab | constructor].
Qed.

Lemma related_for_items_of :
  forall {B} (R : B -> B -> Prop) key container body,
    (forall k v, related (Forall2 R) (body k v) (body k v)) ->
    related (Forall2 R) (SSOTIndexer.for_items_of key container body)
            (SSOTIndexer.for_items_of key container body).
Proof.
  intros B R key container body Hb. unfold SSOTIndexer.for_items_of.
  apply (related_bind eq); [apply related_lift |]. intros present ? <-.
  destruct present; [| apply related_ret; constructor].
  apply (related_bind eq); [apply related_lift |]. intros section ? <-.
  apply (related_bind eq); [apply related_lift |]. intros items ? <-.
  apply related_concatM. intros [k v]. apply Hb.
Qed.

(** A step of a builder that does not read the clock. *)
Ltac pure_step :=
  apply (related_bind eq); [apply related_lift | intros ? ? <-].

Lemma related_entity_metadata : forall L source spec,
  related (fun a b => timeless_metadata a = timeless_metadata b)
          (SSOTIndexer.entity_metadata L source spec)
          (SSOTIndexer.entity_metadata L source spec).
Proof.
  intros L source spec. unfold SSOTIndexer.entity_metadata.
  apply (related_bind (fun _ _ => True)); [apply related_now |].
  intros t1 t2 _. apply related_ret. reflexivity.
Qed.

(** The last step of a builder: the metadata, then the entity. *)
Ltac metadata_step L :=
  apply (related_bind (fun a b => timeless_metadata a = timeless_metadata b));
  [ apply related_entity_metadata
  | intros m1 m2 Hm; apply related_ret; unfold same_but_time; simpl;
    rewrite Hm; reflexivity ].

Lemma related_functional_requirement : forall L id spec,
  related same_but_time (SSOTIndexer.functional_requirement L id spec)
          (SSOTIndexer.functional_requirement L id spec).
Proof.
  intros L id spec. unfold SSOTIndexer.functional_requirement.
  repeat pure_step. metadata_step L.
Qed.

Lemma related_non_functional_requirement : forall L id spec,
  related same_but_time (SSOTIndexer.non_functional_requirement L id spec)
          (SSOTIndexer.non_functional_requirement L id spec).
Proof.
  intros L id spec. unfold SSOTIndexer.non_functional_requirement.
  repeat pure_step. metadata_step L.
Qed.

Lemma related_unit_of_work : forall L id spec,
  related same_but_time (SSOTIndexer.unit_of_work L id spec)
          (SSOTIndexer.unit_of_work L id spec).
Proof.
  intros L id spec. unfold SSOTIndexer.unit_of_work.
  repeat pure_step. metadata_step L.
Qed.

Lemma related_contract : forall L id spec,
  related same_but_time (SSOTIndexer.contract L id spec)
          (SSOTIndexer.contract L id spec).
Proof.
  intros L id spec. unfold SSOTIndexer.contract.
  repeat pure_step. metadata_step L.
Qed.

Lemma related_extension : forall L category name spec,
  related same_but_time (SSOTIndexer.extension L category name spec)
          (SSOTIndexer.extension L category name spec).
Proof.
  intros L category name spec. unfold SSOTIndexer.extension.
  repeat pure_step. metadata_step L.
Qed.

Lemma related_extract_entities : forall L ssot_data,
  related (Forall2 same_but_time) (SSOTIndexer.extract_entities L ssot_data)
          (SSOTIndexer.extract_entities L ssot_data).
Proof.
  intros L ssot_data. unfold SSOTIndexer.extract_entities.
  apply (related_bind eq); [apply related_lift | intros present ? <-].
  apply (related_bind (Forall2 same_but_time)).
  - destruct present; [| apply related_ret; constructor].
    pure_step.
    apply (related_bind (Forall2 same_but_time)).
    { apply related_for_items_of. intros k v. apply related_one.
      apply related_functional_requirement. }
    intros frs1 frs2 Hfrs.
    apply (related_bind (Forall2 same_but_time)).
    { apply related_for_items_of. intros k v. apply related_one.
      apply related_non_functional_requirement. }
    intros nfrs1 nfrs2 Hnfrs.
    apply (related_bind (Forall2 same_but_time)).
    { apply related_for_items_of. intros k v. apply related_one.
      apply related_unit_of_work. }
    intros uows1 uows2 Huows.
    apply related_ret. repeat apply Forall2_app; assumption.
  - intros framework1 framework2 Hframework.
    apply (related_bind (Forall2 same_but_time)).
    { apply related_for_items_of. intros k v. apply related_one.
      apply related_contract. }
    intros contracts1 contracts2 Hcontracts.
    apply (related_bind (Forall2 same_but_time)).
    { apply related_for_items_of. intros category extensions.
      pure_step. apply related_mapM. intros [name spec].
      apply related_extension. }
    intros extensions1 extensions2 Hextensions.
    apply related_ret. repeat apply Forall2_app; assumption.
Qed.

Lemma related_relationship : forall source target type source_file,
  related same_but_time
          (SSOTIndexer.relationship source target type source_file)
          (SSOTIndexer.relationship source target type source_file).
Proof.
  intros source target type source_file. unfold SSOTIndexer.relationship.
  apply (related_bind (fun _ _ => True)); [apply related_now |].
  intros t1 t2 _. apply related_ret. reflexivity.
Qed.

Lemma related_extract_relationships : forall ssot_data,
  related (Forall2 same_but_time) (SSOTIndexer.extract_relationships ssot_data)
          (SSOTIndexer.extract_relationships ssot_data).
Proof.
  intros ssot_data. unfold SSOTIndexer.extract_relationships.
  apply (related_bind eq); [apply related_lift | intros present ? <-].
  apply (related_bind (Forall2 same_but_time)).
  - destruct present; [| apply related_ret; constructor].
    pure_step. apply related_for_items_of. intros uow_id uow_spec.
    unfold SSOTIndexer.uow_relationships.
    do 2 pure_step.
    apply (related_bind (Forall2 same_but_time)).
    { apply related_mapM. intros req_id. apply related_relationship. }
    intros i1 i2 Hi. do 2 pure_step.
    apply (related_bind (Forall2 same_but_time)).
    { apply related_mapM. intros dep_id. apply related_relationship. }
    intros d1 d2 Hd. apply related_ret. apply Forall2_app; assumption.
  - intros framework1 framework2 Hframework.
    apply (related_bind (Forall2 same_but_time)).
    { apply related_for_items_of. intros contract_id contract_spec.
      unfold SSOTIndexer.contract_relationships.
      do 2 pure_step.
      destruct (py_is _ "uow"); [| apply related_ret; constructor].
      pure_step.
      destruct (py_bool _); [| apply related_ret; constructor].
      pure_step. apply related_one. apply related_relationship. }
    intros contracts1 contracts2 Hcontracts.
    apply related_ret. apply Forall2_app; assumption.
Qed.

Lemma Forall2_same_but_time : forall l1 l2,
  Forall2 same_but_time l1 l2 ->
  map without_timestamps l1 = map without_timestamps l2.
Proof.
  intros l1 l2 H. induction H as [|a b l1 l2 Hab _ IH]; simpl.
  - reflexivity.
  - rewrite Hab, IH. reflexivity.
Qed.

Lemma dict_get_hash_timeless : forall m,
  dict_get (filter (fun kv => negb (String.eqb (fst kv) "last_updated"
                                    || String.eqb (fst kv) "created")) m)
           "hash"
  = dict_get m "hash".
Proof.
  induction m as [|[k x] t IH]; simpl.
  - reflexivity.
  - destruct (String.eqb_spec k "last_updated") as [-> | _]; simpl.
    + exact IH.
    + destruct (String.eqb_spec k "created") as [-> | _]; simpl.
      * exact IH.
      * rewrite IH. reflexivity.
Qed.

Lemma hash_of_without_timestamps : forall e,
  hash_of (without_timestamps e) = hash_of e.
Proof.
  intros [| | | | |d]; try reflexivity. simpl.
  induction d as [|[k v] t IH]; simpl.
  - reflexivity.
  - destruct (String.eqb k "metadata") eqn:Hk; simpl; rewrite Hk.
    + destruct v; try reflexivity. simpl.
      rewrite dict_get_hash_timeless. reflexivity.
    + exact IH.
Qed.

Lemma agree_same_but_time : forall r1 r2,
  agree (Forall2 same_but_time) r1 r2 ->
  rmap (map without_timestamps) r1 = rmap (map without_timestamps) r2
  /\ rmap (map hash_of) r1 = rmap (map hash_of) r2.
Proof.
  intros [l1|e1|] [l2|e2|]; simpl; try contradiction; try (intros ->); auto.
  intros H. apply Forall2_same_but_time in H.
  split; [rewrite H; reflexivity |].
  f_equal.
  transitivity (map hash_of (map without_timestamps l1)).
  - rewrite map_map. apply map_ext. intros e. symmetry.
    apply hash_of_without_timestamps.
  - rewrite H, map_map. apply map_ext. exact hash_of_without_timestamps.
Qed.

(** C1, as the design document states it, fails: every entity and every
    relationship carries the time at which it was extracted, so two runs
    over the one corpus of scenario A, one at midnight and one at noon,
    differ in their entities and in their relationships, whatever the
    hash function. *)
Lemma index_twice_counterexample :
  exists (w : world),
    (forall L : library,
        fst (SSOTIndexer.extract_entities L scenario_a midnight w)
        <> fst (SSOTIndexer.extract_entities L scenario_a noon w))
    /\ fst (SSOTIndexer.extract_relationships scenario_a midnight w)
       <> fst (SSOTIndexer.extract_relationships scenario_a noon w).
Proof.
  exists no_index. split.
  - intros L H. apply Ok_inj in H. discriminate H.
  - intros H. apply Ok_inj in H. discriminate H.
Qed.

(** C1, as the code has it.  Two runs of the indexer over the one
    document content, at any two times, end alike: with the same
    exception, or with entities that are equal one by one but for
    [last_updated], with the same content hash on each, and with
    relationships that are equal one by one but for [created]. *)
Theorem index_twice_same_but_time :
  forall (L : library) (ssot_data : value) (c1 c2 : Clock) (w1 w2 : world),
    rmap (map without_timestamps)
         (fst (SSOTIndexer.extract_entities L ssot_data c1 w1))
    = rmap (map without_timestamps)
           (fst (SSOTIndexer.extract_entities L ssot_data c2 w2))
    /\ rmap (map hash_of) (fst (SSOTIndexer.extract_entities L ssot_data c1 w1))
       = rmap (map hash_of) (fst (SSOTIndexer.extract_entities L ssot_data c2 w2))
    /\ rmap (map without_timestamps)
            (fst (SSOTIndexer.extract_relationships ssot_data c1 w1))
       = rmap (map without_timestamps)
              (fst (SSOTIndexer.extract_relationships ssot_data c2 w2)).
Proof.
  intros L ssot_data c1 c2 w1 w2.
  destruct (agree_same_but_time _ _
              (related_extract_entities L ssot_data c1 w1 c2 w2)) as [He Hh].
  destruct (agree_same_but_time _ _
              (related_extract_relationships ssot_data c1 w1 c2 w2)) as [Hr _].
  auto.
Qed.

(** *** Keyword queries *)

Lemma In_insert_desc : forall {A} (gtb : A -> A -> bool) x l y,
  In y (insert_desc gtb x l) <-> y = x \/ In y l.
Proof.
  intros A gtb x l y. induction l as [|z t IH]; simpl.
  - intuition.
  - destruct (gtb z x); simpl; rewrite ?IH; intuition.
Qed.

Lemma In_sort_desc : forall {A} (gtb : A -> A -> bool) l y,
  In y (sort_desc gtb l) <-> In y l.
Proof.
  intros A gtb l y. induction l as [|x t IH]; simpl.
  - tauto.
  - rewrite In_insert_desc, IH. intuition.
Qed.



Lemma py_getitem_id_of : forall e id, py_getitem e "id" = Ok id -> id_of e = id.
Proof.
  intros [| | | | |d] id; simpl; try discriminate.
  destruct (dict_get d "id"); [| discriminate].
  intros H. injection H as ->. reflexivity.
Qed.

Lemma unique_results_Ok : forall results seen_ids out,
  SSOTQuery.unique_results seen_ids results = Ok out ->
  NoDup (map (fun r => id_of (entity_of r)) out)
  /\ (forall r, In r out ->
                In r results /\ ~ In (id_of (entity_of r)) seen_ids)
  /\ (StronglySorted by_relevance results -> StronglySorted by_relevance out).
Proof.
  induction results as [|r t IH]; intros seen_ids out; simpl.
  - intros H. injection H as <-.
    split; [constructor |]. split; [contradiction | auto].
  - destruct (py_getitem _ "id") as [entity_id| |] eqn:Hid; try discriminate.
    simpl. destruct (hashable entity_id); try discriminate. simpl.
    assert (Hr : id_of (entity_of r) = entity_id).
    { destruct r; try discriminate Hid; apply py_getitem_id_of; exact Hid. }
    destruct (mem entity_id seen_ids) eqn:Hseen.
    + intros H. destruct (IH _ _ H) as [Hnd [Hin Hs]].
      split; [exact Hnd |]. split.
      * intros x Hx. destruct (Hin x Hx). tauto.
      * intros Hsorted. apply Hs. inversion Hsorted; assumption.
    + destruct (SSOTQuery.unique_results (entity_id :: seen_ids) t)
        as [rest| |] eqn:Ht; try discriminate.
      simpl. intros H. injection H as <-.
      destruct (IH _ _ Ht) as [Hnd [Hin Hs]].
      split; [| split].
      * simpl. constructor; [| exact Hnd].
        rewrite in_map_iff. intros [x [Hx Hxin]].
        destruct (Hin x Hxin) as [_ Hnot]. apply Hnot. left. congruence.
      * intros x [<- | Hx].
        -- split; [left; reflexivity |].
           rewrite Hr. apply mem_not_In. exact Hseen.
        -- destruct (Hin x Hx) as [H1 H2]. split; [right; exact H1 |].
           intros H3. apply H2. right. exact H3.
      * intros Hsorted. inversion Hsorted as [|? ? Ht' Hall]; subst.
        constructor; [apply Hs; exact Ht' |].
        rewrite Forall_forall in Hall |- *. intros x Hx.
        apply Hall. destruct (Hin x Hx). assumption.
Qed.






(** ** The sync engine *)




Lemma _entities_differ_hash : forall L id type spec graphrag_entity,
  SyncEngine._entities_differ (SyncEngine.ssot_entity L id type spec)
    graphrag_entity
  = rmap (fun h => negb (value_eqb (VStr (SyncEngine._generate_hash L spec)) h))
         (stored_hash graphrag_entity).
Proof.
  intros L id type spec g.
  unfold SyncEngine._entities_differ, stored_hash, rmap. simpl.
  destruct (py_get g "metadata" (VDict [])) as [metadata| |]; simpl;
    try reflexivity.
  all: destruct (py_get metadata "hash" VNone) as [h| |]; reflexivity.
Qed.

Lemma key_absent : forall (index : list (value * value)) k,
  existsb (fun kv => value_eqb (fst kv) k) index = false
  <-> ~ In k (map fst index).
Proof.
  intros index k. induction index as [|[k' v] t IH]; cbn [existsb map In fst].
  - tauto.
  - rewrite orb_false_iff, IH, value_eqb_neq. tauto.
Qed.

Lemma key_not_extracted : forall (keys : list string) k,
  existsb (fun s => value_eqb (VStr s) k) keys = false
  <-> ~ In k (map VStr keys).
Proof.
  intros keys k. induction keys as [|s t IH]; cbn [existsb map In].
  - tauto.
  - rewrite orb_false_iff, IH, value_eqb_neq. tauto.
Qed.

Lemma In_knowledge : forall {A} (l : list (A * bool)) k,
  In k (map fst (filter snd l)) <-> In (k, true) l.
Proof.
  intros A l k. rewrite in_map_iff. split.
  - intros [[k' b] [<- H]]. apply filter_In in H. destruct H as [H E].
    simpl in *. subst b. exact H.
  - intros H. exists (k, true). split; [reflexivity |].
    apply filter_In. split; [exact H | reflexivity].
Qed.

Lemma In_other : forall {A} (l : list (A * bool)) k,
  In k (map fst (filter (fun x => negb (snd x)) l)) <-> In (k, false) l.
Proof.
  intros A l k. rewrite in_map_iff. split.
  - intros [[k' b] [<- H]]. apply filter_In in H. destruct H as [H E].
    simpl in *. destruct b; [discriminate | exact H].
  - intros H. exists (k, false). split; [reflexivity |].
    apply filter_In. split; [exact H | reflexivity].
Qed.

(** The test of the second loop of [detect_changes] on one entity of the
    index. *)
Lemma only_graphrag_Ok :
  forall (ssot_entities : list (string * value)) (index : list (value * value))
         only k (b : bool),
    rfilter_map
      (fun kv : value * value =>
         (if negb (existsb (fun s => value_eqb (VStr s) (fst kv))
                           (dict_keys ssot_entities))
          then ty <- py_get (snd kv) "type" VNone ;;
               Ok (Some (fst kv, SyncEngine.is_knowledge ty))
          else Ok None)%result)
      index = Ok only ->
    (In (k, b) only <->
     exists g ty,
       In (k, g) index
       /\ ~ In k (map VStr (dict_keys ssot_entities))
       /\ py_get g "type" VNone = Ok ty
       /\ SyncEngine.is_knowledge ty = b).
Proof.
  intros ssot_entities index only k b H.
  rewrite (rfilter_map_Ok _ _ _ H). split.
  - intros [[k' g] [Hin Hf]]. cbn [fst snd] in Hf.
    destruct (existsb _ (dict_keys ssot_entities)) eqn:He;
      cbn [negb] in Hf; [discriminate |].
    destruct (py_get g "type" VNone) as [ty| |] eqn:Hty; cbn [rbind] in Hf;
      try discriminate.
    apply Ok_inj in Hf. injection Hf as -> <-.
    exists g, ty. rewrite key_not_extracted in He. auto.
  - intros [g [ty [Hin [Hk [Hty Hb]]]]]. exists (k, g). split; [exact Hin |].
    cbn [fst snd]. apply key_not_extracted in Hk. rewrite Hk. cbn [negb].
    rewrite Hty. cbn [rbind]. rewrite Hb. reflexivity.
Qed.





(** * Further properties

    Properties that the code has beyond those of the design document:
    what its [try] blocks catch, what its loops keep, and how the four
    components work on each other's output. *)

(** ** The impact analyzer: what a report holds *)

Lemma rfold_preserves :
  forall {S A} (I : S -> Prop) (f : S -> A -> result S) l s s',
    (forall s x s', I s -> In x l -> f s x = Ok s' -> I s') ->
    I s -> rfold f l s = Ok s' -> I s'.
Proof.
  intros S A I f l. induction l as [|x t IH]; simpl; intros s s' Hf Hs H.
  - injection H as <-. exact Hs.
  - destruct (f s x) as [s1| |] eqn:E; try discriminate. simpl in H.
    refine (IH s1 s' _ _ H).
    + intros s2 y s3 H2 Hy. apply Hf; [exact H2 | right; exact Hy].
    + apply (Hf s x s1); [exact Hs | left; reflexivity | exact E].
Qed.

Lemma direct_impact_of_path :
  forall self entity_id change_type rel items impact,
    ImpactAnalyzer.direct_impact_of self entity_id change_type rel = Ok items ->
    In impact items ->
    ImpactAnalyzer.path impact
    = [VStr entity_id; ImpactAnalyzer.entity_id impact]
    /\ In (ImpactAnalyzer.entity_id impact)
          (map fst (ImpactAnalyzer.entity_index self)).
Proof.
  intros self entity_id change_type rel items impact.
  unfold ImpactAnalyzer.direct_impact_of.
  destruct (ImpactAnalyzer.other_end (VStr entity_id) rel) as [aid| |];
    try discriminate.
  cbn [rbind]. unfold ImpactAnalyzer.entity_index_get.
  destruct (hashable aid); try discriminate. cbn [rbind].
  destruct (py_bool _) eqn:Hb.
  - destruct (ImpactAnalyzer._determine_impact_type rel change_type);
      try discriminate. cbn [rbind].
    destruct (ImpactAnalyzer._calculate_impact_severity rel _ change_type);
      try discriminate. cbn [rbind].
    destruct (py_get _ "type" (VStr "unknown")); try discriminate. cbn [rbind].
    destruct (ImpactAnalyzer._generate_impact_description rel _ change_type);
      try discriminate. cbn [rbind].
    destruct (ImpactAnalyzer._generate_impact_recommendations rel _
                change_type); try discriminate. cbn [rbind].
    intros H. apply Ok_inj in H. subst items. intros [<- | []].
    split; [reflexivity |]. cbn [ImpactAnalyzer.entity_id].
    destruct (in_dec (fun a b => match Bool.bool_dec (value_eqb a b) true with
                                 | left E => left (proj1 (value_eqb_eq a b) E)
                                 | right N =>
                                     right (fun E => N (proj2 (value_eqb_eq a b) E))
                                 end)
                     aid (map fst (ImpactAnalyzer.entity_index self)))
      as [Hin | Hout]; [exact Hin |].
    rewrite (index_get_absent _ _ Hout) in Hb. discriminate Hb.
  - intros H. apply Ok_inj in H. subst items. contradiction.
Qed.

Lemma _perform_risk_assessment_Ok : forall self source_entity report risk,
  ImpactAnalyzer._perform_risk_assessment self source_entity report = Ok risk ->
  exists overall score factors required,
    risk = ImpactAnalyzer.Assessment overall score factors required.
Proof.
  intros self source_entity report risk.
  unfold ImpactAnalyzer._perform_risk_assessment.
  destruct (py_get source_entity "type" (VStr "unknown")); try discriminate.
  cbn [rbind]. cbv zeta.
  destruct (ImpactAnalyzer._analyze_affected_layers self report);
    try discriminate.
  cbn [rbind]. intros H. apply Ok_inj in H. subst risk.
  eexists. eexists. eexists. eexists. reflexivity.
Qed.

(** The report is known: each part of the statement is read off it. *)
Ltac report_done :=
  let H := fresh "H" in
  try printed;
  intros H; apply Ok_inj in H;
  match type of H with _ = ?r => subst r end;
  cbn [ImpactAnalyzer.failed ImpactAnalyzer.direct_impacts
       ImpactAnalyzer.indirect_impacts ImpactAnalyzer.cascade_impacts
       ImpactAnalyzer.mitigation_strategies ImpactAnalyzer.risk_assessment];
  repeat split;
  first [ left; reflexivity
        | right; assumption
        | right; reflexivity
        | right; eexists; reflexivity
        | discriminate ].

Lemma report_phases :
  forall self stdout fuel entity_id change_type c w report,
    fst (ImpactAnalyzer.analyze_change_impact self stdout fuel entity_id change_type c w)
    = Ok report ->
    (ImpactAnalyzer.direct_impacts report = []
     \/ ImpactAnalyzer._analyze_direct_impacts self entity_id change_type
        = Ok (ImpactAnalyzer.direct_impacts report))
    /\ (ImpactAnalyzer.indirect_impacts report = []
        \/ ImpactAnalyzer._analyze_indirect_impacts self entity_id
             (ImpactAnalyzer.direct_impacts report)
           = Ok (ImpactAnalyzer.indirect_impacts report))
    /\ (ImpactAnalyzer.cascade_impacts report = []
        \/ ImpactAnalyzer._analyze_cascade_impacts self fuel entity_id
             (ImpactAnalyzer.direct_impacts report
              ++ ImpactAnalyzer.indirect_impacts report)%list
           = Ok (ImpactAnalyzer.cascade_impacts report))
    /\ (ImpactAnalyzer.mitigation_strategies report = []
        \/ exists risk,
             ImpactAnalyzer.mitigation_strategies report
             = ImpactAnalyzer._generate_mitigation_strategies
                 (ImpactAnalyzer.mkImpactReport entity_id change_type
                    (c (ticks w)) (ImpactAnalyzer.direct_impacts report)
                    (ImpactAnalyzer.indirect_impacts report)
                    (ImpactAnalyzer.cascade_impacts report) risk [] [] []))
    /\ ImpactAnalyzer.risk_assessment report <> ImpactAnalyzer.NoAssessment.
Proof.
  intros self stdout fuel entity_id change_type c w report.
  unfold ImpactAnalyzer.analyze_change_impact, bind, now_isoformat, lift.
  unfold print at 1. destruct (stdout _) as [e|]; [discriminate |].
  cbv beta iota zeta delta [fst].
  unfold ImpactAnalyzer.phase at 1.
  case_result; [| report_done | discriminate].
  unfold ImpactAnalyzer.phase at 1.
  destruct (ImpactAnalyzer._analyze_direct_impacts self entity_id change_type)
    as [direct| |] eqn:Hdirect; [| report_done | discriminate].
  unfold ImpactAnalyzer.phase at 1.
  destruct (ImpactAnalyzer._analyze_indirect_impacts self entity_id direct)
    as [indirect| |] eqn:Hindirect; [| report_done | discriminate].
  unfold ImpactAnalyzer.phase at 1.
  destruct (ImpactAnalyzer._analyze_cascade_impacts self fuel entity_id
              (direct ++ indirect)%list) as [cascade| |] eqn:Hcascade;
    [| report_done | discriminate].
  unfold ImpactAnalyzer.phase at 1.
  match goal with
  | |- context [ImpactAnalyzer._perform_risk_assessment self ?s ?r] =>
      destruct (ImpactAnalyzer._perform_risk_assessment self s r)
        as [risk| |] eqn:Hrisk; [| report_done | discriminate]
  end.
  destruct (_perform_risk_assessment_Ok _ _ _ _ Hrisk)
    as [overall [score [factors [required ->]]]].
  unfold ImpactAnalyzer.phase at 1.
  case_result; [| report_done | discriminate].
  report_done.
Qed.



(** X2.  The strategy "Coordinate changes across affected layers" is in
    no report of [analyze_change_impact]: the strategies are generated
    before the affected layers are assigned to the report, when the set is
    still empty. *)
Theorem mitigation_never_coordinates_layers :
  forall (self : ImpactAnalyzer.ImpactAnalyzer) (stdout : Console) (fuel : nat)
         (entity_id change_type : string) (c : Clock) (w : world),
    match fst (ImpactAnalyzer.analyze_change_impact self stdout fuel entity_id
                 change_type c w) with
    | Ok report =>
        ~ In "Coordinate changes across affected layers"
             (ImpactAnalyzer.mitigation_strategies report)
    | _ => True
    end.
Proof.
  intros self stdout fuel entity_id change_type c w.
  destruct (fst (ImpactAnalyzer.analyze_change_impact self stdout fuel entity_id
                   change_type c w)) as [report|e|] eqn:H; try exact I.
  destruct (report_phases _ _ _ _ _ _ _ _ H) as [_ [_ [_ [Hm _]]]].
  destruct Hm as [-> | [risk ->]]; [intros [] |].
  unfold ImpactAnalyzer._generate_mitigation_strategies.
  cbn [ImpactAnalyzer.affected_layers ImpactAnalyzer.risk_assessment
       ImpactAnalyzer.direct_impacts ImpactAnalyzer.indirect_impacts
       List.length Nat.ltb Nat.leb].
  cbv zeta. rewrite !in_app_iff.
  intros [Hg | [Hi | [Hd | [Hc | []]]]].
  - destruct (String.eqb _ "critical");
      [| destruct (String.eqb _ "high")]; simpl in Hg;
      repeat (destruct Hg as [Hg | Hg]; [discriminate Hg |]); exact Hg.
  - destruct (ImpactAnalyzer.has_impact_type _ _); simpl in Hi;
      repeat (destruct Hi as [Hi | Hi]; [discriminate Hi |]); exact Hi.
  - destruct (ImpactAnalyzer.has_impact_type _ _); simpl in Hd;
      repeat (destruct Hd as [Hd | Hd]; [discriminate Hd |]); exact Hd.
  - destruct (ImpactAnalyzer.has_impact_type _ _); simpl in Hc;
      repeat (destruct Hc as [Hc | Hc]; [discriminate Hc |]); exact Hc.
Qed.

(** *** The cascade search *)

Lemma cascade_step_cases :
  forall self current_entity_id current_path st rel st',
    ImpactAnalyzer.cascade_step self current_entity_id current_path st rel
    = Ok st' ->
    (ImpactAnalyzer.cs_impacts st' = ImpactAnalyzer.cs_impacts st
     /\ ImpactAnalyzer.cs_queue st' = ImpactAnalyzer.cs_queue st)
    \/ exists item,
         ImpactAnalyzer.cs_impacts st'
         = (ImpactAnalyzer.cs_impacts st ++ [item])%list
         /\ ImpactAnalyzer.cs_queue st'
            = (ImpactAnalyzer.cs_queue st
               ++ [(ImpactAnalyzer.entity_id item,
                    ImpactAnalyzer.path item)])%list
         /\ ImpactAnalyzer.path item
            = (current_path ++ [ImpactAnalyzer.entity_id item])%list
         /\ ImpactAnalyzer.severity item
            = ImpactAnalyzer._calculate_cascade_severity
                (List.length current_path)
         /\ ImpactAnalyzer.impact_type item = "cascade".
Proof.
  intros self cur path st rel st'. unfold ImpactAnalyzer.cascade_step.
  destruct (ImpactAnalyzer.other_end cur rel) as [next| |]; try discriminate.
  cbn [rbind].
  destruct (hashable next); try discriminate. cbn [rbind].
  destruct (negb (mem next (ImpactAnalyzer.cs_visited st))).
  - cbv zeta.
    destruct (ImpactAnalyzer.entity_index_get self next) as [next_entity| |];
      try discriminate.
    cbn [rbind]. destruct (py_bool next_entity).
    + destruct (py_get next_entity "type" (VStr "unknown")); try discriminate.
      cbn [rbind].
      destruct (py_join _ _); try discriminate. cbn [rbind].
      intros H. apply Ok_inj in H. subst st'. right.
      eexists. cbn [ImpactAnalyzer.cs_impacts ImpactAnalyzer.cs_queue].
      split; [reflexivity |]. split; [reflexivity |].
      split; [reflexivity |]. split; reflexivity.
    + intros H. apply Ok_inj in H. subst st'. left. split; reflexivity.
  - intros H. apply Ok_inj in H. subst st'. left. split; reflexivity.
Qed.

Lemma rfilter_length : forall {A} (p : A -> result bool) l out,
  rfilter p l = Ok out -> (List.length out <= List.length l)%nat.
Proof.
  induction l as [|x t IH]; simpl; intros out H.
  - injection H as <-. simpl. lia.
  - destruct (p x) as [b| |]; try discriminate. simpl in H.
    destruct (rfilter p t) as [r| |]; try discriminate. simpl in H.
    injection H as <-. specialize (IH _ eq_refl).
    destruct b; simpl; lia.
Qed.

Lemma cascade_steps_length :
  forall self current_entity_id current_path l st st',
    rfold (ImpactAnalyzer.cascade_step self current_entity_id current_path) l st
    = Ok st' ->
    (List.length (ImpactAnalyzer.cs_impacts st')
     <= List.length (ImpactAnalyzer.cs_impacts st) + List.length l)%nat.
Proof.
  intros self cur path l. induction l as [|rel t IH]; simpl; intros st st' H.
  - injection H as <-. lia.
  - destruct (ImpactAnalyzer.cascade_step self cur path st rel) as [s1| |] eqn:E;
      try discriminate.
    simpl in H. specialize (IH _ _ H).
    destruct (cascade_step_cases _ _ _ _ _ _ E) as [[Hi _] | [item [Hi _]]];
      rewrite Hi in IH; [| rewrite length_app in IH; simpl in IH]; lia.
Qed.

Lemma cascade_loop_length : forall self fuel st out,
  ImpactAnalyzer.cascade_loop self fuel st = Ok out ->
  (List.length out
   <= Nat.max (List.length (ImpactAnalyzer.cs_impacts st))
              (19 + List.length (ImpactAnalyzer.relationships self)))%nat.
Proof.
  intros self fuel. induction fuel as [|fuel IH]; intros st out;
    destruct st as [impacts visited queue];
    cbn [ImpactAnalyzer.cascade_loop ImpactAnalyzer.cs_queue
         ImpactAnalyzer.cs_impacts ImpactAnalyzer.cs_visited];
    destruct queue as [|[cur path] queue].
  - intros H. injection H as <-. lia.
  - destruct (Nat.ltb_spec (List.length impacts) 20); [discriminate |].
    intros H'. injection H' as <-. lia.
  - intros H. injection H as <-. lia.
  - destruct (Nat.ltb_spec (List.length impacts) 20) as [Hlt | Hge].
    + cbv zeta. destruct (5 <=? List.length path)%nat.
      * intros H. specialize (IH _ _ H).
        cbn [ImpactAnalyzer.cs_impacts] in IH. lia.
      * destruct (rfilter _ _) as [rels| |] eqn:Hf; try discriminate.
        cbn [rbind].
        destruct (rfold _ rels _) as [st'| |] eqn:Hs; try discriminate.
        cbn [rbind]. intros H. specialize (IH _ _ H).
        pose proof (cascade_steps_length _ _ _ _ _ _ Hs) as Hl.
        pose proof (rfilter_length _ _ _ Hf) as Hr.
        cbn [ImpactAnalyzer.cs_impacts] in Hl. lia.
    + intros H. injection H as <-. lia.
Qed.

(** X3.  The bound that the cascade search keeps: the cascade impacts of
    a report are at most 19 plus the number of relationships of the graph.
    The search stops once it has 20 impacts, and the iteration in which it
    reaches 20 appends one impact at most for every relationship of the
    entity it visits. *)
Theorem cascade_impacts_bound :
  forall (self : ImpactAnalyzer.ImpactAnalyzer) (stdout : Console) (fuel : nat)
         (entity_id change_type : string) (c : Clock) (w : world),
    match fst (ImpactAnalyzer.analyze_change_impact self stdout fuel entity_id
                 change_type c w) with
    | Ok report =>
        (List.length (ImpactAnalyzer.cascade_impacts report)
         <= 19 + List.length (ImpactAnalyzer.relationships self))%nat
    | _ => True
    end.
Proof.
  intros self stdout fuel entity_id change_type c w.
  destruct (fst (ImpactAnalyzer.analyze_change_impact self stdout fuel entity_id
                   change_type c w)) as [report|e|] eqn:H; try exact I.
  destruct (report_phases _ _ _ _ _ _ _ _ H) as [_ [_ [[-> | Hc] _]]].
  - simpl. lia.
  - unfold ImpactAnalyzer._analyze_cascade_impacts in Hc.
    apply cascade_loop_length in Hc. simpl in Hc. lia.
Qed.

(** *** Paths, entities and severities of the impacts *)

Lemma entity_index_get_indexed : forall self k e,
  ImpactAnalyzer.entity_index_get self k = Ok e ->
  py_bool e = true ->
  indexed self k.
Proof.
  intros self k e. unfold ImpactAnalyzer.entity_index_get, indexed.
  destruct (hashable k); try discriminate. cbn [rbind].
  intros H Hb. apply Ok_inj in H. subst e.
  destruct (in_dec (fun a b => match Bool.bool_dec (value_eqb a b) true with
                               | left E => left (proj1 (value_eqb_eq a b) E)
                               | right N =>
                                   right (fun E => N (proj2 (value_eqb_eq a b) E))
                               end)
                   k (map fst (ImpactAnalyzer.entity_index self)))
    as [Hin | Hout]; [exact Hin |].
  rewrite (index_get_absent _ _ Hout) in Hb. discriminate Hb.
Qed.

Lemma _analyze_direct_impacts_paths :
  forall self entity_id change_type items,
    ImpactAnalyzer._analyze_direct_impacts self entity_id change_type = Ok items ->
    Forall (fun impact =>
              ImpactAnalyzer.path impact
              = [VStr entity_id; ImpactAnalyzer.entity_id impact]
              /\ indexed self (ImpactAnalyzer.entity_id impact))
           items.
Proof.
  intros self entity_id change_type items.
  unfold ImpactAnalyzer._analyze_direct_impacts.
  destruct (rfilter _ _) as [rels| |] eqn:Hf; try discriminate. cbn [rbind].
  destruct (rmapM _ rels) as [ls| |] eqn:Hm; try discriminate.
  cbn [rmap rbind]. intros H. apply Ok_inj in H. subst items.
  apply Forall_forall. intros impact Hin.
  destruct (in_concat_Forall2 _ _ _ _ (rmapM_Ok _ _ _ Hm) Hin)
    as [rel [ys [_ [Hys Hy]]]].
  exact (direct_impact_of_path _ _ _ _ _ _ Hys Hy).
Qed.

Lemma _calculate_indirect_severity_table : forall direct_severity relationship,
  ImpactAnalyzer._calculate_indirect_severity direct_severity relationship
  = (if String.eqb direct_severity "critical" then "high"
     else if String.eqb direct_severity "high" then "medium"
     else "low").
Proof.
  intros s rel. unfold ImpactAnalyzer._calculate_indirect_severity.
  unfold ImpactAnalyzer.severity_levels. cbn [filter fst snd].
  rewrite (String.eqb_sym "critical" s), (String.eqb_sym "high" s),
    (String.eqb_sym "medium" s), (String.eqb_sym "low" s).
  destruct (String.eqb s "critical") eqn:E1.
  - reflexivity.
  - destruct (String.eqb s "high") eqn:E2.
    + reflexivity.
    + destruct (String.eqb s "medium"); [reflexivity |].
      destruct (String.eqb s "low"); reflexivity.
Qed.

Lemma existsb_entity_id : forall k items,
  existsb (fun impact => value_eqb (ImpactAnalyzer.entity_id impact) k) items
  = false ->
  ~ In k (map ImpactAnalyzer.entity_id items).
Proof.
  intros k items. induction items as [|i t IH]; cbn [existsb map In].
  - tauto.
  - intros H. apply Bool.orb_false_iff in H. destruct H as [H1 H2].
    apply value_eqb_neq in H1. specialize (IH H2). tauto.
Qed.

Lemma NoDup_snoc : forall {A} (l : list A) x,
  NoDup l -> ~ In x l -> NoDup (l ++ [x]).
Proof.
  intros A l x Hl Hx. induction Hl as [|y l Hy Hl IH]; simpl.
  - constructor; [tauto | constructor].
  - constructor.
    + rewrite in_app_iff. simpl. intros [H | [H | []]]; [tauto |].
      subst y. apply Hx. left. reflexivity.
    + apply IH. intros H. apply Hx. right. exact H.
Qed.

Lemma indirect_step_invariant :
  forall self entity_id directs d items rel items',
    In d directs ->
    indirect_invariant self entity_id directs items ->
    ImpactAnalyzer.indirect_step self entity_id d items rel = Ok items' ->
    indirect_invariant self entity_id directs items'.
Proof.
  intros self entity_id directs d items rel items' Hd [Hall Hnd].
  unfold ImpactAnalyzer.indirect_step.
  destruct (ImpactAnalyzer.other_end (ImpactAnalyzer.entity_id d) rel)
    as [aid| |]; try discriminate.
  cbn [rbind].
  destruct (negb (py_is aid entity_id)) eqn:Hsrc; cbn [andb];
    [| intros H; apply Ok_inj in H; subst items'; split; assumption].
  destruct (negb (existsb _ items)) eqn:Hnew;
    [| intros H; apply Ok_inj in H; subst items'; split; assumption].
  destruct (ImpactAnalyzer.entity_index_get self aid) as [e| |] eqn:He;
    try discriminate.
  cbn [rbind]. destruct (py_bool e) eqn:Hb;
    [| intros H; apply Ok_inj in H; subst items'; split; assumption].
  destruct (ImpactAnalyzer._determine_impact_type rel "modification")
    as [t| |]; try discriminate.
  cbn [rbind]. cbv zeta.
  destruct (py_get e "type" (VStr "unknown")); try discriminate.
  cbn [rbind]. intros H. apply Ok_inj in H. subst items'.
  apply Bool.negb_true_iff in Hsrc, Hnew. unfold py_is in Hsrc.
  apply value_eqb_neq in Hsrc. apply existsb_entity_id in Hnew.
  split.
  - apply Forall_app. split; [exact Hall |]. constructor; [| constructor].
    unfold indirect_item.
    cbn [ImpactAnalyzer.path ImpactAnalyzer.entity_id ImpactAnalyzer.severity
         ImpactAnalyzer.impact_type].
    split.
    + exists d. split; [exact Hd |]. split; [reflexivity |].
      apply _calculate_indirect_severity_table.
    + split; [exact (entity_index_get_indexed _ _ _ He Hb) |].
      split; [exact Hsrc |]. exists t. reflexivity.
  - rewrite map_app. cbn [map ImpactAnalyzer.entity_id].
    apply NoDup_snoc; assumption.
Qed.

Lemma _analyze_indirect_impacts_invariant :
  forall self entity_id directs items,
    ImpactAnalyzer._analyze_indirect_impacts self entity_id directs = Ok items ->
    indirect_invariant self entity_id directs items.
Proof.
  intros self entity_id directs items.
  unfold ImpactAnalyzer._analyze_indirect_impacts.
  apply (rfold_preserves (indirect_invariant self entity_id directs)).
  - intros l d l' Hl Hd.
    destruct (rfilter _ _) as [rels| |]; try discriminate. cbn [rbind].
    apply (rfold_preserves (indirect_invariant self entity_id directs));
      [| exact Hl].
    intros l1 rel l2 Hl1 _. exact (indirect_step_invariant _ _ _ _ _ _ _ Hd Hl1).
  - split; constructor.
Qed.

Lemma cascade_step_invariant :
  forall self entity_id visited0 current_entity_id current_path st rel st',
    path_from entity_id 2 current_path ->
    (List.length current_path < 5)%nat ->
    cascade_invariant self entity_id visited0 st ->
    ImpactAnalyzer.cascade_step self current_entity_id current_path st rel
    = Ok st' ->
    cascade_invariant self entity_id visited0 st'.
Proof.
  intros self entity_id visited0 cur p st rel st' [Hhd Hlen] Hlt
    [Hitems [Hqueue [Hnd [Hvis [Hv0 Hnew]]]]].
  unfold ImpactAnalyzer.cascade_step.
  destruct (ImpactAnalyzer.other_end cur rel) as [next| |]; try discriminate.
  cbn [rbind].
  destruct (hashable next); try discriminate. cbn [rbind].
  destruct (negb (mem next (ImpactAnalyzer.cs_visited st))) eqn:Hfresh;
    [| intros H; apply Ok_inj in H; subst st'; repeat split; assumption].
  apply Bool.negb_true_iff, mem_not_In in Hfresh.
  cbv zeta.
  destruct (ImpactAnalyzer.entity_index_get self next) as [e| |] eqn:He;
    try discriminate.
  cbn [rbind]. destruct (py_bool e) eqn:Hb.
  - destruct (py_get e "type" (VStr "unknown")); try discriminate.
    cbn [rbind].
    destruct (py_join _ _); try discriminate. cbn [rbind].
    intros H. apply Ok_inj in H. subst st'.
    unfold cascade_invariant.
    cbn [ImpactAnalyzer.cs_impacts ImpactAnalyzer.cs_queue
         ImpactAnalyzer.cs_visited].
    assert (Hp : path_from entity_id 3 (p ++ [next])%list).
    { split; [| rewrite length_app; simpl; lia].
      destruct p; [discriminate Hhd | exact Hhd]. }
    split; [| split; [| split; [| split; [| split]]]].
    + apply Forall_app. split; [exact Hitems |]. constructor; [| constructor].
      unfold cascade_item.
      cbn [ImpactAnalyzer.path ImpactAnalyzer.entity_id ImpactAnalyzer.severity
           ImpactAnalyzer.impact_type].
      split; [exact Hp |].
      split; [rewrite length_app; simpl; lia |].
      split; [apply last_last |].
      split; [reflexivity |].
      split; [| exact (entity_index_get_indexed _ _ _ He Hb)].
      unfold ImpactAnalyzer._calculate_cascade_severity.
      rewrite length_app. cbn [List.length].
      destruct (Nat.leb_spec (List.length p) 3);
        destruct (Nat.leb_spec (List.length p + 1) 4); try lia; try reflexivity.
      destruct (List.length p <=? 4)%nat; reflexivity.
    + apply Forall_app. split; [exact Hqueue |]. constructor; [| constructor].
      cbn [snd]. destruct Hp as [Hp1 Hp2]. split; [exact Hp1 | lia].
    + rewrite map_app. cbn [map ImpactAnalyzer.entity_id].
      apply NoDup_snoc; [exact Hnd |].
      intros Hin. apply Hfresh. apply Hvis. exact Hin.
    + rewrite map_app. cbn [map ImpactAnalyzer.entity_id].
      intros x Hx. apply in_app_iff in Hx. apply in_app_iff.
      destruct Hx as [Hx | Hx]; [left; apply Hvis; exact Hx | right; exact Hx].
    + intros x Hx. apply in_app_iff. left. apply Hv0. exact Hx.
    + apply Forall_app. split; [exact Hnew |]. constructor; [| constructor].
      cbn [ImpactAnalyzer.entity_id]. intros Hin. apply Hfresh, Hv0, Hin.
  - intros H. apply Ok_inj in H. subst st'.
    unfold cascade_invariant.
    cbn [ImpactAnalyzer.cs_impacts ImpactAnalyzer.cs_queue
         ImpactAnalyzer.cs_visited].
    repeat split; try assumption.
    + intros x Hx. apply in_app_iff. left. apply Hvis. exact Hx.
    + intros x Hx. apply in_app_iff. left. apply Hv0. exact Hx.
Qed.

Lemma cascade_loop_invariant : forall self entity_id visited0 fuel st out,
  cascade_invariant self entity_id visited0 st ->
  ImpactAnalyzer.cascade_loop self fuel st = Ok out ->
  exists st', cascade_invariant self entity_id visited0 st'
              /\ out = ImpactAnalyzer.cs_impacts st'.
Proof.
  intros self entity_id visited0 fuel.
  induction fuel as [|fuel IH]; intros st out Hinv;
    destruct st as [impacts visited queue];
    cbn [ImpactAnalyzer.cascade_loop ImpactAnalyzer.cs_queue
         ImpactAnalyzer.cs_impacts ImpactAnalyzer.cs_visited];
    destruct queue as [|[cur p] queue].
  - intros H. apply Ok_inj in H. subst out. eexists. split; [exact Hinv |].
    reflexivity.
  - destruct (List.length impacts <? 20)%nat; [discriminate |].
    intros H. apply Ok_inj in H. subst out. eexists. split; [exact Hinv |].
    reflexivity.
  - intros H. apply Ok_inj in H. subst out. eexists. split; [exact Hinv |].
    reflexivity.
  - destruct (List.length impacts <? 20)%nat;
      [| intros H; apply Ok_inj in H; subst out; eexists;
         split; [exact Hinv | reflexivity]].
    cbv zeta.
    assert (Hpop : cascade_invariant self entity_id visited0
                     (ImpactAnalyzer.mkCascade impacts visited queue)
                   /\ path_from entity_id 2 p).
    { destruct Hinv as [H1 [H2 [H3 [H4 [H5 H6]]]]].
      cbn [ImpactAnalyzer.cs_impacts ImpactAnalyzer.cs_queue
           ImpactAnalyzer.cs_visited] in *.
      inversion H2 as [|q qs Hq Hqs]; subst.
      split; [| exact Hq].
      unfold cascade_invariant.
      cbn [ImpactAnalyzer.cs_impacts ImpactAnalyzer.cs_queue
           ImpactAnalyzer.cs_visited].
      repeat split; assumption. }
    destruct Hpop as [Hpop Hp].
    destruct (Nat.leb_spec 5 (List.length p)) as [Hlong | Hshort].
    + apply IH. exact Hpop.
    + destruct (rfilter _ _) as [rels| |]; try discriminate. cbn [rbind].
      destruct (rfold _ rels _) as [st'| |] eqn:Hs; try discriminate.
      cbn [rbind]. apply IH.
      refine (rfold_preserves (cascade_invariant self entity_id visited0)
                _ rels _ st' _ Hpop Hs).
      intros s rel s' Hs1 _.
      exact (cascade_step_invariant _ _ _ _ _ _ _ _ Hp Hshort Hs1).
Qed.

Lemma _analyze_cascade_impacts_invariant :
  forall self fuel entity_id existing out,
    Forall (fun item => path_from entity_id 2 (ImpactAnalyzer.path item))
           existing ->
    ImpactAnalyzer._analyze_cascade_impacts self fuel entity_id existing
    = Ok out ->
    Forall (cascade_item self entity_id) out
    /\ NoDup (map ImpactAnalyzer.entity_id out)
    /\ Forall (fun item =>
                 ~ In (ImpactAnalyzer.entity_id item)
                      (VStr entity_id :: map ImpactAnalyzer.entity_id existing))
              out.
Proof.
  intros self fuel entity_id existing out Hex.
  unfold ImpactAnalyzer._analyze_cascade_impacts. cbv zeta. intros H.
  apply (cascade_loop_invariant self entity_id
           (VStr entity_id :: map ImpactAnalyzer.entity_id existing)) in H.
  - destruct H as [st' [[H1 [_ [H3 [_ [_ H6]]]]] ->]]. tauto.
  - unfold cascade_invariant.
    cbn [ImpactAnalyzer.cs_impacts ImpactAnalyzer.cs_queue
         ImpactAnalyzer.cs_visited map].
    split; [constructor |]. split.
    + apply Forall_map. cbn [snd]. exact Hex.
    + split; [constructor |]. split; [intros x [] |].
      split; [apply incl_refl | constructor].
Qed.

(** What the three lists of a report hold, in one statement. *)
Lemma report_impacts :
  forall self stdout fuel entity_id change_type c w report,
    fst (ImpactAnalyzer.analyze_change_impact self stdout fuel entity_id change_type c w)
    = Ok report ->
    Forall (fun impact =>
              ImpactAnalyzer.path impact
              = [VStr entity_id; ImpactAnalyzer.entity_id impact]
              /\ indexed self (ImpactAnalyzer.entity_id impact))
           (ImpactAnalyzer.direct_impacts report)
    /\ indirect_invariant self entity_id (ImpactAnalyzer.direct_impacts report)
         (ImpactAnalyzer.indirect_impacts report)
    /\ Forall (cascade_item self entity_id)
              (ImpactAnalyzer.cascade_impacts report)
    /\ NoDup (map ImpactAnalyzer.entity_id
                (ImpactAnalyzer.cascade_impacts report))
    /\ Forall (fun item =>
                 ~ In (ImpactAnalyzer.entity_id item)
                      (VStr entity_id
                       :: map ImpactAnalyzer.entity_id
                            (ImpactAnalyzer.direct_impacts report
                             ++ ImpactAnalyzer.indirect_impacts report)))
              (ImpactAnalyzer.cascade_impacts report).
Proof.
  intros self stdout fuel entity_id change_type c w report H.
  destruct (report_phases _ _ _ _ _ _ _ _ H) as [Hd [Hi [Hc _]]].
  assert (Hdirect :
    Forall (fun impact =>
              ImpactAnalyzer.path impact
              = [VStr entity_id; ImpactAnalyzer.entity_id impact]
              /\ indexed self (ImpactAnalyzer.entity_id impact))
           (ImpactAnalyzer.direct_impacts report)).
  { destruct Hd as [-> | Hd]; [constructor |].
    exact (_analyze_direct_impacts_paths _ _ _ _ Hd). }
  assert (Hindirect :
    indirect_invariant self entity_id (ImpactAnalyzer.direct_impacts report)
      (ImpactAnalyzer.indirect_impacts report)).
  { destruct Hi as [-> | Hi]; [split; constructor |].
    exact (_analyze_indirect_impacts_invariant _ _ _ _ Hi). }
  split; [exact Hdirect |]. split; [exact Hindirect |].
  destruct Hc as [-> | Hc]; [repeat split; constructor |].
  apply _analyze_cascade_impacts_invariant in Hc; [exact Hc |].
  apply Forall_app. split.
  - refine (Forall_impl _ _ Hdirect). intros item [-> _].
    split; [reflexivity | simpl; lia].
  - destruct Hindirect as [Hall _].
    refine (Forall_impl _ _ Hall). intros item [[d [_ [-> _]]] _].
    split; [reflexivity | simpl; lia].
Qed.

Lemma severity_bucket_levels : forall s,
  severity_bucket s = "critical" \/ severity_bucket s = "high"
  \/ severity_bucket s = "medium" \/ severity_bucket s = "low".
Proof.
  intros s. unfold severity_bucket.
  destruct (s <? 2)%nat; [tauto |].
  destruct (s <=? 3)%nat; [tauto |].
  destruct (s <=? 5)%nat; tauto.
Qed.

(** X4.  The paths of the impacts of a report.  A direct impact has the
    path [source, entity]; an indirect impact has the path
    [source, d, entity] where [d] is the entity of one of the direct
    impacts of the same report; the path of a cascade impact starts at
    the source, ends at the entity of the impact and names three to five
    entities. *)
Theorem report_paths :
  forall (self : ImpactAnalyzer.ImpactAnalyzer) (stdout : Console) (fuel : nat)
         (entity_id change_type : string) (c : Clock) (w : world),
    match fst (ImpactAnalyzer.analyze_change_impact self stdout fuel entity_id
                 change_type c w) with
    | Ok report =>
        Forall (fun impact =>
                  ImpactAnalyzer.path impact
                  = [VStr entity_id; ImpactAnalyzer.entity_id impact])
               (ImpactAnalyzer.direct_impacts report)
        /\ Forall (fun impact =>
                     exists d,
                       In d (ImpactAnalyzer.direct_impacts report)
                       /\ ImpactAnalyzer.path impact
                          = [VStr entity_id; ImpactAnalyzer.entity_id d;
                             ImpactAnalyzer.entity_id impact])
                  (ImpactAnalyzer.indirect_impacts report)
        /\ Forall (fun impact =>
                     hd_error (ImpactAnalyzer.path impact) = Some (VStr entity_id)
                     /\ last (ImpactAnalyzer.path impact) VNone
                        = ImpactAnalyzer.entity_id impact
                     /\ (3 <= List.length (ImpactAnalyzer.path impact) <= 5)%nat)
                  (ImpactAnalyzer.cascade_impacts report)
    | _ => True
    end.
Proof.
  intros self stdout fuel entity_id change_type c w.
  destruct (fst (ImpactAnalyzer.analyze_change_impact self stdout fuel entity_id
                   change_type c w)) as [report|e|] eqn:H; try exact I.
  destruct (report_impacts _ _ _ _ _ _ _ _ H) as [Hd [[Hi _] [Hc _]]].
  split; [| split].
  - refine (Forall_impl _ _ Hd). intros item [Hp _]. exact Hp.
  - refine (Forall_impl _ _ Hi). intros item [[d [Hin [Hp _]]] _].
    exists d. split; assumption.
  - refine (Forall_impl _ _ Hc).
    intros item [[Hhd Hlen] [Hle [Hlast _]]]. repeat split; assumption.
Qed.

(** X5.  Every impact of a report, direct, indirect or cascade, is about
    an entity of the entity index: a relationship whose other end is not an
    indexed entity gives no impact. *)
Theorem report_impacts_are_indexed :
  forall (self : ImpactAnalyzer.ImpactAnalyzer) (stdout : Console) (fuel : nat)
         (entity_id change_type : string) (c : Clock) (w : world),
    match fst (ImpactAnalyzer.analyze_change_impact self stdout fuel entity_id
                 change_type c w) with
    | Ok report =>
        Forall (fun impact => indexed self (ImpactAnalyzer.entity_id impact))
               (ImpactAnalyzer.direct_impacts report
                ++ ImpactAnalyzer.indirect_impacts report
                ++ ImpactAnalyzer.cascade_impacts report)
    | _ => True
    end.
Proof.
  intros self stdout fuel entity_id change_type c w.
  destruct (fst (ImpactAnalyzer.analyze_change_impact self stdout fuel entity_id
                   change_type c w)) as [report|e|] eqn:H; try exact I.
  destruct (report_impacts _ _ _ _ _ _ _ _ H) as [Hd [[Hi _] [Hc _]]].
  apply Forall_app. split; [| apply Forall_app; split].
  - refine (Forall_impl _ _ Hd). intros item [_ Hx]. exact Hx.
  - refine (Forall_impl _ _ Hi). intros item [_ [Hx _]]. exact Hx.
  - refine (Forall_impl _ _ Hc). intros item [_ [_ [_ [_ [_ Hx]]]]]. exact Hx.
Qed.

(** X6.  The indirect impacts of a report name pairwise different
    entities, none of them the source entity, and the impact type of each
    starts with "indirect_". *)
Theorem indirect_impacts_distinct :
  forall (self : ImpactAnalyzer.ImpactAnalyzer) (stdout : Console) (fuel : nat)
         (entity_id change_type : string) (c : Clock) (w : world),
    match fst (ImpactAnalyzer.analyze_change_impact self stdout fuel entity_id
                 change_type c w) with
    | Ok report =>
        NoDup (map ImpactAnalyzer.entity_id
                 (ImpactAnalyzer.indirect_impacts report))
        /\ Forall (fun impact =>
                     ImpactAnalyzer.entity_id impact <> VStr entity_id
                     /\ exists t,
                          ImpactAnalyzer.impact_type impact = "indirect_" ++ t)
                  (ImpactAnalyzer.indirect_impacts report)
    | _ => True
    end.
Proof.
  intros self stdout fuel entity_id change_type c w.
  destruct (fst (ImpactAnalyzer.analyze_change_impact self stdout fuel entity_id
                   change_type c w)) as [report|e|] eqn:H; try exact I.
  destruct (report_impacts _ _ _ _ _ _ _ _ H) as [_ [[Hi Hnd] _]].
  split; [exact Hnd |].
  refine (Forall_impl _ _ Hi). intros item [_ [_ Hx]]. exact Hx.
Qed.

(** X7.  The severity of an indirect impact is one level under the
    severity of the direct impact it was reached through, and never under
    "low": "critical" gives "high", "high" gives "medium", "medium" and
    "low" give "low".  No indirect impact is "critical". *)
Theorem indirect_severity_one_level_lower :
  forall (self : ImpactAnalyzer.ImpactAnalyzer) (stdout : Console) (fuel : nat)
         (entity_id change_type : string) (c : Clock) (w : world),
    match fst (ImpactAnalyzer.analyze_change_impact self stdout fuel entity_id
                 change_type c w) with
    | Ok report =>
        Forall (fun impact =>
                  exists d,
                    In d (ImpactAnalyzer.direct_impacts report)
                    /\ nth_error (ImpactAnalyzer.path impact) 1
                       = Some (ImpactAnalyzer.entity_id d)
                    /\ ((ImpactAnalyzer.severity d = "critical"
                         /\ ImpactAnalyzer.severity impact = "high")
                        \/ (ImpactAnalyzer.severity d = "high"
                            /\ ImpactAnalyzer.severity impact = "medium")
                        \/ ((ImpactAnalyzer.severity d = "medium"
                             \/ ImpactAnalyzer.severity d = "low")
                            /\ ImpactAnalyzer.severity impact = "low")))
               (ImpactAnalyzer.indirect_impacts report)
    | _ => True
    end.
Proof.
  intros self stdout fuel entity_id change_type c w.
  destruct (fst (ImpactAnalyzer.analyze_change_impact self stdout fuel entity_id
                   change_type c w)) as [report|e|] eqn:H; try exact I.
  destruct (report_impacts _ _ _ _ _ _ _ _ H) as [_ [[Hi _] _]].
  assert (Hlevels :
    Forall (fun d =>
              ImpactAnalyzer.severity d = "critical"
              \/ ImpactAnalyzer.severity d = "high"
              \/ ImpactAnalyzer.severity d = "medium"
              \/ ImpactAnalyzer.severity d = "low")
           (ImpactAnalyzer.direct_impacts report)).
  { destruct (report_direct_impacts _ _ _ _ _ _ _ _ H) as [-> | Hd];
      [constructor |].
    refine (Forall_impl _ _ (_analyze_direct_impacts_severity _ _ _ _ Hd)).
    intros d [rel [rt [et [_ [_ [_ [_ [_ ->]]]]]]]].
    apply severity_bucket_levels. }
  rewrite Forall_forall in Hlevels.
  refine (Forall_impl _ _ Hi). intros item [[d [Hin [Hp Hs]]] _].
  exists d. split; [exact Hin |]. split; [rewrite Hp; reflexivity |].
  rewrite Hs.
  destruct (Hlevels d Hin) as [-> | [-> | [-> | ->]]]; cbn; tauto.
Qed.

(** X8.  The cascade impacts of a report name pairwise different entities,
    and none of them is the source entity or the entity of a direct or an
    indirect impact of the report. *)
Theorem cascade_impacts_new_entities :
  forall (self : ImpactAnalyzer.ImpactAnalyzer) (stdout : Console) (fuel : nat)
         (entity_id change_type : string) (c : Clock) (w : world),
    match fst (ImpactAnalyzer.analyze_change_impact self stdout fuel entity_id
                 change_type c w) with
    | Ok report =>
        NoDup (map ImpactAnalyzer.entity_id
                 (ImpactAnalyzer.cascade_impacts report))
        /\ Forall (fun impact =>
                     ImpactAnalyzer.entity_id impact <> VStr entity_id
                     /\ ~ In (ImpactAnalyzer.entity_id impact)
                             (map ImpactAnalyzer.entity_id
                                (ImpactAnalyzer.direct_impacts report
                                 ++ ImpactAnalyzer.indirect_impacts report)))
                  (ImpactAnalyzer.cascade_impacts report)
    | _ => True
    end.
Proof.
  intros self stdout fuel entity_id change_type c w.
  destruct (fst (ImpactAnalyzer.analyze_change_impact self stdout fuel entity_id
                   change_type c w)) as [report|e|] eqn:H; try exact I.
  destruct (report_impacts _ _ _ _ _ _ _ _ H) as [_ [_ [_ [Hnd Hnew]]]].
  split; [exact Hnd |].
  refine (Forall_impl _ _ Hnew). intros item Hx. split.
  - intros E. apply Hx. left. symmetry. exact E.
  - intros Hin. apply Hx. right. exact Hin.
Qed.

(** X9.  A cascade impact has the impact type "cascade" and a severity
    that its path decides: "medium" when the path names three or four
    entities, "low" when it names five.  No cascade impact is "high" or
    "critical". *)
Theorem cascade_severity_by_path_length :
  forall (self : ImpactAnalyzer.ImpactAnalyzer) (stdout : Console) (fuel : nat)
         (entity_id change_type : string) (c : Clock) (w : world),
    match fst (ImpactAnalyzer.analyze_change_impact self stdout fuel entity_id
                 change_type c w) with
    | Ok report =>
        Forall (fun impact =>
                  ImpactAnalyzer.impact_type impact = "cascade"
                  /\ ImpactAnalyzer.severity impact
                     = (if (List.length (ImpactAnalyzer.path impact) <=? 4)%nat
                        then "medium" else "low"))
               (ImpactAnalyzer.cascade_impacts report)
    | _ => True
    end.
Proof.
  intros self stdout fuel entity_id change_type c w.
  destruct (fst (ImpactAnalyzer.analyze_change_impact self stdout fuel entity_id
                   change_type c w)) as [report|e|] eqn:H; try exact I.
  destruct (report_impacts _ _ _ _ _ _ _ _ H) as [_ [_ [Hc _]]].
  refine (Forall_impl _ _ Hc). intros item [_ [_ [_ [Ht [Hs _]]]]].
  split; assumption.
Qed.

(** ** The impact analyzer: the simulation of a removal *)

Lemma rfilter_In : forall {A} (p : A -> result bool) l out,
  rfilter p l = Ok out ->
  forall x, In x out <-> In x l /\ p x = Ok true.
Proof.
  induction l as [|y t IH]; simpl; intros out H x.
  - injection H as <-. simpl. tauto.
  - destruct (p y) as [b| |] eqn:Hy; try discriminate. simpl in H.
    destruct (rfilter p t) as [r| |] eqn:Ht; try discriminate. simpl in H.
    injection H as <-. specialize (IH _ eq_refl x).
    destruct b; simpl; rewrite IH; split.
    + intros [<- | [? ?]]; tauto.
    + intros [[<- | ?] ?]; tauto.
    + tauto.
    + intros [[<- | ?] ?]; [congruence | tauto].
Qed.

Lemma collect_In : forall {A B} (f : A -> result (list B)) l out,
  collect (fun x => once (f x)) l = (out, Ok tt) ->
  forall y, In y out <-> exists x ys, In x l /\ f x = Ok ys /\ In y ys.
Proof.
  induction l as [|x t IH]; simpl; intros out H y.
  - injection H as <-. simpl. split; [tauto | intros [? [? [[] _]]]].
  - destruct (f x) as [ys| |] eqn:Hx; simpl in H; try discriminate.
    destruct (collect (fun x => once (f x)) t) as [r e] eqn:Ht.
    injection H as <- ->. specialize (IH _ eq_refl y).
    rewrite in_app_iff, IH. split.
    + intros [Hy | [x' [ys' [Hin [E Hy]]]]].
      * exists x, ys. tauto.
      * exists x', ys'. tauto.
    + intros [x' [ys' [[<- | Hin] [E Hy]]]].
      * left. congruence.
      * right. exists x', ys'. tauto.
Qed.

(** A simulation without [error] has gone through the whole [try] block. *)
Lemma simulate_entity_removal_completed :
  forall self stdout entity_id c w sim,
    fst (ImpactAnalyzer.simulate_entity_removal self stdout entity_id c w) = Ok sim ->
    ImpactAnalyzer.sim_error sim = None ->
    exists dependent_entities,
      rfilter (ImpactAnalyzer.touches (VStr entity_id))
              (ImpactAnalyzer.relationships self)
      = Ok (ImpactAnalyzer.broken_relationships sim)
      /\ collect (fun rel => once (ImpactAnalyzer.orphaned_by self entity_id rel))
                 (ImpactAnalyzer.broken_relationships sim)
         = (ImpactAnalyzer.orphaned_entities sim, Ok tt)
      /\ rfilter_map (ImpactAnalyzer.dependent_of entity_id)
                     (ImpactAnalyzer.broken_relationships sim)
         = Ok dependent_entities
      /\ collect (fun dep_entity_id =>
                    once (ImpactAnalyzer.cascade_removal_of self entity_id
                            dep_entity_id))
                 dependent_entities
         = (ImpactAnalyzer.cascade_removals sim, Ok tt)
      /\ collect (fun entity =>
                    once (ImpactAnalyzer.contract_affected_by entity_id entity))
                 (ImpactAnalyzer.entities self)
         = (ImpactAnalyzer.affected_contracts sim, Ok tt)
      /\ ImpactAnalyzer.recovery_plan sim
         = ImpactAnalyzer._generate_recovery_plan sim.
Proof.
  intros self stdout entity_id c w sim.
  unfold ImpactAnalyzer.simulate_entity_removal, bind, now_isoformat, lift.
  unfold print at 1. destruct (stdout _) as [e|]; [discriminate |].
  cbv beta iota zeta delta [fst].
  destruct (rfilter _ _) as [related|e|] eqn:H1;
    cbn [ImpactAnalyzer.stopped];
    [| intros H; apply Ok_inj in H; subst sim; discriminate | discriminate].
  destruct (collect _ related) as [orphaned [[]|e|]] eqn:H2;
    cbn [ImpactAnalyzer.stopped];
    [| intros H; apply Ok_inj in H; subst sim; discriminate | discriminate].
  destruct (rfilter_map _ related) as [deps|e|] eqn:H3;
    cbn [ImpactAnalyzer.stopped];
    [| intros H; apply Ok_inj in H; subst sim; discriminate | discriminate].
  destruct (collect _ deps) as [cascade [[]|e|]] eqn:H4;
    cbn [ImpactAnalyzer.stopped];
    [| intros H; apply Ok_inj in H; subst sim; discriminate | discriminate].
  destruct (collect _ (ImpactAnalyzer.entities self))
    as [contracts [[]|e|]] eqn:H5;
    cbn [ImpactAnalyzer.stopped];
    [| intros H; apply Ok_inj in H; subst sim; discriminate | discriminate].
  intros H _. apply Ok_inj in H. subst sim.
  cbn [ImpactAnalyzer.broken_relationships ImpactAnalyzer.orphaned_entities
       ImpactAnalyzer.cascade_removals ImpactAnalyzer.affected_contracts
       ImpactAnalyzer.recovery_plan].
  exists deps. repeat split; assumption.
Qed.

Lemma rfilter_fuel : forall {A} (p : A -> result bool) l,
  (forall x, p x <> OutOfFuel) -> rfilter p l <> OutOfFuel.
Proof.
  intros A p l Hp. induction l as [|x t IH]; simpl.
  - discriminate.
  - specialize (Hp x). destruct (p x); simpl; try congruence.
    destruct (rfilter p t); simpl; congruence.
Qed.

Lemma collect_fuel : forall {A B} (f : A -> result (list B)) l,
  (forall x, f x <> OutOfFuel) ->
  snd (collect (fun x => once (f x)) l) <> OutOfFuel.
Proof.
  intros A B f l Hf. induction l as [|x t IH]; simpl.
  - discriminate.
  - specialize (Hf x). destruct (f x) as [ys|e|]; cbn [once].
    + destruct (collect (fun x => once (f x)) t). exact IH.
    + discriminate.
    + congruence.
Qed.

Lemma py_getitem_fuel : forall o k, py_getitem o k <> OutOfFuel.
Proof.
  intros o k. destruct o; try discriminate.
  unfold py_getitem. destruct (dict_get _ k); discriminate.
Qed.








Lemma collect_all_Ok : forall {A B} (f : A -> result (list B)) l out,
  collect (fun x => once (f x)) l = (out, Ok tt) ->
  forall x, In x l -> exists ys, f x = Ok ys.
Proof.
  induction l as [|y t IH]; simpl; intros out H x Hin.
  - contradiction.
  - destruct (f y) as [ys| |] eqn:Hy; cbn [once] in H; try discriminate.
    destruct (collect (fun x => once (f x)) t) as [r e] eqn:Ht.
    injection H as <- ->. destruct Hin as [<- | Hin].
    + exists ys. exact Hy.
    + exact (IH _ eq_refl x Hin).
Qed.

Lemma touches_true : forall id r,
  ImpactAnalyzer.touches id r = Ok true <->
  py_get r "source" VNone = Ok id \/ py_get r "target" VNone = Ok id.
Proof.
  intros id r. unfold ImpactAnalyzer.touches.
  destruct r as [| | | | |d];
    try (split; [discriminate | intros [H | H]; discriminate H]).
  cbn [py_get rbind].
  set (s := match dict_get d "source" with Some v => v | None => VNone end).
  set (t := match dict_get d "target" with Some v => v | None => VNone end).
  split.
  - intros H. apply Ok_inj in H. apply Bool.orb_true_iff in H.
    destruct H as [H | H]; apply value_eqb_eq in H; subst id; tauto.
  - intros [H | H]; apply Ok_inj in H; subst id;
      rewrite value_eqb_refl; [| rewrite Bool.orb_true_r]; reflexivity.
Qed.

Lemma dependent_of_Some : forall entity_id r dep,
  ImpactAnalyzer.dependent_of entity_id r = Ok (Some dep) <->
  py_get r "type" VNone = Ok (VStr "depends_on")
  /\ py_get r "target" VNone = Ok (VStr entity_id)
  /\ py_get r "source" VNone = Ok dep.
Proof.
  intros entity_id r dep. unfold ImpactAnalyzer.dependent_of.
  destruct r as [| | | | |d];
    try (split; [discriminate | intros [H _]; discriminate H]).
  cbn [py_get rbind]. unfold py_is.
  set (ty := match dict_get d "type" with Some v => v | None => VNone end).
  set (t := match dict_get d "target" with Some v => v | None => VNone end).
  set (s := match dict_get d "source" with Some v => v | None => VNone end).
  destruct (value_eqb ty (VStr "depends_on")) eqn:E1; cbn [andb].
  - destruct (value_eqb t (VStr entity_id)) eqn:E2.
    + apply value_eqb_eq in E1, E2. rewrite E1, E2. split.
      * intros H. apply Ok_inj in H. injection H as ->. tauto.
      * intros [_ [_ H]]. apply Ok_inj in H. subst dep. reflexivity.
    + apply value_eqb_neq in E2. split; [discriminate |].
      intros [_ [H _]]. apply Ok_inj in H. contradiction.
  - apply value_eqb_neq in E1. split; [discriminate |].
    intros [H _]. apply Ok_inj in H. contradiction.
Qed.

Lemma alternative_dependency_true : forall entity_id dep r,
  ImpactAnalyzer.alternative_dependency entity_id dep r = Ok true <->
  py_get r "source" VNone = Ok dep
  /\ py_get r "type" VNone = Ok (VStr "depends_on")
  /\ py_get r "target" VNone <> Ok (VStr entity_id).
Proof.
  intros entity_id dep r. unfold ImpactAnalyzer.alternative_dependency.
  destruct r as [| | | | |d];
    try (split; [discriminate | intros [H _]; discriminate H]).
  cbn [py_get rbind]. unfold py_is.
  set (ty := match dict_get d "type" with Some v => v | None => VNone end).
  set (t := match dict_get d "target" with Some v => v | None => VNone end).
  set (s := match dict_get d "source" with Some v => v | None => VNone end).
  split.
  - intros H. apply Ok_inj in H.
    apply Bool.andb_true_iff in H. destruct H as [H H3].
    apply Bool.andb_true_iff in H. destruct H as [H1 H2].
    apply value_eqb_eq in H1, H2. apply Bool.negb_true_iff, value_eqb_neq in H3.
    rewrite H1, H2. repeat split. intros E. apply Ok_inj in E. contradiction.
  - intros [H1 [H2 H3]]. apply Ok_inj in H1, H2. rewrite H1, H2.
    rewrite !value_eqb_refl. cbn [andb].
    destruct (value_eqb t (VStr entity_id)) eqn:E; [| reflexivity].
    apply value_eqb_eq in E. rewrite E in H3. contradiction H3. reflexivity.
Qed.

(** X11.  In a simulation that completed, the broken relationships are
    the relationships of the graph that have the removed entity as their
    source or as their target, all of them and no other. *)
Theorem broken_relationships_touch_removed_entity :
  forall (self : ImpactAnalyzer.ImpactAnalyzer) (stdout : Console) (entity_id : string)
         (c : Clock) (w : world) (sim : ImpactAnalyzer.removal_simulation),
    fst (ImpactAnalyzer.simulate_entity_removal self stdout entity_id c w) = Ok sim ->
    ImpactAnalyzer.sim_error sim = None ->
    forall r,
      In r (ImpactAnalyzer.broken_relationships sim) <->
      In r (ImpactAnalyzer.relationships self)
      /\ (py_get r "source" VNone = Ok (VStr entity_id)
          \/ py_get r "target" VNone = Ok (VStr entity_id)).
Proof.
  intros self stdout entity_id c w sim H Hok r.
  destruct (simulate_entity_removal_completed _ _ _ _ _ _ H Hok)
    as [deps [H1 _]].
  rewrite (rfilter_In _ _ _ H1 r), touches_true. reflexivity.
Qed.

Lemma broken_relationships_touch_removed_entity_witness :
  fst (ImpactAnalyzer.simulate_entity_removal dependency_graph utf8 "EXT-001"
         midnight no_index) = Ok extension_removal
  /\ ImpactAnalyzer.sim_error extension_removal = None
  /\ forall r,
       In r (ImpactAnalyzer.broken_relationships extension_removal) <->
       In r (ImpactAnalyzer.relationships dependency_graph)
       /\ (py_get r "source" VNone = Ok (VStr "EXT-001")
           \/ py_get r "target" VNone = Ok (VStr "EXT-001")).
Proof.
  assert (H : fst (ImpactAnalyzer.simulate_entity_removal dependency_graph utf8
                     "EXT-001" midnight no_index) = Ok extension_removal)
    by reflexivity.
  assert (Hok : ImpactAnalyzer.sim_error extension_removal = None)
    by reflexivity.
  exact (conj H (conj Hok
           (broken_relationships_touch_removed_entity dependency_graph utf8
              "EXT-001" midnight no_index extension_removal H Hok))).
Defined.

(** X12.  In a simulation that completed, an entity is a cascade removal
    exactly when a "depends_on" relationship goes from it to the removed
    entity and every "depends_on" relationship of the graph that starts at
    it goes to the removed entity: an entity that depends on something
    else too is kept. *)
Theorem cascade_removals_have_no_alternative :
  forall (self : ImpactAnalyzer.ImpactAnalyzer) (stdout : Console) (entity_id : string)
         (c : Clock) (w : world) (sim : ImpactAnalyzer.removal_simulation),
    fst (ImpactAnalyzer.simulate_entity_removal self stdout entity_id c w) = Ok sim ->
    ImpactAnalyzer.sim_error sim = None ->
    forall dep,
      In dep (ImpactAnalyzer.cascade_removals sim) <->
      (exists r,
         In r (ImpactAnalyzer.relationships self)
         /\ py_get r "type" VNone = Ok (VStr "depends_on")
         /\ py_get r "target" VNone = Ok (VStr entity_id)
         /\ py_get r "source" VNone = Ok dep)
      /\ (forall r,
            In r (ImpactAnalyzer.relationships self) ->
            py_get r "source" VNone = Ok dep ->
            py_get r "type" VNone = Ok (VStr "depends_on") ->
            py_get r "target" VNone = Ok (VStr entity_id)).
Proof.
  intros self stdout entity_id c w sim H Hok dep.
  destruct (simulate_entity_removal_completed _ _ _ _ _ _ H Hok)
    as [deps [H1 [_ [H3 [H4 _]]]]].
  assert (Hdeps : forall x,
    In x deps <->
    exists r, In r (ImpactAnalyzer.relationships self)
              /\ py_get r "type" VNone = Ok (VStr "depends_on")
              /\ py_get r "target" VNone = Ok (VStr entity_id)
              /\ py_get r "source" VNone = Ok x).
  { intros x. rewrite (rfilter_map_Ok _ _ _ H3 x). split.
    - intros [r [Hr E]]. apply (rfilter_In _ _ _ H1) in Hr.
      apply dependent_of_Some in E. exists r. tauto.
    - intros [r [Hr [E1 [E2 E3]]]]. exists r. split.
      + apply (rfilter_In _ _ _ H1). split; [exact Hr |].
        apply touches_true. right. exact E2.
      + apply dependent_of_Some. tauto. }
  assert (Hnone : forall x alternative_deps,
    rfilter (ImpactAnalyzer.alternative_dependency entity_id x)
            (ImpactAnalyzer.relationships self) = Ok alternative_deps ->
    (alternative_deps = [] <->
     forall r,
       In r (ImpactAnalyzer.relationships self) ->
       py_get r "source" VNone = Ok x ->
       py_get r "type" VNone = Ok (VStr "depends_on") ->
       py_get r "target" VNone = Ok (VStr entity_id))).
  { intros x alts Ha. split.
    - intros -> r Hr E1 E2.
      destruct (py_get r "target" VNone) as [t| |] eqn:Et.
      + destruct (value_eqb t (VStr entity_id)) eqn:E.
        * apply value_eqb_eq in E. subst t. reflexivity.
        * apply value_eqb_neq in E. exfalso.
          apply (proj2 (rfilter_In _ _ _ Ha r)). split; [exact Hr |].
          apply alternative_dependency_true. rewrite Et.
          repeat split; try assumption. intros E'. apply Ok_inj in E'.
          contradiction.
      + destruct r; discriminate.
      + destruct r; discriminate.
    - intros Hall. destruct alts as [|r alts]; [reflexivity |]. exfalso.
      destruct (proj1 (rfilter_In _ _ _ Ha r) (or_introl eq_refl)) as [Hr E].
      apply alternative_dependency_true in E. destruct E as [E1 [E2 E3]].
      apply E3. apply Hall; assumption. }
  rewrite (collect_In _ _ _ H4 dep). split.
  - intros [x [ys [Hx [E Hy]]]].
    unfold ImpactAnalyzer.cascade_removal_of in E.
    destruct (rfilter (ImpactAnalyzer.alternative_dependency entity_id x) _)
      as [alts| |] eqn:Ha; try discriminate.
    cbn [rbind] in E. apply Ok_inj in E. subst ys.
    destruct alts as [|a alts]; [| contradiction].
    destruct Hy as [<- | []].
    split; [apply Hdeps; exact Hx | apply (Hnone _ _ Ha); reflexivity].
  - intros [Hr Hall]. apply Hdeps in Hr.
    destruct (collect_all_Ok _ _ _ H4 dep Hr) as [ys E].
    exists dep, ys. split; [exact Hr |]. split; [exact E |].
    unfold ImpactAnalyzer.cascade_removal_of in E.
    destruct (rfilter (ImpactAnalyzer.alternative_dependency entity_id dep) _)
      as [alts| |] eqn:Ha; try discriminate.
    cbn [rbind] in E. apply Ok_inj in E. subst ys.
    rewrite (proj2 (Hnone _ _ Ha) Hall). left. reflexivity.
Qed.

Lemma cascade_removals_have_no_alternative_witness :
  fst (ImpactAnalyzer.simulate_entity_removal dependency_graph utf8 "EXT-001"
         midnight no_index) = Ok extension_removal
  /\ ImpactAnalyzer.sim_error extension_removal = None
  /\ forall dep,
       In dep (ImpactAnalyzer.cascade_removals extension_removal) <->
       (exists r,
          In r (ImpactAnalyzer.relationships dependency_graph)
          /\ py_get r "type" VNone = Ok (VStr "depends_on")
          /\ py_get r "target" VNone = Ok (VStr "EXT-001")
          /\ py_get r "source" VNone = Ok dep)
       /\ (forall r,
             In r (ImpactAnalyzer.relationships dependency_graph) ->
             py_get r "source" VNone = Ok dep ->
             py_get r "type" VNone = Ok (VStr "depends_on") ->
             py_get r "target" VNone = Ok (VStr "EXT-001")).
Proof.
  assert (H : fst (ImpactAnalyzer.simulate_entity_removal dependency_graph utf8
                     "EXT-001" midnight no_index) = Ok extension_removal)
    by reflexivity.
  assert (Hok : ImpactAnalyzer.sim_error extension_removal = None)
    by reflexivity.
  exact (conj H (conj Hok
           (cascade_removals_have_no_alternative dependency_graph utf8
              "EXT-001" midnight no_index extension_removal H Hok))).
Defined.

(** X13.  The recovery plan of a simulation that completed agrees with
    the lists of the same dictionary: each of its four conditional steps
    is there exactly when the list it is about is not empty, and the plan
    always has the two closing steps. *)
Theorem recovery_plan_follows_the_lists :
  forall (self : ImpactAnalyzer.ImpactAnalyzer) (stdout : Console) (entity_id : string)
         (c : Clock) (w : world) (sim : ImpactAnalyzer.removal_simulation),
    fst (ImpactAnalyzer.simulate_entity_removal self stdout entity_id c w) = Ok sim ->
    ImpactAnalyzer.sim_error sim = None ->
    (In "Create alternative implementations for orphaned requirements"
        (ImpactAnalyzer.recovery_plan sim)
     <-> ImpactAnalyzer.orphaned_entities sim <> [])
    /\ (In "Establish alternative dependencies for cascade-affected entities"
           (ImpactAnalyzer.recovery_plan sim)
        <-> ImpactAnalyzer.cascade_removals sim <> [])
    /\ (In "Update or remove affected contracts"
           (ImpactAnalyzer.recovery_plan sim)
        <-> ImpactAnalyzer.affected_contracts sim <> [])
    /\ (In "Re-establish critical relationships with alternative entities"
           (ImpactAnalyzer.recovery_plan sim)
        <-> ImpactAnalyzer.broken_relationships sim <> [])
    /\ In "Update documentation and traceability matrix"
          (ImpactAnalyzer.recovery_plan sim)
    /\ In "Run full SSOT verification after changes"
          (ImpactAnalyzer.recovery_plan sim).
Proof.
  intros self stdout entity_id c w sim H Hok.
  destruct (simulate_entity_removal_completed _ _ _ _ _ _ H Hok)
    as [deps [_ [_ [_ [_ [_ ->]]]]]].
  unfold ImpactAnalyzer._generate_recovery_plan.
  destruct (ImpactAnalyzer.orphaned_entities sim);
    destruct (ImpactAnalyzer.cascade_removals sim);
    destruct (ImpactAnalyzer.affected_contracts sim);
    destruct (ImpactAnalyzer.broken_relationships sim);
    cbn [app In];
    repeat split; intros; try discriminate; try tauto;
    repeat match goal with
           | H : _ \/ _ |- _ => destruct H
           | H : False |- _ => destruct H
           | H : @eq string _ _ |- _ => discriminate H
           | H : ?x <> ?x |- _ => contradiction H; reflexivity
           end.
Qed.

Lemma recovery_plan_follows_the_lists_witness :
  fst (ImpactAnalyzer.simulate_entity_removal dependency_graph utf8 "EXT-001"
         midnight no_index) = Ok extension_removal
  /\ ImpactAnalyzer.sim_error extension_removal = None
  /\ In "Establish alternative dependencies for cascade-affected entities"
        (ImpactAnalyzer.recovery_plan extension_removal).
Proof.
  assert (H : fst (ImpactAnalyzer.simulate_entity_removal dependency_graph utf8
                     "EXT-001" midnight no_index) = Ok extension_removal)
    by reflexivity.
  assert (Hok : ImpactAnalyzer.sim_error extension_removal = None)
    by reflexivity.
  split; [exact H |]. split; [exact Hok |].
  apply (proj1 (proj2 (recovery_plan_follows_the_lists dependency_graph utf8
                         "EXT-001" midnight no_index extension_removal H Hok))).
  discriminate.
Defined.

(** ** The query engine: [query] and the detection of the query type *)

Lemma _detect_query_type_values : forall query_text,
  In (SSOTQuery._detect_query_type query_text)
     ["impact"; "relationship"; "pattern"; "gap"; "coverage"; "keyword"].
Proof.
  intros query_text. unfold SSOTQuery._detect_query_type. cbv zeta.
  repeat match goal with
         | |- context [if ?b then _ else _] => destruct b
         end; simpl; tauto.
Qed.

(** X14.  No exception leaves [query]: every exception of a query
    processor is caught and gives a result without items, whose metadata
    has the error and no count, and the execution time 0.0; a query that
    succeeds has the number of its results in the metadata.  In both cases
    the result is for the text asked, and the query type of the metadata is
    the one asked, or the detected one for "auto": it is never "auto". *)
Theorem query_catches_every_exception :
  forall (self : SSOTQuery.SSOTQuery) (fuel : nat)
         (query_text query_type : string) (c : Clock) (w : world),
    match fst (SSOTQuery.query self fuel query_text query_type c w) with
    | Ok r =>
        SSOTQuery.query_text_of r = query_text
        /\ SSOTQuery.md_query_type (SSOTQuery.metadata r)
           = (if String.eqb query_type "auto"
              then SSOTQuery._detect_query_type query_text else query_type)
        /\ SSOTQuery.md_query_type (SSOTQuery.metadata r) <> "auto"
        /\ match SSOTQuery.md_error (SSOTQuery.metadata r) with
           | None =>
               SSOTQuery.md_results_count (SSOTQuery.metadata r)
               = Some (List.length (SSOTQuery.results r))
               /\ SSOTQuery.execution_time r <> None
           | Some _ =>
               SSOTQuery.results r = []
               /\ SSOTQuery.md_results_count (SSOTQuery.metadata r) = None
               /\ SSOTQuery.execution_time r = None
           end
    | Raise _ => False
    | OutOfFuel => True
    end.
Proof.
  intros self fuel query_text query_type c w.
  assert (Hauto : (if String.eqb query_type "auto"
                   then SSOTQuery._detect_query_type query_text
                   else query_type) <> "auto").
  { destruct (String.eqb_spec query_type "auto") as [_ | Hne]; [| exact Hne].
    pose proof (_detect_query_type_values query_text) as Hin.
    intros E. rewrite E in Hin. simpl in Hin.
    repeat (destruct Hin as [Hin | Hin]; [discriminate Hin |]). exact Hin. }
  unfold SSOTQuery.query. cbv zeta.
  revert Hauto.
  generalize (if String.eqb query_type "auto"
              then SSOTQuery._detect_query_type query_text else query_type).
  intros t Hauto. unfold bind at 1. cbn [now_isoformat]. unfold try_except.
  unfold bind at 1.
  destruct (SSOTQuery.get_processor self (SSOTQuery.query_processors self fuel)
              t query_text c (mkWorld (S (ticks w)) (index_dir w) (past w)))
    as [[items|e|] w'].
  - cbn. repeat split; [exact Hauto | discriminate].
  - cbn. repeat split. exact Hauto.
  - exact I.
Qed.

Lemma startswith_app : forall p q s,
  startswith (p ++ q) s = true -> startswith p s = true.
Proof.
  induction p as [|a p IH]; intros q s; simpl.
  - destruct s; reflexivity.
  - destruct s as [|b s]; [discriminate |].
    intros H. apply Bool.andb_true_iff in H. destruct H as [H1 H2].
    rewrite H1. exact (IH _ _ H2).
Qed.

Lemma str_in_app : forall p q s,
  str_in (p ++ q) s = true -> str_in p s = true.
Proof.
  intros p q s. induction s as [|b s IH]; simpl.
  - rewrite !Bool.orb_false_r. apply startswith_app.
  - intros H. apply Bool.orb_true_iff in H. apply Bool.orb_true_iff.
    destruct H as [H | H].
    + left. exact (startswith_app _ _ _ H).
    + right. exact (IH H).
Qed.

(** X15.  A query text that has the word "coverage" is never detected as
    a coverage query: "cover" is looked for before "coverage", so the text
    is an impact or a relationship query. *)
Theorem coverage_is_never_detected :
  forall query_text : string,
    str_in "coverage" (lower query_text) = true ->
    SSOTQuery._detect_query_type query_text = "impact"
    \/ SSOTQuery._detect_query_type query_text = "relationship".
Proof.
  intros query_text H.
  assert (Hc : str_in "cover" (lower query_text) = true)
    by exact (str_in_app "cover" "age" _ H).
  unfold SSOTQuery._detect_query_type. cbv zeta.
  destruct (SSOTQuery.any_in ["impact"; "affect"; "change"] (lower query_text));
    [left; reflexivity |].
  right. unfold SSOTQuery.any_in. cbn [existsb]. rewrite Hc.
  rewrite Bool.orb_true_r. reflexivity.
Qed.

Lemma coverage_is_never_detected_witness :
  str_in "coverage" (lower "Show test coverage") = true
  /\ (SSOTQuery._detect_query_type "Show test coverage" = "impact"
      \/ SSOTQuery._detect_query_type "Show test coverage" = "relationship").
Proof.
  assert (H : str_in "coverage" (lower "Show test coverage") = true)
    by reflexivity.
  exact (conj H (coverage_is_never_detected "Show test coverage" H)).
Defined.

(** What [query] returns for the type [query_type] when the keyword
    processor answers. *)
Lemma get_processor_default : forall self fuel query_type,
  ~ In query_type
       ["keyword"; "relationship"; "pattern"; "impact"; "coverage"; "gap"] ->
  SSOTQuery.get_processor self (SSOTQuery.query_processors self fuel) query_type
  = SSOTQuery.get_processor self (SSOTQuery.query_processors self fuel)
      "keyword".
Proof.
  intros self fuel query_type Hin.
  unfold SSOTQuery.query_processors, SSOTQuery.get_processor.
  repeat match goal with
         | |- context [String.eqb ?k query_type] =>
             destruct (String.eqb_spec k query_type) as [E | _];
             [exfalso; apply Hin; rewrite <- E; simpl; tauto |]
         end.
  reflexivity.
Qed.

(** X16.  A query type that [query_processors] does not know is answered
    by the keyword processor: the result is the result of the keyword
    query for the same text, except that its metadata keeps the query type
    asked. *)
Theorem unknown_query_type_is_keyword_query :
  forall (self : SSOTQuery.SSOTQuery) (fuel : nat)
         (query_text query_type : string) (c : Clock) (w : world),
    ~ In query_type
         ["auto"; "keyword"; "relationship"; "pattern"; "impact"; "coverage";
          "gap"] ->
    fst (SSOTQuery.query self fuel query_text query_type c w)
    = match fst (SSOTQuery.query self fuel query_text "keyword" c w) with
      | Ok r =>
          Ok (SSOTQuery.mkQueryResult
                (SSOTQuery.query_text_of r) (SSOTQuery.results r)
                (SSOTQuery.mkMetadata
                   (SSOTQuery.md_error (SSOTQuery.metadata r)) query_type
                   (SSOTQuery.md_timestamp (SSOTQuery.metadata r))
                   (SSOTQuery.md_results_count (SSOTQuery.metadata r)))
                (SSOTQuery.execution_time r))
      | other => other
      end.
Proof.
  intros self fuel query_text query_type c w Hin.
  unfold SSOTQuery.query. cbv zeta.
  destruct (String.eqb_spec query_type "auto") as [E | _];
    [exfalso; apply Hin; rewrite E; simpl; tauto |].
  cbn [String.eqb Ascii.eqb Bool.eqb].
  rewrite (get_processor_default self fuel query_type)
    by (intros H; apply Hin; right; exact H).
  unfold bind, try_except, now_isoformat, ret. cbv beta iota zeta.
  destruct (SSOTQuery.get_processor self (SSOTQuery.query_processors self fuel)
              "keyword" query_text c
              (mkWorld (S (ticks w)) (index_dir w) (past w)))
    as [[items|e|] w']; reflexivity.
Qed.

Lemma unknown_query_type_is_keyword_query_witness :
  ~ In "semantic"
       ["auto"; "keyword"; "relationship"; "pattern"; "impact"; "coverage";
        "gap"]
  /\ fst (SSOTQuery.query login_engine 0 "login" "semantic" midnight no_index)
     = match fst (SSOTQuery.query login_engine 0 "login" "keyword" midnight
                    no_index) with
       | Ok r =>
           Ok (SSOTQuery.mkQueryResult
                 (SSOTQuery.query_text_of r) (SSOTQuery.results r)
                 (SSOTQuery.mkMetadata
                    (SSOTQuery.md_error (SSOTQuery.metadata r)) "semantic"
                    (SSOTQuery.md_timestamp (SSOTQuery.metadata r))
                    (SSOTQuery.md_results_count (SSOTQuery.metadata r)))
                 (SSOTQuery.execution_time r))
       | other => other
       end.
Proof.
  assert (H : ~ In "semantic"
                   ["auto"; "keyword"; "relationship"; "pattern"; "impact";
                    "coverage"; "gap"]).
  { simpl. intros H.
    repeat (destruct H as [H | H]; [discriminate H |]). exact H. }
  exact (conj H (unknown_query_type_is_keyword_query login_engine 0 "login"
                   "semantic" midnight no_index H)).
Defined.

(** ** The indexer: what a run writes *)

Lemma yields_ret : forall {A} (P : A -> Prop) a, P a -> yields P (ret a).
Proof. intros A P a H c w. cbn. auto. Qed.

Lemma yields_lift : forall {A} (r : result A),
  r <> OutOfFuel -> yields (fun _ => True) (lift r).
Proof. intros A r H c w. unfold lift. destruct r; cbn; auto. Qed.

Lemma yields_now : yields (fun _ => True) now_isoformat.
Proof. intros c w. cbn. auto. Qed.

Lemma yields_bind :
  forall {A B} (P : A -> Prop) (Q : B -> Prop) (m : M A) (k : A -> M B),
    yields P m -> (forall a, P a -> yields Q (k a)) -> yields Q (bind m k).
Proof.
  intros A B P Q m k Hm Hk c w. unfold bind. specialize (Hm c w).
  destruct (m c w) as [[a|e|] w1]; [| exact Hm | exact Hm].
  destruct Hm as [Ha [H1 H2]]. specialize (Hk a Ha c w1).
  destruct (k a c w1) as [[b|e|] w2]; [| | exact Hk].
  - destruct Hk as [Hb [H3 H4]]. rewrite H3, H4. auto.
  - destruct Hk as [H3 H4]. rewrite H3, H4. auto.
Qed.

Lemma yields_impl : forall {A} (P Q : A -> Prop) (m : M A),
  (forall a, P a -> Q a) -> yields P m -> yields Q m.
Proof.
  intros A P Q m H Hm c w. specialize (Hm c w).
  destruct (m c w) as [[a|e|] w1]; [| exact Hm | exact Hm].
  destruct Hm as [Ha Hw]. split; [exact (H a Ha) | exact Hw].
Qed.

Lemma yields_mapM : forall {A B} (P : B -> Prop) (f : A -> M B) l,
  (forall x, yields P (f x)) -> yields (Forall P) (mapM f l).
Proof.
  intros A B P f l Hf. induction l as [|x t IH]; simpl.
  - apply yields_ret. constructor.
  - apply (yields_bind P); [apply Hf |]. intros a Ha.
    apply (yields_bind (Forall P)); [exact IH |]. intros l' Hl'.
    apply yields_ret. constructor; assumption.
Qed.

Lemma Forall_concat_all : forall {A} (P : A -> Prop) ls,
  Forall (Forall P) ls -> Forall P (concat ls).
Proof.
  intros A P ls H. induction H; simpl.
  - constructor.
  - apply Forall_app. split; assumption.
Qed.

Lemma yields_concatM : forall {A B} (P : B -> Prop) (f : A -> M (list B)) l,
  (forall x, yields (Forall P) (f x)) -> yields (Forall P) (concatM f l).
Proof.
  intros A B P f l Hf. unfold concatM.
  apply (yields_bind (Forall (Forall P))); [apply yields_mapM; exact Hf |].
  intros ls H. apply yields_ret. apply Forall_concat_all. exact H.
Qed.

Lemma yields_one : forall {B} (P : B -> Prop) (m : M B),
  yields P m -> yields (Forall P) (SSOTIndexer.one m).
Proof.
  intros B P m H. unfold SSOTIndexer.one.
  apply (yields_bind P); [exact H |]. intros a Ha.
  apply yields_ret. constructor; [exact Ha | constructor].
Qed.

Lemma py_in_fuel : forall k o, py_in k o <> OutOfFuel.
Proof. intros k o. destruct o; discriminate. Qed.

Lemma py_items_fuel : forall o, py_items o <> OutOfFuel.
Proof. intros o. destruct o; discriminate. Qed.

Lemma py_iter_fuel : forall o, py_iter o <> OutOfFuel.
Proof. intros o. destruct o; discriminate. Qed.

(** A step that reads a dictionary. *)
Ltac read_step :=
  apply (yields_bind (fun _ => True));
  [ apply yields_lift;
    first [ apply py_get_fuel | apply py_getitem_fuel | apply py_in_fuel
          | apply py_items_fuel | apply py_iter_fuel ]
  | intros ? _ ].

Lemma yields_for_items_of :
  forall {B} (P : B -> Prop) key container body,
    (forall k v, yields (Forall P) (body k v)) ->
    yields (Forall P) (SSOTIndexer.for_items_of key container body).
Proof.
  intros B P key container body Hb. unfold SSOTIndexer.for_items_of.
  read_step. match goal with |- yields _ (if ?b then _ else _) => destruct b end;
    [| apply yields_ret; constructor].
  read_step. read_step. apply yields_concatM. intros [k v]. apply Hb.
Qed.

Lemma yields_entity_metadata : forall L source spec,
  yields (fun _ => True) (SSOTIndexer.entity_metadata L source spec).
Proof.
  intros L source spec. unfold SSOTIndexer.entity_metadata.
  apply (yields_bind (fun _ => True)); [apply yields_now |]. intros t _.
  apply yields_ret. exact I.
Qed.

(** The last steps of a builder: the metadata, then the entity. *)
Ltac entity_step :=
  apply (yields_bind (fun _ => True)); [apply yields_entity_metadata |];
  intros ? _; apply yields_ret;
  eexists; eexists; split; [reflexivity |]; split; [reflexivity |];
  simpl; tauto.

Lemma yields_functional_requirement : forall L id spec,
  yields extracted_entity (SSOTIndexer.functional_requirement L id spec).
Proof.
  intros L id spec. unfold SSOTIndexer.functional_requirement.
  repeat read_step. entity_step.
Qed.

Lemma yields_non_functional_requirement : forall L id spec,
  yields extracted_entity (SSOTIndexer.non_functional_requirement L id spec).
Proof.
  intros L id spec. unfold SSOTIndexer.non_functional_requirement.
  repeat read_step. entity_step.
Qed.

Lemma yields_unit_of_work : forall L id spec,
  yields extracted_entity (SSOTIndexer.unit_of_work L id spec).
Proof.
  intros L id spec. unfold SSOTIndexer.unit_of_work.
  repeat read_step. entity_step.
Qed.

Lemma yields_contract : forall L id spec,
  yields extracted_entity (SSOTIndexer.contract L id spec).
Proof.
  intros L id spec. unfold SSOTIndexer.contract.
  repeat read_step. entity_step.
Qed.

Lemma yields_extension : forall L category name spec,
  yields extracted_entity (SSOTIndexer.extension L category name spec).
Proof.
  intros L category name spec. unfold SSOTIndexer.extension.
  repeat read_step. entity_step.
Qed.

Lemma yields_extract_entities : forall L ssot_data,
  yields (Forall extracted_entity) (SSOTIndexer.extract_entities L ssot_data).
Proof.
  intros L ssot_data. unfold SSOTIndexer.extract_entities.
  read_step.
  apply (yields_bind (Forall extracted_entity)).
  - match goal with |- yields _ (if ?b then _ else _) => destruct b end;
      [| apply yields_ret; constructor].
    read_step.
    apply (yields_bind (Forall extracted_entity)).
    { apply yields_for_items_of. intros k v. apply yields_one.
      apply yields_functional_requirement. }
    intros frs Hfrs.
    apply (yields_bind (Forall extracted_entity)).
    { apply yields_for_items_of. intros k v. apply yields_one.
      apply yields_non_functional_requirement. }
    intros nfrs Hnfrs.
    apply (yields_bind (Forall extracted_entity)).
    { apply yields_for_items_of. intros k v. apply yields_one.
      apply yields_unit_of_work. }
    intros uows Huows. apply yields_ret.
    apply Forall_app. split; [exact Hfrs |].
    apply Forall_app. split; assumption.
  - intros framework Hf.
    apply (yields_bind (Forall extracted_entity)).
    { apply yields_for_items_of. intros k v. apply yields_one.
      apply yields_contract. }
    intros contracts Hc.
    apply (yields_bind (Forall extracted_entity)).
    { apply yields_for_items_of. intros category extensions.
      read_step. apply yields_mapM. intros [k v]. apply yields_extension. }
    intros extensions He. apply yields_ret.
    apply Forall_app. split; [exact Hf |].
    apply Forall_app. split; assumption.
Qed.

Lemma yields_relationship : forall source target type source_file,
  In type ["implements"; "depends_on"; "validates"] ->
  yields extracted_relationship
         (SSOTIndexer.relationship source target type source_file).
Proof.
  intros source target type source_file Hin. unfold SSOTIndexer.relationship.
  apply (yields_bind (fun _ => True)); [apply yields_now |]. intros t _.
  apply yields_ret. exists source, target, type.
  split; [reflexivity |]. split; [reflexivity |]. split; [reflexivity |].
  exact Hin.
Qed.

Lemma yields_uow_relationships : forall uow_id uow_spec,
  yields (Forall extracted_relationship)
         (SSOTIndexer.uow_relationships uow_id uow_spec).
Proof.
  intros uow_id uow_spec. unfold SSOTIndexer.uow_relationships.
  read_step. read_step.
  apply (yields_bind (Forall extracted_relationship)).
  { apply yields_mapM. intros x. apply yields_relationship. simpl. tauto. }
  intros implemented Hi. read_step. read_step.
  apply (yields_bind (Forall extracted_relationship)).
  { apply yields_mapM. intros x. apply yields_relationship. simpl. tauto. }
  intros depended Hd. apply yields_ret. apply Forall_app. split; assumption.
Qed.

Lemma yields_contract_relationships : forall contract_id contract_spec,
  yields (Forall extracted_relationship)
         (SSOTIndexer.contract_relationships contract_id contract_spec).
Proof.
  intros contract_id contract_spec. unfold SSOTIndexer.contract_relationships.
  read_step. read_step.
  match goal with |- yields _ (if ?b then _ else _) => destruct b end;
    [| apply yields_ret; constructor].
  read_step.
  match goal with |- yields _ (if ?b then _ else _) => destruct b end;
    [| apply yields_ret; constructor].
  read_step. apply yields_one. apply yields_relationship. simpl. tauto.
Qed.

Lemma yields_extract_relationships : forall ssot_data,
  yields (Forall extracted_relationship)
         (SSOTIndexer.extract_relationships ssot_data).
Proof.
  intros ssot_data. unfold SSOTIndexer.extract_relationships.
  read_step.
  apply (yields_bind (Forall extracted_relationship)).
  - match goal with |- yields _ (if ?b then _ else _) => destruct b end;
      [| apply yields_ret; constructor].
    read_step. apply yields_for_items_of. apply yields_uow_relationships.
  - intros framework Hf.
    apply (yields_bind (Forall extracted_relationship)).
    { apply yields_for_items_of. apply yields_contract_relationships. }
    intros contracts Hc. apply yields_ret. apply Forall_app. split; assumption.
Qed.

Lemma counts_by_type_typed : forall l types,
  Forall (fun x => exists ty, py_getitem x "type" = Ok ty) l ->
  exists counts, SSOTIndexer.counts_by_type l types = Ok counts.
Proof.
  intros l types Hl. unfold SSOTIndexer.counts_by_type.
  assert (Hc : forall t, exists n, SSOTIndexer.count_of_type l t = Ok n).
  { intros t. unfold SSOTIndexer.count_of_type.
    induction Hl as [|x l [ty Hx] _ IH]; simpl.
    - eexists. reflexivity.
    - rewrite Hx. simpl. destruct IH as [n IH].
      destruct (rfilter _ l) as [out| |]; try discriminate IH.
      simpl. eexists. reflexivity. }
  induction types as [|t types IH]; simpl.
  - eexists. reflexivity.
  - destruct (Hc t) as [n ->]. simpl. destruct IH as [counts IH].
    destruct (rmapM _ types) as [out| |]; try discriminate IH.
    simpl. eexists. reflexivity.
Qed.

Lemma save_graphrag_data_Ok :
  forall entities relationships entity_counts relationship_counts c w,
    SSOTIndexer.counts_by_type entities (map snd SSOTIndexer.entity_types)
    = Ok entity_counts ->
    SSOTIndexer.counts_by_type relationships
      (map snd SSOTIndexer.relationship_types)
    = Ok relationship_counts ->
    exists metadata past',
      SSOTIndexer.save_graphrag_data entities relationships c w
      = (Ok tt,
         mkWorld (S (ticks w))
           (mkStore (Some (Doc entities)) (Some (Doc relationships))
              (Some (Doc metadata)))
           past').
Proof.
  intros entities relationships ec rc c w Hec Hrc.
  unfold SSOTIndexer.save_graphrag_data, SSOTIndexer.index_metadata,
    bind, modify_store, now_isoformat, lift, ret.
  cbn [fst snd ticks index_dir past]. rewrite Hec, Hrc.
  eexists. eexists. reflexivity.
Qed.

(** X17.  A run of the indexer opens no file before both extractions
    have returned.  When [extract_entities] or [extract_relationships]
    raises, as on a record of the wrong shape anywhere in the documents,
    [index_ssot] raises that exception and the index directory is as it
    was.  What the extractions return can be counted by type: every
    entity has an id and one of the types functional_requirement,
    non_functional_requirement, unit_of_work, contract and extension,
    every relationship has a source, a target and one of the types
    implements, depends_on and validates, so computing the metadata of
    the index does not raise.  And when [index_ssot] returns, the three
    files of the index directory hold the entities and the relationships
    extracted and the metadata, and the counts returned are the lengths
    of the two lists. *)
Theorem index_ssot_extracts_before_it_writes :
  forall (L : library) (ssot_data : value) (c : Clock) (w : world),
    match SSOTIndexer.extract_entities L ssot_data c w with
    | (Raise e, w1) =>
        SSOTIndexer.index_ssot L ssot_data c w = (Raise e, w1)
        /\ index_dir w1 = index_dir w /\ past w1 = past w
    | (OutOfFuel, _) => False
    | (Ok entities, w1) =>
        Forall extracted_entity entities
        /\ match SSOTIndexer.extract_relationships ssot_data c w1 with
           | (Raise e, w2) =>
               SSOTIndexer.index_ssot L ssot_data c w = (Raise e, w2)
               /\ index_dir w2 = index_dir w /\ past w2 = past w
           | (OutOfFuel, _) => False
           | (Ok relationships, w2) =>
               Forall extracted_relationship relationships
               /\ (exists metadata,
                     fst (SSOTIndexer.index_metadata entities relationships c w2)
                     = Ok metadata)
               /\ forall (summary : value) (w' : world),
                    SSOTIndexer.index_ssot L ssot_data c w = (Ok summary, w') ->
                    (exists metadata,
                       index_dir w'
                       = mkStore (Some (Doc entities)) (Some (Doc relationships))
                           (Some (Doc metadata)))
                    /\ summary
                       = VDict [ ("entities_count",
                                  VInt (Z.of_nat (List.length entities)));
                                 ("relationships_count",
                                  VInt (Z.of_nat (List.length relationships)));
                                 ("status", VStr "success") ]
           end
    end.
Proof.
  intros L ssot_data c w.
  assert (Hrun : forall r, SSOTIndexer.index_ssot L ssot_data c w = r ->
            (entities <- SSOTIndexer.extract_entities L ssot_data ;;
             relationships <- SSOTIndexer.extract_relationships ssot_data ;;
             SSOTIndexer.save_graphrag_data entities relationships ;;;
             ret (VDict [ ("entities_count",
                           VInt (Z.of_nat (List.length entities)));
                          ("relationships_count",
                           VInt (Z.of_nat (List.length relationships)));
                          ("status", VStr "success") ])) c w = r)
    by (intros r H; exact H).
  pose proof (yields_extract_entities L ssot_data c w) as He.
  destruct (SSOTIndexer.extract_entities L ssot_data c w)
    as [[entities|e|] w1] eqn:E1; [| | exact He].
  2: { split; [| exact He]. specialize (Hrun _ eq_refl).
       unfold bind at 1 in Hrun. rewrite E1 in Hrun. symmetry. exact Hrun. }
  destruct He as [He [Hd1 Hp1]]. split; [exact He |].
  pose proof (yields_extract_relationships ssot_data c w1) as Hr.
  destruct (SSOTIndexer.extract_relationships ssot_data c w1)
    as [[relationships|e|] w2] eqn:E2; [| | exact Hr].
  2: { split; [| rewrite <- Hd1, <- Hp1; exact Hr]. specialize (Hrun _ eq_refl).
       unfold bind at 1 in Hrun. rewrite E1 in Hrun.
       unfold bind at 1 in Hrun. rewrite E2 in Hrun. symmetry. exact Hrun. }
  destruct Hr as [Hr [Hd2 Hp2]]. split; [exact Hr |].
  destruct (counts_by_type_typed entities (map snd SSOTIndexer.entity_types))
    as [ec Hec].
  { refine (Forall_impl _ _ He). intros x [id [ty [_ [H _]]]].
    eexists. exact H. }
  destruct (counts_by_type_typed relationships
              (map snd SSOTIndexer.relationship_types)) as [rc Hrc].
  { refine (Forall_impl _ _ Hr). intros x [s [t [ty [_ [_ [H _]]]]]].
    eexists. exact H. }
  split.
  - unfold SSOTIndexer.index_metadata, bind, now_isoformat, lift, ret.
    cbn [fst]. rewrite Hec, Hrc. eexists. reflexivity.
  - intros summary w' H. apply Hrun in H.
    unfold bind at 1 in H. rewrite E1 in H.
    unfold bind at 1 in H. rewrite E2 in H.
    unfold bind at 1 in H.
    destruct (save_graphrag_data_Ok _ _ _ _ c w2 Hec Hrc) as [metadata [p Hs]].
    rewrite Hs in H. cbn [ret] in H. injection H as <- <-.
    split; [eexists; reflexivity | reflexivity].
Qed.

(** ** The impact analyzer: the assessment, the strategies and the layers *)

Lemma _perform_risk_assessment_shape : forall self source_entity report risk,
  ImpactAnalyzer._perform_risk_assessment self source_entity report = Ok risk ->
  exists overall score factors layers,
    risk = ImpactAnalyzer.Assessment overall score factors
             (existsb (String.eqb overall) ["critical"; "high"])
    /\ overall = (if (8 <=? score)%nat then "critical"
                  else if (5 <=? score)%nat then "high"
                  else if (3 <=? score)%nat then "medium"
                  else "low")
    /\ ImpactAnalyzer._analyze_affected_layers self report = Ok layers.
Proof.
  intros self source_entity report risk.
  unfold ImpactAnalyzer._perform_risk_assessment.
  destruct (py_get source_entity "type" (VStr "unknown")); try discriminate.
  cbn [rbind]. cbv zeta.
  destruct (ImpactAnalyzer._analyze_affected_layers self report)
    as [layers| |]; try discriminate.
  cbn [rbind]. intros H. apply Ok_inj in H. subst risk.
  eexists. eexists. eexists. exists layers.
  split; [reflexivity |]. split; reflexivity.
Qed.

(** A report has an error and nothing after the impacts, or it has an
    assessment and what the last three phases make of it. *)
Lemma report_assessed :
  forall self stdout fuel entity_id change_type c w report,
    fst (ImpactAnalyzer.analyze_change_impact self stdout fuel entity_id change_type c w)
    = Ok report ->
    (exists e,
       ImpactAnalyzer.risk_assessment report = ImpactAnalyzer.AssessmentError e
       /\ ImpactAnalyzer.mitigation_strategies report = []
       /\ ImpactAnalyzer.affected_layers report = []
       /\ ImpactAnalyzer.testing_recommendations report = [])
    \/ (exists overall score factors,
          ImpactAnalyzer.risk_assessment report
          = ImpactAnalyzer.Assessment overall score factors
              (existsb (String.eqb overall) ["critical"; "high"])
          /\ overall = (if (8 <=? score)%nat then "critical"
                        else if (5 <=? score)%nat then "high"
                        else if (3 <=? score)%nat then "medium"
                        else "low")
          /\ ImpactAnalyzer.mitigation_strategies report
             = ImpactAnalyzer._generate_mitigation_strategies
                 (ImpactAnalyzer.mkImpactReport entity_id change_type
                    (c (ticks w)) (ImpactAnalyzer.direct_impacts report)
                    (ImpactAnalyzer.indirect_impacts report)
                    (ImpactAnalyzer.cascade_impacts report)
                    (ImpactAnalyzer.risk_assessment report) [] [] [])
          /\ ImpactAnalyzer._analyze_affected_layers self report
             = Ok (ImpactAnalyzer.affected_layers report)).
Proof.
  intros self stdout fuel entity_id change_type c w report.
  unfold ImpactAnalyzer.analyze_change_impact, bind, now_isoformat, lift.
  unfold print at 1. destruct (stdout _) as [e|]; [discriminate |].
  cbv beta iota zeta delta [fst].
  assert (Hfailed : forall e direct indirect cascade,
    Ok (ImpactAnalyzer.failed e
          (ImpactAnalyzer.mkImpactReport entity_id change_type (c (ticks w))
             direct indirect cascade ImpactAnalyzer.NoAssessment [] [] []))
    = Ok report ->
    (exists e,
       ImpactAnalyzer.risk_assessment report = ImpactAnalyzer.AssessmentError e
       /\ ImpactAnalyzer.mitigation_strategies report = []
       /\ ImpactAnalyzer.affected_layers report = []
       /\ ImpactAnalyzer.testing_recommendations report = [])).
  { intros e direct indirect cascade H. apply Ok_inj in H. subst report.
    exists (str_of e). repeat split. }
  unfold ImpactAnalyzer.phase at 1.
  case_result; [| printed; intros H; left; exact (Hfailed _ _ _ _ H) | discriminate].
  unfold ImpactAnalyzer.phase at 1.
  case_result; [| printed; intros H; left; exact (Hfailed _ _ _ _ H) | discriminate].
  unfold ImpactAnalyzer.phase at 1.
  case_result; [| printed; intros H; left; exact (Hfailed _ _ _ _ H) | discriminate].
  unfold ImpactAnalyzer.phase at 1.
  case_result; [| printed; intros H; left; exact (Hfailed _ _ _ _ H) | discriminate].
  unfold ImpactAnalyzer.phase at 1.
  match goal with
  | |- context [ImpactAnalyzer._perform_risk_assessment self ?s ?r] =>
      destruct (ImpactAnalyzer._perform_risk_assessment self s r)
        as [risk| |] eqn:Hrisk;
      [| printed; intros H; left; exact (Hfailed _ _ _ _ H) | discriminate]
  end.
  destruct (_perform_risk_assessment_shape _ _ _ _ Hrisk)
    as [overall [score [factors [layers [-> [Hoverall Hlayers]]]]]].
  unfold ImpactAnalyzer._analyze_affected_layers in Hlayers.
  cbn [ImpactAnalyzer.direct_impacts ImpactAnalyzer.indirect_impacts
       ImpactAnalyzer.cascade_impacts] in Hlayers.
  unfold ImpactAnalyzer.phase at 1.
  unfold ImpactAnalyzer._analyze_affected_layers at 1.
  cbn [ImpactAnalyzer.direct_impacts ImpactAnalyzer.indirect_impacts
       ImpactAnalyzer.cascade_impacts].
  rewrite Hlayers.
  intros H. apply Ok_inj in H. subst report. right.
  exists overall, score, factors.
  cbn [ImpactAnalyzer.risk_assessment ImpactAnalyzer.mitigation_strategies
       ImpactAnalyzer.affected_layers ImpactAnalyzer.direct_impacts
       ImpactAnalyzer.indirect_impacts ImpactAnalyzer.cascade_impacts].
  split; [reflexivity |]. split; [exact Hoverall |]. split; [reflexivity |].
  unfold ImpactAnalyzer._analyze_affected_layers.
  cbn [ImpactAnalyzer.direct_impacts ImpactAnalyzer.indirect_impacts
       ImpactAnalyzer.cascade_impacts].
  exact Hlayers.
Qed.

(** X18.  The risk assessment of a report and its mitigation strategies
    agree.  The overall risk is "critical" from the score 8, "high" from
    5, "medium" from 3 and "low" under 3; mitigation is required exactly
    when the score is 5 or more, and exactly then the strategies start
    with the rollout steps of the risk level ("Implement phased rollout
    with rollback plan" or "Perform staged deployment").  A report whose
    analysis failed has the error as its assessment and no strategy, layer
    or testing recommendation. *)
Theorem mitigation_required_gives_rollout_strategy :
  forall (self : ImpactAnalyzer.ImpactAnalyzer) (stdout : Console) (fuel : nat)
         (entity_id change_type : string) (c : Clock) (w : world),
    match fst (ImpactAnalyzer.analyze_change_impact self stdout fuel entity_id
                 change_type c w) with
    | Ok report =>
        match ImpactAnalyzer.risk_assessment report with
        | ImpactAnalyzer.Assessment overall score factors required =>
            overall = (if (8 <=? score)%nat then "critical"
                       else if (5 <=? score)%nat then "high"
                       else if (3 <=? score)%nat then "medium"
                       else "low")
            /\ required = (5 <=? score)%nat
            /\ (required = true <->
                In "Implement phased rollout with rollback plan"
                   (ImpactAnalyzer.mitigation_strategies report)
                \/ In "Perform staged deployment"
                      (ImpactAnalyzer.mitigation_strategies report))
        | ImpactAnalyzer.AssessmentError _ =>
            ImpactAnalyzer.mitigation_strategies report = []
            /\ ImpactAnalyzer.affected_layers report = []
            /\ ImpactAnalyzer.testing_recommendations report = []
        | ImpactAnalyzer.NoAssessment => False
        end
    | _ => True
    end.
Proof.
  intros self stdout fuel entity_id change_type c w.
  destruct (fst (ImpactAnalyzer.analyze_change_impact self stdout fuel entity_id
                   change_type c w)) as [report|e|] eqn:H; try exact I.
  destruct (report_assessed _ _ _ _ _ _ _ _ H)
    as [[e [-> Hrest]] | [overall [score [factors [Hr [Ho [Hm _]]]]]]];
    [exact Hrest |].
  rewrite Hm, Hr. clear Hm Hr H.
  unfold ImpactAnalyzer._generate_mitigation_strategies.
  cbn [ImpactAnalyzer.risk_assessment ImpactAnalyzer.affected_layers
       ImpactAnalyzer.direct_impacts ImpactAnalyzer.indirect_impacts].
  cbv zeta. change (1 <? List.length (@nil value))%nat with false.
  cbv iota. split; [exact Ho |].
  generalize (ImpactAnalyzer.direct_impacts report
              ++ ImpactAnalyzer.indirect_impacts report)%list.
  intros impacts. subst overall.
  destruct (8 <=? score)%nat eqn:E8.
  - assert (E5 : (5 <=? score)%nat = true).
    { apply Nat.leb_le in E8. apply Nat.leb_le. lia. }
    rewrite E5. split; [reflexivity |]. cbn. tauto.
  - destruct (5 <=? score)%nat eqn:E5.
    + split; [reflexivity |]. cbn. tauto.
    + destruct (3 <=? score)%nat; cbn;
        (split; [reflexivity |]); split; try discriminate;
        destruct (ImpactAnalyzer.has_impact_type "implementation_change" impacts);
        destruct (ImpactAnalyzer.has_impact_type "dependency_impact" impacts);
        destruct (ImpactAnalyzer.has_impact_type "contract_validation" impacts);
        cbn; intros [Hin | Hin];
        repeat (destruct Hin as [Hin | Hin]; [discriminate Hin |]);
        exact (False_ind _ Hin).
Qed.

Lemma set_add_In : forall x l y,
  In y (ImpactAnalyzer.set_add x l) <-> y = x \/ In y l.
Proof.
  intros x l y. unfold ImpactAnalyzer.set_add.
  destruct (mem x l) eqn:E.
  - apply mem_In in E. split; [tauto |]. intros [-> | H]; assumption.
  - rewrite in_app_iff. simpl. split; [intros [H | [<- | []]] | intros [-> | H]];
      tauto.
Qed.

Lemma set_add_NoDup : forall x l,
  NoDup l -> NoDup (ImpactAnalyzer.set_add x l).
Proof.
  intros x l Hl. unfold ImpactAnalyzer.set_add.
  destruct (mem x l) eqn:E; [exact Hl |].
  apply mem_not_In in E. apply NoDup_snoc; assumption.
Qed.

(** X19.  The affected layers of a report are a set: no layer is there
    twice, none is "unknown", and each is the layer, in the entity index,
    of the entity of some impact of the report. *)
Theorem affected_layers_of_the_impacts :
  forall (self : ImpactAnalyzer.ImpactAnalyzer) (stdout : Console) (fuel : nat)
         (entity_id change_type : string) (c : Clock) (w : world),
    match fst (ImpactAnalyzer.analyze_change_impact self stdout fuel entity_id
                 change_type c w) with
    | Ok report =>
        NoDup (ImpactAnalyzer.affected_layers report)
        /\ Forall (fun layer =>
                     layer <> VStr "unknown"
                     /\ exists impact,
                          In impact (ImpactAnalyzer.direct_impacts report
                                     ++ ImpactAnalyzer.indirect_impacts report
                                     ++ ImpactAnalyzer.cascade_impacts report)
                          /\ py_get (ImpactAnalyzer.index_get
                                       (ImpactAnalyzer.entity_index self)
                                       (ImpactAnalyzer.entity_id impact))
                                    "layer" (VStr "unknown") = Ok layer)
                  (ImpactAnalyzer.affected_layers report)
    | _ => True
    end.
Proof.
  intros self stdout fuel entity_id change_type c w.
  destruct (fst (ImpactAnalyzer.analyze_change_impact self stdout fuel entity_id
                   change_type c w)) as [report|e|] eqn:H; try exact I.
  destruct (report_assessed _ _ _ _ _ _ _ _ H)
    as [[e [_ [_ [-> _]]]] | [overall [score [factors [_ [_ [_ Hl]]]]]]].
  { split; constructor. }
  unfold ImpactAnalyzer._analyze_affected_layers in Hl. cbv zeta in Hl.
  revert Hl.
  generalize (ImpactAnalyzer.affected_layers report).
  generalize (ImpactAnalyzer.direct_impacts report
              ++ ImpactAnalyzer.indirect_impacts report
              ++ ImpactAnalyzer.cascade_impacts report)%list.
  intros impacts layers Hl.
  refine (rfold_preserves
            (fun layers =>
               NoDup layers
               /\ Forall (fun layer =>
                            layer <> VStr "unknown"
                            /\ exists impact,
                                 In impact impacts
                                 /\ py_get (ImpactAnalyzer.index_get
                                              (ImpactAnalyzer.entity_index self)
                                              (ImpactAnalyzer.entity_id impact))
                                           "layer" (VStr "unknown") = Ok layer)
                         layers)
            _ impacts [] layers _ _ Hl).
  - intros s impact s' [Hnd Hall] Hin.
    unfold ImpactAnalyzer.entity_index_get.
    destruct (hashable (ImpactAnalyzer.entity_id impact)); try discriminate.
    cbn [rbind].
    destruct (py_bool _);
      [| intros E; apply Ok_inj in E; subst s'; split; assumption].
    destruct (py_get _ "layer" (VStr "unknown")) as [layer| |] eqn:Hlayer;
      try discriminate.
    cbn [rbind].
    destruct (negb (py_is layer "unknown")) eqn:Hu;
      [| intros E; apply Ok_inj in E; subst s'; split; assumption].
    destruct (hashable layer); try discriminate. cbn [rbind].
    intros E. apply Ok_inj in E. subst s'.
    split; [apply set_add_NoDup; exact Hnd |].
    apply Forall_forall. intros y Hy. apply set_add_In in Hy.
    destruct Hy as [-> | Hy].
    + split.
      * apply Bool.negb_true_iff in Hu. unfold py_is in Hu.
        apply value_eqb_neq in Hu. exact Hu.
      * exists impact. split; assumption.
    + rewrite Forall_forall in Hall. exact (Hall y Hy).
  - split; constructor.
Qed.

(** ** The impact analyzer: shortest paths and the impact matrix *)

Lemma connected_of_one : forall current rel l,
  (source <- py_get rel "source" VNone ;;
   if value_eqb source current
   then target <- py_get rel "target" VNone ;; Ok [target]
   else target <- py_get rel "target" VNone ;;
        if value_eqb target current then Ok [source] else Ok [])%result
  = Ok l ->
  forall n,
    In n l <->
    (py_get rel "source" VNone = Ok current /\ py_get rel "target" VNone = Ok n)
    \/ (py_get rel "source" VNone = Ok n
        /\ py_get rel "target" VNone = Ok current).
Proof.
  intros current rel l.
  destruct rel as [| | | | |d]; try discriminate.
  cbn [py_get rbind].
  generalize (match dict_get d "source" with Some v => v | None => VNone end).
  generalize (match dict_get d "target" with Some v => v | None => VNone end).
  intros t s H n.
  destruct (value_eqb s current) eqn:E1.
  - apply value_eqb_eq in E1. apply Ok_inj in H. rewrite <- H. simpl. split.
    + intros [Hn | []]. left. split; congruence.
    + intros [[_ Hn] | [Hsn Htc]]; left; congruence.
  - apply value_eqb_neq in E1.
    destruct (value_eqb t current) eqn:E2.
    + apply value_eqb_eq in E2. apply Ok_inj in H. rewrite <- H. simpl. split.
      * intros [Hn | []]. right. split; congruence.
      * intros [[E _] | [Hsn _]]; [congruence | left; congruence].
    + apply value_eqb_neq in E2. apply Ok_inj in H. rewrite <- H. simpl.
      split; [contradiction |].
      intros [[E _] | [_ E]]; congruence.
Qed.

Lemma Forall2_In_concat : forall {A B} (R : A -> list B -> Prop) l ls x,
  Forall2 R l ls -> In x l ->
  exists ys, R x ys /\ forall y, In y ys -> In y (concat ls).
Proof.
  intros A B R l ls x H. induction H as [|a ys l ls Ha _ IH]; simpl.
  - contradiction.
  - intros [<- | Hin].
    + exists ys. split; [exact Ha |]. intros y Hy. apply in_app_iff. tauto.
    + destruct (IH Hin) as [ys' [Hr Hincl]]. exists ys'.
      split; [exact Hr |]. intros y Hy. apply in_app_iff. right.
      exact (Hincl y Hy).
Qed.

Lemma connected_joined : forall self current next_entities,
  ImpactAnalyzer.connected self current = Ok next_entities ->
  forall n, In n next_entities <-> joined self current n.
Proof.
  intros self current next_entities. unfold ImpactAnalyzer.connected, joined.
  destruct (rmapM _ (ImpactAnalyzer.relationships self)) as [ls| |] eqn:Hm;
    try discriminate.
  cbn [rmap rbind]. intros H. apply Ok_inj in H. subst next_entities.
  pose proof (rmapM_Ok _ _ _ Hm) as Hall. cbv beta in Hall.
  intros n. split.
  - intros Hn.
    destruct (in_concat_Forall2 _ _ _ _ Hall Hn) as [rel [l [Hrel [Hl Hnl]]]].
    exists rel. split; [exact Hrel |].
    apply (connected_of_one _ _ _ Hl). exact Hnl.
  - intros [rel [Hrel Hj]].
    destruct (Forall2_In_concat _ _ _ _ Hall Hrel) as [l [Hl Hincl]].
    apply Hincl. apply (connected_of_one _ _ _ Hl). exact Hj.
Qed.

Lemma chain_snoc : forall self p a b,
  chain self p -> last p VNone = a -> p <> [] -> joined self a b ->
  chain self (p ++ [b]).
Proof.
  intros self p a b. induction p as [|x p IH]; intros Hc Hl Hne Hj.
  - contradiction Hne. reflexivity.
  - destruct p as [|y p].
    + simpl in Hl. subst x. simpl. split; [exact Hj | exact I].
    + destruct Hc as [Hxy Hc]. change ((x :: y :: p) ++ [b])%list
        with (x :: ((y :: p) ++ [b]))%list.
      change (chain self (x :: (y :: p) ++ [b]))
        with (joined self x y /\ chain self ((y :: p) ++ [b])).
      split; [exact Hxy |]. apply IH; [exact Hc | exact Hl | discriminate |
                                       exact Hj].
Qed.

Lemma path_to_snoc : forall self source a b p,
  path_to self source a p -> joined self a b ->
  path_to self source b (p ++ [b]).
Proof.
  intros self source a b p [Hhd [Hlast Hc]] Hj.
  assert (Hne : p <> []) by (intros ->; discriminate Hhd).
  split; [| split].
  - destruct p; [contradiction Hne; reflexivity | exact Hhd].
  - apply last_last.
  - exact (chain_snoc _ _ _ _ Hc Hlast Hne Hj).
Qed.

Lemma visit_invariant :
  forall self source target current path next_entities visited queue found,
    path_to self source current path ->
    (forall n, In n next_entities -> joined self current n) ->
    Forall (fun q => path_to self source (fst q) (snd q)) queue ->
    ImpactAnalyzer.visit target path next_entities visited queue = Ok found ->
    match found with
    | inl p => path_to self source (VStr target) p
    | inr (_, queue') =>
        Forall (fun q => path_to self source (fst q) (snd q)) queue'
    end.
Proof.
  intros self source target current path next_entities.
  induction next_entities as [|n t IH]; intros visited queue found Hp Hj Hq;
    cbn [ImpactAnalyzer.visit].
  - intros H. apply Ok_inj in H. subst found. exact Hq.
  - destruct (py_is n target) eqn:Hn.
    + intros H. apply Ok_inj in H. subst found.
      unfold py_is in Hn. apply value_eqb_eq in Hn. subst n.
      apply (path_to_snoc _ _ current); [exact Hp |].
      apply Hj. left. reflexivity.
    + destruct (hashable n); try discriminate. cbn [rbind].
      assert (Hj' : forall m, In m t -> joined self current m)
        by (intros m Hm; apply Hj; right; exact Hm).
      destruct (negb (mem n visited)).
      * apply IH; [exact Hp | exact Hj' |].
        apply Forall_app. split; [exact Hq |].
        constructor; [| constructor]. cbn [fst snd].
        apply (path_to_snoc _ _ current); [exact Hp |].
        apply Hj. left. reflexivity.
      * apply IH; assumption.
Qed.

Lemma shortest_path_loop_invariant :
  forall self source target fuel visited queue p,
    Forall (fun q => path_to self source (fst q) (snd q)) queue ->
    ImpactAnalyzer.shortest_path_loop self fuel target visited queue
    = Ok (Some p) ->
    path_to self source (VStr target) p.
Proof.
  intros self source target fuel.
  induction fuel as [|fuel IH]; intros visited queue p Hq;
    destruct queue as [|[current path] queue];
    cbn [ImpactAnalyzer.shortest_path_loop]; try discriminate.
  destruct (ImpactAnalyzer.connected self current) as [next| |] eqn:Hc;
    try discriminate.
  cbn [rbind].
  destruct (ImpactAnalyzer.visit target path next visited queue)
    as [found| |] eqn:Hv; try discriminate.
  cbn [rbind]. inversion Hq as [|q qs Hcur Hrest]; subst.
  cbn [fst snd] in Hcur.
  pose proof (visit_invariant self source target current path next visited
                queue found Hcur
                (fun n Hn => proj1 (connected_joined _ _ _ Hc n) Hn)
                Hrest Hv) as Hfound.
  destruct found as [p' | [visited' queue']].
  - intros H. apply Ok_inj in H. injection H as <-. exact Hfound.
  - apply IH. exact Hfound.
Qed.

Lemma shortest_path_is_a_path_aux :
  forall self fuel source target p,
    ImpactAnalyzer._find_shortest_path self fuel source target = Ok (Some p) ->
    path_to self source (VStr target) p.
Proof.
  intros self fuel source target p. unfold ImpactAnalyzer._find_shortest_path.
  destruct (String.eqb_spec source target) as [<- | Hne].
  - intros H. apply Ok_inj in H. injection H as <-.
    split; [reflexivity |]. split; [reflexivity | exact I].
  - intros H.
    apply (shortest_path_loop_invariant self source target) in H; [exact H |].
    constructor; [| constructor]. cbn [fst snd].
    split; [reflexivity |]. split; [reflexivity | exact I].
Qed.

(** X20.  A path that [_find_shortest_path] returns is a path of the
    graph from the source to the target: it starts at the source, ends at
    the target, and every entity of it is joined to the next one by a
    relationship (in one direction or the other). *)
Theorem shortest_path_is_a_path :
  forall (self : ImpactAnalyzer.ImpactAnalyzer) (fuel : nat)
         (source target : string) (p : list value),
    ImpactAnalyzer._find_shortest_path self fuel source target = Ok (Some p) ->
    hd_error p = Some (VStr source)
    /\ last p VNone = VStr target
    /\ chain self p.
Proof.
  intros self fuel source target p H.
  exact (shortest_path_is_a_path_aux self fuel source target p H).
Qed.

Lemma shortest_path_is_a_path_witness :
  ImpactAnalyzer._find_shortest_path dependency_graph 4 "UoW-001" "EXT-001"
  = Ok (Some [VStr "UoW-001"; VStr "EXT-001"])
  /\ hd_error [VStr "UoW-001"; VStr "EXT-001"] = Some (VStr "UoW-001")
  /\ last [VStr "UoW-001"; VStr "EXT-001"] VNone = VStr "EXT-001"
  /\ chain dependency_graph [VStr "UoW-001"; VStr "EXT-001"].
Proof.
  assert (H : ImpactAnalyzer._find_shortest_path dependency_graph 4 "UoW-001"
                "EXT-001" = Ok (Some [VStr "UoW-001"; VStr "EXT-001"]))
    by reflexivity.
  exact (conj H (shortest_path_is_a_path dependency_graph 4 "UoW-001"
                   "EXT-001" _ H)).
Defined.

Lemma visit_found :
  forall target path next_entities visited queue found,
    In (VStr target) next_entities ->
    ImpactAnalyzer.visit target path next_entities visited queue = Ok found ->
    found = inl (path ++ [VStr target])%list.
Proof.
  intros target path next_entities.
  induction next_entities as [|n t IH]; intros visited queue found Hin;
    cbn [ImpactAnalyzer.visit].
  - contradiction.
  - destruct (py_is n target) eqn:Hn.
    + intros H. apply Ok_inj in H. symmetry. exact H.
    + assert (Ht : In (VStr target) t).
      { destruct Hin as [-> | Ht]; [| exact Ht].
        unfold py_is in Hn. rewrite value_eqb_refl in Hn. discriminate Hn. }
      destruct (hashable n); try discriminate. cbn [rbind].
      destruct (negb (mem n visited)); apply IH; exact Ht.
Qed.

(** X21.  The impact level between two different entities is "high"
    exactly when a relationship joins them: a relationship from the one to
    the other, in either direction, gives "high" both ways, and no other
    pair of entities has it. *)
Theorem joined_entities_have_high_impact :
  forall (self : ImpactAnalyzer.ImpactAnalyzer) (fuel : nat)
         (source target level : string),
    source <> target ->
    ImpactAnalyzer._calculate_entity_impact self fuel source target = Ok level ->
    (level = "high" <-> joined self (VStr source) (VStr target)).
Proof.
  intros self fuel source target level Hne.
  unfold ImpactAnalyzer._calculate_entity_impact.
  destruct (ImpactAnalyzer._find_shortest_path self fuel source target)
    as [path| |] eqn:Hp; try discriminate.
  cbn [rbind]. intros H. apply Ok_inj in H. split.
  - intros Hhigh. rewrite Hhigh in H.
    destruct path as [p|]; [| discriminate H].
    destruct (shortest_path_is_a_path_aux self fuel source target p Hp)
      as [Hhd [Hlast Hc]].
    destruct p as [|a [|b [|x p]]]; try discriminate H.
    + cbn in Hhd, Hlast. injection Hhd as ->. subst b. destruct Hc as [Hj _].
      exact Hj.
    + cbn [List.length Nat.eqb] in H.
      destruct (List.length p); discriminate H.
  - intros Hj. unfold ImpactAnalyzer._find_shortest_path in Hp.
    destruct (String.eqb_spec source target) as [E | _]; [contradiction |].
    destruct fuel as [|fuel]; [discriminate Hp |].
    cbn [ImpactAnalyzer.shortest_path_loop] in Hp.
    destruct (ImpactAnalyzer.connected self (VStr source)) as [next| |] eqn:Hc;
      try discriminate.
    cbn [rbind] in Hp.
    destruct (ImpactAnalyzer.visit target [VStr source] next [VStr source] [])
      as [found| |] eqn:Hv; try discriminate.
    cbn [rbind] in Hp.
    apply (connected_joined _ _ _ Hc) in Hj.
    rewrite (visit_found _ _ _ _ _ _ Hj Hv) in Hp.
    apply Ok_inj in Hp. subst path. symmetry. exact H.
Qed.

Lemma joined_entities_have_high_impact_witness :
  "EXT-001" <> "UoW-001"
  /\ ImpactAnalyzer._calculate_entity_impact dependency_graph 4 "EXT-001"
       "UoW-001" = Ok "high"
  /\ ("high" = "high" <-> joined dependency_graph (VStr "EXT-001")
                            (VStr "UoW-001")).
Proof.
  assert (Hne : "EXT-001" <> "UoW-001") by discriminate.
  assert (H : ImpactAnalyzer._calculate_entity_impact dependency_graph 4
                "EXT-001" "UoW-001" = Ok "high") by reflexivity.
  exact (conj Hne (conj H (joined_entities_have_high_impact dependency_graph 4
                             "EXT-001" "UoW-001" "high" Hne H))).
Defined.

Lemma set_key_In : forall {V} (d : list (string * V)) k v k',
  In k' (map fst (ImpactAnalyzer.set_key d k v)) <-> k' = k \/ In k' (map fst d).
Proof.
  intros V d k v k'. induction d as [|[a b] t IH]; simpl.
  - split; intros [H | []]; left; congruence.
  - destruct (String.eqb_spec a k) as [-> | Hne]; simpl.
    + intuition congruence.
    + rewrite IH. intuition congruence.
Qed.

Lemma set_key_NoDup : forall {V} (d : list (string * V)) k v,
  NoDup (map fst d) -> NoDup (map fst (ImpactAnalyzer.set_key d k v)).
Proof.
  intros V d k v. induction d as [|[a b] t IH]; simpl; intros H.
  - constructor; [tauto | constructor].
  - inversion H as [|x l Hx Hl]; subst.
    destruct (String.eqb_spec a k) as [-> | Hne]; simpl.
    + constructor; assumption.
    + constructor; [| exact (IH Hl)].
      rewrite set_key_In. intros [E | Hin]; [congruence | contradiction].
Qed.

Lemma set_key_Forall_at : forall {V} (P : string * V -> Prop) d k v,
  Forall P d -> P (k, v) -> Forall P (ImpactAnalyzer.set_key d k v).
Proof.
  intros V P d k v Hd Hv. induction Hd as [|[k' v'] t Hx Ht IH]; simpl.
  - constructor; auto.
  - destruct (String.eqb_spec k' k) as [-> | _]; constructor; auto.
Qed.

(** The row of [source_entity] after the inner loop of
    [generate_impact_matrix] has passed the targets [targets]. *)
Lemma impact_row :
  forall self fuel source_entity targets row0 row,
    rfold
      (fun row target_entity =>
         if negb (String.eqb source_entity target_entity) then
           (impact_level <-
              ImpactAnalyzer._calculate_entity_impact self fuel source_entity
                target_entity ;;
            Ok (ImpactAnalyzer.set_key row target_entity impact_level))%result
         else Ok row)
      targets row0 = Ok row ->
    (forall t, In t (map fst row) <->
               In t (map fst row0) \/ (In t targets /\ t <> source_entity))
    /\ (NoDup (map fst row0) -> NoDup (map fst row))
    /\ (forall P : string * string -> Prop,
          Forall P row0 ->
          (forall t level,
             ImpactAnalyzer._calculate_entity_impact self fuel source_entity t
             = Ok level -> P (t, level)) ->
          Forall P row).
Proof.
  intros self fuel source_entity targets.
  induction targets as [|x targets IH]; intros row0 row; cbn [rfold].
  - intros H. apply Ok_inj in H. subst row.
    split; [intros t; simpl; tauto |]. split; [tauto | intros P H _; exact H].
  - destruct (String.eqb_spec source_entity x) as [<- | Hne]; cbn [negb rbind].
    + intros H. destruct (IH _ _ H) as [H1 [H2 H3]].
      split; [| split; assumption].
      intros t. rewrite H1. simpl. split; [tauto |].
      intros [Ht | [[E | Ht] Hn]]; [tauto | congruence | tauto].
    + destruct (ImpactAnalyzer._calculate_entity_impact self fuel
                  source_entity x) as [level| |] eqn:Hl; try discriminate.
      cbn [rbind]. intros H. destruct (IH _ _ H) as [H1 [H2 H3]].
      split; [| split].
      * intros t. rewrite H1, set_key_In. simpl. split.
        -- intros [[E | Ht] | [Ht Hn]];
             [right; split; [left; congruence | congruence] | tauto | tauto].
        -- intros [Ht | [[E | Ht] Hn]];
             [tauto | left; left; congruence | tauto].
      * intros Hnd. apply H2. apply set_key_NoDup. exact Hnd.
      * intros P H0 HP. apply H3; [| exact HP].
        apply set_key_Forall_at; [exact H0 | exact (HP _ _ Hl)].
Qed.

(** X22.  The impact matrix has one row for each of the entities asked,
    and the row of an entity has one cell for each of the other entities
    asked and none for the entity itself; the cell of a target holds the
    impact level between the entity of the row and the target. *)
Theorem impact_matrix_shape :
  forall (self : ImpactAnalyzer.ImpactAnalyzer) (fuel : nat)
         (entities : list string)
         (matrix : list (string * list (string * string))),
    ImpactAnalyzer.generate_impact_matrix self fuel entities = Ok matrix ->
    (forall s, In s (map fst matrix) <-> In s entities)
    /\ NoDup (map fst matrix)
    /\ Forall (fun row =>
                 (forall t, In t (map fst (snd row)) <->
                            In t entities /\ t <> fst row)
                 /\ NoDup (map fst (snd row))
                 /\ Forall (fun cell =>
                              ImpactAnalyzer._calculate_entity_impact self fuel
                                (fst row) (fst cell) = Ok (snd cell))
                           (snd row))
              matrix.
Proof.
  intros self fuel entities matrix.
  unfold ImpactAnalyzer.generate_impact_matrix.
  set (good := fun row : string * list (string * string) =>
                 (forall t, In t (map fst (snd row)) <->
                            In t entities /\ t <> fst row)
                 /\ NoDup (map fst (snd row))
                 /\ Forall (fun cell =>
                              ImpactAnalyzer._calculate_entity_impact self fuel
                                (fst row) (fst cell) = Ok (snd cell))
                           (snd row)).
  assert (Hgen : forall sources m0 m,
    rfold
      (fun impact_matrix source_entity =>
         (row <-
            rfold
              (fun row target_entity =>
                 if negb (String.eqb source_entity target_entity) then
                   impact_level <-
                     ImpactAnalyzer._calculate_entity_impact self fuel
                       source_entity target_entity ;;
                   Ok (ImpactAnalyzer.set_key row target_entity impact_level)
                 else Ok row)
              entities [] ;;
          Ok (ImpactAnalyzer.set_key impact_matrix source_entity row))%result)
      sources m0 = Ok m ->
    (forall s, In s (map fst m) <-> In s (map fst m0) \/ In s sources)
    /\ (NoDup (map fst m0) -> NoDup (map fst m))
    /\ (Forall good m0 -> Forall good m)).
  { induction sources as [|x sources IH]; intros m0 m; cbn [rfold].
    - intros H. apply Ok_inj in H. subst m.
      split; [intros s; simpl; tauto | tauto].
    - destruct (rfold _ entities []) as [row| |] eqn:Hrow; try discriminate.
      cbn [rbind]. intros H. destruct (IH _ _ H) as [H1 [H2 H3]].
      destruct (impact_row _ _ _ _ _ _ Hrow) as [R1 [R2 R3]].
      split; [| split].
      + intros s. rewrite H1, set_key_In. simpl. intuition congruence.
      + intros Hnd. apply H2. apply set_key_NoDup. exact Hnd.
      + intros Hm0. apply H3. apply set_key_Forall_at; [exact Hm0 |].
        unfold good. cbn [fst snd]. split; [| split].
        * intros t. rewrite R1. simpl. intuition congruence.
        * apply R2. constructor.
        * apply R3; [constructor |]. intros t level Hl. exact Hl. }
  intros H. destruct (Hgen _ _ _ H) as [H1 [H2 H3]].
  split; [| split].
  - intros s. rewrite H1. simpl. tauto.
  - apply H2. constructor.
  - apply H3. constructor.
Qed.

Lemma impact_matrix_shape_witness :
  ImpactAnalyzer.generate_impact_matrix dependency_graph 4
    ["UoW-001"; "EXT-001"]
  = Ok [ ("UoW-001", [("EXT-001", "high")]);
         ("EXT-001", [("UoW-001", "high")]) ]
  /\ forall s,
       In s (map fst [ ("UoW-001", [("EXT-001", "high")]);
                       ("EXT-001", [("UoW-001", "high")]) ])
       <-> In s ["UoW-001"; "EXT-001"].
Proof.
  assert (H : ImpactAnalyzer.generate_impact_matrix dependency_graph 4
                ["UoW-001"; "EXT-001"]
              = Ok [ ("UoW-001", [("EXT-001", "high")]);
                     ("EXT-001", [("UoW-001", "high")]) ]) by reflexivity.
  exact (conj H (proj1 (impact_matrix_shape dependency_graph 4
                          ["UoW-001"; "EXT-001"] _ H))).
Defined.

(** ** The sync engine beside the indexer *)

(** *** What a successful run has written *)

Lemma index_ssot_Ok : forall L ssot_data c w summary w',
  SSOTIndexer.index_ssot L ssot_data c w = (Ok summary, w') ->
  exists entities relationships metadata w1,
    SSOTIndexer.extract_entities L ssot_data c w = (Ok entities, w1)
    /\ index_dir w'
       = mkStore (Some (Doc entities)) (Some (Doc relationships))
           (Some (Doc metadata)).
Proof.
  intros L ssot_data c w summary w'.
  unfold SSOTIndexer.index_ssot. unfold bind at 1.
  pose proof (yields_extract_entities L ssot_data c w) as He.
  destruct (SSOTIndexer.extract_entities L ssot_data c w)
    as [[entities|e|] w1]; [| discriminate | discriminate].
  destruct He as [He _]. unfold bind at 1.
  pose proof (yields_extract_relationships ssot_data c w1) as Hr.
  destruct (SSOTIndexer.extract_relationships ssot_data c w1)
    as [[relationships|e|] w2]; [| discriminate | discriminate].
  destruct Hr as [Hr _]. unfold bind at 1.
  destruct (counts_by_type_typed entities (map snd SSOTIndexer.entity_types))
    as [ec Hec].
  { refine (Forall_impl _ _ He). intros x [id [ty [_ [H _]]]].
    eexists. exact H. }
  destruct (counts_by_type_typed relationships
              (map snd SSOTIndexer.relationship_types)) as [rc Hrc].
  { refine (Forall_impl _ _ Hr). intros x [s [t [ty [_ [_ [H _]]]]]].
    eexists. exact H. }
  destruct (save_graphrag_data_Ok _ _ _ _ c w2 Hec Hrc) as [metadata [p ->]].
  cbn [ret]. intros H. injection H as _ <-.
  exists entities, relationships, metadata, w1. split; reflexivity.
Qed.

(** *** The entities of a section, record by record *)

Lemma mapM_Forall2 :
  forall {A B} (P : A -> B -> Prop) (f : A -> M B) l c w ys w',
    (forall x, yields (P x) (f x)) ->
    mapM f l c w = (Ok ys, w') -> Forall2 P l ys.
Proof.
  intros A B P f l. induction l as [|x t IH]; intros c w ys w' Hf; cbn [mapM].
  - unfold ret. intros H. injection H as <- _. constructor.
  - unfold bind at 1. specialize (Hf x) as Hx. specialize (Hx c w).
    destruct (f x c w) as [[y|e|] w1]; [| discriminate | discriminate].
    destruct Hx as [Hy _]. unfold bind at 1.
    destruct (mapM f t c w1) as [[ys'|e|] w2] eqn:Ht;
      [| discriminate | discriminate].
    unfold ret. intros H. injection H as <- _.
    constructor; [exact Hy | exact (IH _ _ _ _ Hf Ht)].
Qed.

Lemma concat_singletons : forall {A} (l : list A),
  concat (map (fun x => [x]) l) = l.
Proof.
  intros A l. induction l as [|x t IH]; simpl; [| rewrite IH]; reflexivity.
Qed.

Lemma for_items_of_records :
  forall {B} (P : string * value -> B -> Prop) key container
         (m : string -> value -> M B) c w out w',
    (forall k v, yields (P (k, v)) (m k v)) ->
    SSOTIndexer.for_items_of key container
      (fun k v => SSOTIndexer.one (m k v)) c w = (Ok out, w') ->
    exists items,
      section_items key container = Ok items /\ Forall2 P items out.
Proof.
  intros B P key container m c w out w' Hm.
  unfold SSOTIndexer.for_items_of, section_items.
  unfold bind at 1. unfold lift at 1.
  destruct (py_in key container) as [[|]| |];
    [| | discriminate | discriminate]; cbn [rbind].
  - unfold bind at 1. unfold lift at 1.
    destruct (py_getitem container key) as [section| |];
      [| discriminate | discriminate]; cbn [rbind].
    unfold bind at 1. unfold lift at 1.
    destruct (py_items section) as [items| |];
      [| discriminate | discriminate].
    unfold concatM. unfold bind at 1.
    destruct (mapM _ items c w) as [[ls|e|] w1] eqn:Hls;
      [| discriminate | discriminate].
    unfold ret. intros H. injection H as <- _.
    exists items. split; [reflexivity |].
    assert (Hall : Forall2 (fun kv l => exists y, l = [y] /\ P kv y) items ls).
    { refine (mapM_Forall2 _ _ _ _ _ _ _ _ Hls).
      intros [k v]. cbn [fst snd]. unfold SSOTIndexer.one.
      apply (yields_bind (P (k, v))); [apply Hm |]. intros y Hy.
      apply yields_ret. exists y. split; [reflexivity | exact Hy]. }
    clear Hls. induction Hall as [|kv l items ls [y [-> Hy]] _ IH]; simpl.
    + constructor.
    + constructor; assumption.
  - unfold ret. intros H. injection H as <- _.
    exists []. split; [reflexivity | constructor].
Qed.

Lemma extract_section_records : forall L key type fr_data entities out,
  SyncEngine.extract_section L key type fr_data entities = Ok out ->
  exists items,
    section_items key fr_data = Ok items
    /\ out = fold_left
               (fun entities kv =>
                  dict_set entities (fst kv)
                    (SyncEngine.ssot_entity L (fst kv) type (snd kv)))
               items entities.
Proof.
  intros L key type fr_data entities out.
  unfold SyncEngine.extract_section, section_items.
  destruct (py_in key fr_data) as [[|]| |]; cbn [rbind]; try discriminate.
  - destruct (py_getitem fr_data key) as [section| |]; cbn [rbind];
      try discriminate.
    destruct (py_items section) as [items| |]; cbn [rbind]; try discriminate.
    intros H. apply Ok_inj in H. exists items. split; [reflexivity |].
    symmetry. exact H.
  - intros H. apply Ok_inj in H. exists []. split; [reflexivity |].
    symmetry. exact H.
Qed.

(** The last steps of a builder of the framework document. *)
Ltac built_step L spec :=
  apply (yields_bind
           (fun metadata =>
              exists t,
                metadata
                = VDict [ ("source", VStr "framework_requirements");
                          ("last_updated", VStr t);
                          ("hash", VStr (SSOTIndexer._generate_hash L spec)) ]));
  [ unfold SSOTIndexer.entity_metadata;
    apply (yields_bind (fun _ => True)); [apply yields_now |];
    intros t _; apply yields_ret; exists t; reflexivity
  | intros metadata [t ->]; apply yields_ret;
    split; [reflexivity |]; split; [reflexivity |]; split; [reflexivity |];
    eexists; eexists; split; [reflexivity |]; split; [reflexivity |];
    simpl; tauto ].

Lemma built_functional_requirement : forall L id spec,
  yields (built_from L (id, spec)) (SSOTIndexer.functional_requirement L id spec).
Proof.
  intros L id spec. unfold SSOTIndexer.functional_requirement.
  repeat read_step. built_step L spec.
Qed.

Lemma built_non_functional_requirement : forall L id spec,
  yields (built_from L (id, spec))
         (SSOTIndexer.non_functional_requirement L id spec).
Proof.
  intros L id spec. unfold SSOTIndexer.non_functional_requirement.
  repeat read_step. built_step L spec.
Qed.

Lemma built_unit_of_work : forall L id spec,
  yields (built_from L (id, spec)) (SSOTIndexer.unit_of_work L id spec).
Proof.
  intros L id spec. unfold SSOTIndexer.unit_of_work.
  repeat read_step. built_step L spec.
Qed.

(** *** Dictionaries and indexes: what was set is what is got *)

Lemma dict_get_set : forall d k v k',
  dict_get (dict_set d k v) k'
  = if String.eqb k k' then Some v else dict_get d k'.
Proof.
  intros d k v k'. induction d as [|[a b] t IH]; cbn [dict_set dict_get].
  - reflexivity.
  - destruct (String.eqb_spec a k) as [-> | Hak]; cbn [dict_get].
    + destruct (String.eqb k k'); reflexivity.
    + rewrite IH. destruct (String.eqb_spec a k') as [-> | Hak'];
        [| reflexivity].
      destruct (String.eqb_spec k k') as [E | _]; [congruence | reflexivity].
Qed.

Lemma dict_set_keys : forall d k v k',
  In k' (dict_keys (dict_set d k v)) <-> k' = k \/ In k' (dict_keys d).
Proof.
  intros d k v k'. unfold dict_keys.
  induction d as [|[a b] t IH]; cbn [dict_set map fst In].
  - intuition congruence.
  - destruct (String.eqb_spec a k) as [-> | Hne]; cbn [map fst In].
    + intuition congruence.
    + rewrite IH. intuition congruence.
Qed.

Lemma dict_set_NoDup : forall d k v,
  NoDup (dict_keys d) -> NoDup (dict_keys (dict_set d k v)).
Proof.
  intros d k v. unfold dict_keys.
  induction d as [|[a b] t IH]; cbn [dict_set map fst]; intros H.
  - constructor; [intros [] | constructor].
  - inversion H as [|x l Hx Hl]; subst.
    destruct (String.eqb_spec a k) as [-> | Hne]; cbn [map fst].
    + constructor; assumption.
    + constructor; [| exact (IH Hl)].
      intros Hin. apply (dict_set_keys t k v a) in Hin.
      destruct Hin as [E | Hin]; [congruence | contradiction].
Qed.

Lemma dict_get_In : forall d k v,
  NoDup (dict_keys d) -> In (k, v) d -> dict_get d k = Some v.
Proof.
  intros d k v. unfold dict_keys.
  induction d as [|[a b] t IH]; cbn [map fst dict_get]; intros Hnd Hin.
  - contradiction.
  - inversion Hnd as [|x l Hx Hl]; subst. destruct Hin as [E | Hin].
    + injection E as -> ->. rewrite String.eqb_refl. reflexivity.
    + destruct (String.eqb_spec a k) as [-> | _].
      * exfalso. apply Hx. change k with (fst (k, v)). apply in_map. exact Hin.
      * exact (IH Hl Hin).
Qed.

Lemma dict_get_keys : forall d k,
  In k (dict_keys d) <-> dict_get d k <> None.
Proof.
  intros d k. unfold dict_keys.
  induction d as [|[a b] t IH]; cbn [map fst dict_get In].
  - intuition congruence.
  - destruct (String.eqb_spec a k) as [-> | Hne].
    + split; [discriminate | intros _; left; reflexivity].
    + rewrite <- IH. intuition congruence.
Qed.

Lemma index_get_set : forall index k v k',
  ImpactAnalyzer.index_get (ImpactAnalyzer.index_set index k v) k'
  = if value_eqb k k' then v else ImpactAnalyzer.index_get index k'.
Proof.
  intros index k v k'.
  induction index as [|[a b] t IH];
    cbn [ImpactAnalyzer.index_set ImpactAnalyzer.index_get].
  - reflexivity.
  - destruct (value_eqb a k) eqn:Eak; cbn [ImpactAnalyzer.index_get].
    + apply value_eqb_eq in Eak. subst a.
      destruct (value_eqb k k'); reflexivity.
    + rewrite IH. destruct (value_eqb a k') eqn:Eak'; [| reflexivity].
      apply value_eqb_eq in Eak'. subst k'.
      assert (Hka : value_eqb k a = false).
      { apply value_eqb_neq. apply value_eqb_neq in Eak. congruence. }
      rewrite Hka. reflexivity.
Qed.

Lemma index_set_keys : forall index k v k',
  In k' (map fst (ImpactAnalyzer.index_set index k v))
  <-> k' = k \/ In k' (map fst index).
Proof.
  intros index k v k'.
  induction index as [|[a b] t IH]; cbn [ImpactAnalyzer.index_set map fst In].
  - intuition congruence.
  - destruct (value_eqb a k) eqn:E; cbn [map fst In].
    + apply value_eqb_eq in E. subst a. intuition congruence.
    + rewrite IH. intuition congruence.
Qed.

Lemma index_set_In : forall index k v k' g,
  In (k', g) (ImpactAnalyzer.index_set index k v) ->
  (k' = k /\ g = v) \/ In (k', g) index.
Proof.
  intros index k v k' g.
  induction index as [|[a b] t IH]; cbn [ImpactAnalyzer.index_set In].
  - intros [E | []]. injection E as <- <-. left. split; reflexivity.
  - destruct (value_eqb a k) eqn:E; cbn [In].
    + apply value_eqb_eq in E. subst a. intros [E' | Hin].
      * injection E' as <- <-. left. split; reflexivity.
      * right. right. exact Hin.
    + intros [E' | Hin]; [right; left; exact E' |].
      destruct (IH Hin) as [H | H]; [left; exact H | right; right; exact H].
Qed.

Lemma latest_app : forall l1 l2 k,
  latest (l1 ++ l2) k
  = match latest l2 k with
    | Some g => Some g
    | None => latest l1 k
    end.
Proof.
  intros l1 l2 k. induction l1 as [|e l1 IH]; cbn [app latest].
  - destruct (latest l2 k); reflexivity.
  - rewrite IH. destruct (latest l2 k); reflexivity.
Qed.

Lemma latest_None : forall l k,
  latest l k = None <-> ~ In k (map id_of l).
Proof.
  intros l k. induction l as [|e l IH]; cbn [latest map In].
  - tauto.
  - destruct (latest l k) as [g|].
    + split; [discriminate |]. intros H. exfalso.
      assert (Hn : Some g = None) by (apply IH; tauto). discriminate Hn.
    + destruct (value_eqb (id_of e) k) eqn:E.
      * apply value_eqb_eq in E. split; [discriminate | tauto].
      * apply value_eqb_neq in E. split; [| reflexivity].
        intros _ [H | H]; [contradiction |]. apply (proj1 IH eq_refl H).
Qed.

Lemma latest_Some : forall l k g,
  latest l k = Some g -> In g l /\ id_of g = k.
Proof.
  intros l k g. induction l as [|e l IH]; cbn [latest]; [discriminate |].
  destruct (latest l k) as [g'|].
  - intros H. injection H as ->. destruct (IH eq_refl). split; [right |];
      assumption.
  - destruct (value_eqb (id_of e) k) eqn:E; [| discriminate].
    intros H. injection H as <-. apply value_eqb_eq in E.
    split; [left; reflexivity | exact E].
Qed.

(** The index that [build_index] makes of a list holds, for an id, the
    latest entity of the list with that id. *)
Lemma build_index_latest : forall l index0 index,
  ImpactAnalyzer.build_index index0 l = Ok index ->
  forall k,
    (In k (map fst index) <-> In k (map fst index0) \/ In k (map id_of l))
    /\ ImpactAnalyzer.index_get index k
       = match latest l k with
         | Some g => g
         | None => ImpactAnalyzer.index_get index0 k
         end
    /\ (forall g, In (k, g) index -> In (k, g) index0 \/ In g l).
Proof.
  induction l as [|e l IH]; intros index0 index;
    cbn [ImpactAnalyzer.build_index].
  - intros H. apply Ok_inj in H. subst index. intros k. simpl.
    split; [tauto |]. split; [reflexivity | tauto].
  - destruct (py_getitem e "id") as [id| |] eqn:Hid; try discriminate.
    cbn [rbind]. destruct (hashable id); try discriminate. cbn [rbind].
    apply py_getitem_id_of in Hid. intros H k.
    destruct (IH _ _ H k) as [H1 [H2 H3]]. split; [| split].
    + rewrite H1, index_set_keys. cbn [map In]. rewrite Hid.
      intuition congruence.
    + rewrite H2. cbn [latest]. destruct (latest l k); [reflexivity |].
      rewrite index_get_set, Hid. destruct (value_eqb id k); reflexivity.
    + intros g Hg. destruct (H3 g Hg) as [Hin | Hin].
      * apply index_set_In in Hin. destruct Hin as [[_ ->] | Hin];
          [right; left; reflexivity | left; exact Hin].
      * right. right. exact Hin.
Qed.

(** *** The two extractions go record by record *)

Lemma in_sync_record : forall L d es id type spec g,
  in_sync L d es ->
  built_from L (id, spec) g ->
  in_sync L (dict_set d id (SyncEngine.ssot_entity L id type spec))
          (es ++ [g]).
Proof.
  intros L d es id type spec g Hsync [Hid [Hhash _]] id'.
  rewrite dict_get_set, latest_app. cbn [latest fst snd] in *.
  rewrite Hid. cbn [value_eqb].
  destruct (String.eqb_spec id id') as [<- | Hne].
  - exists type, spec, g. split; [reflexivity |]. split; [reflexivity |].
    exact Hhash.
  - exact (Hsync id').
Qed.

Lemma in_sync_records : forall L type items gs,
  Forall2 (built_from L) items gs ->
  forall d es,
    in_sync L d es ->
    in_sync L
      (fold_left
         (fun entities kv =>
            dict_set entities (fst kv)
              (SyncEngine.ssot_entity L (fst kv) type (snd kv)))
         items d)
      (es ++ gs).
Proof.
  intros L type items gs H.
  induction H as [|[id spec] g items gs Hg _ IH]; intros d es Hsync;
    cbn [fold_left].
  - rewrite app_nil_r. exact Hsync.
  - change (es ++ g :: gs)%list with (es ++ [g] ++ gs)%list.
    rewrite app_assoc. apply IH. cbn [fst snd].
    apply in_sync_record; assumption.
Qed.

Lemma fold_dict_set_NoDup :
  forall (f : string * value -> value) items d,
    NoDup (dict_keys d) ->
    NoDup (dict_keys
             (fold_left (fun entities kv => dict_set entities (fst kv) (f kv))
                        items d)).
Proof.
  intros f items. induction items as [|kv items IH]; intros d Hd;
    cbn [fold_left].
  - exact Hd.
  - apply IH. apply dict_set_NoDup. exact Hd.
Qed.

Lemma is_contract : forall L id spec,
  yields (fun g => contract_or_extension g = true /\ extracted_entity g)
         (SSOTIndexer.contract L id spec).
Proof.
  intros L id spec.
  unfold SSOTIndexer.contract. repeat read_step.
  apply (yields_bind (fun _ => True)); [apply yields_entity_metadata |].
  intros metadata _. apply yields_ret. split; [reflexivity |].
  eexists. eexists. split; [reflexivity |]. split; [reflexivity |].
  simpl. tauto.
Qed.

Lemma is_extension : forall L category name spec,
  yields (fun g => contract_or_extension g = true /\ extracted_entity g)
         (SSOTIndexer.extension L category name spec).
Proof.
  intros L category name spec.
  unfold SSOTIndexer.extension. repeat read_step.
  apply (yields_bind (fun _ => True)); [apply yields_entity_metadata |].
  intros metadata _. apply yields_ret. split; [reflexivity |].
  eexists. eexists. split; [reflexivity |]. split; [reflexivity |].
  simpl. tauto.
Qed.

Lemma in_sync_nil : forall L, in_sync L [] [].
Proof. intros L id. reflexivity. Qed.

(** The entities that [extract_entities] returns: those of the framework
    document, which are in step with the dictionary of the sync engine,
    and then the contracts and the extensions. *)
Lemma extract_entities_in_sync : forall L ssot_data c w entities w1,
  SSOTIndexer.extract_entities L ssot_data c w = (Ok entities, w1) ->
  exists framework others,
    entities = (framework ++ others)%list
    /\ Forall (fun g => contract_or_extension g = true) others
    /\ Forall (fun g => contract_or_extension g = false) framework
    /\ forall ssot_entities,
         SyncEngine._extract_ssot_entities L ssot_data = Ok ssot_entities ->
         in_sync L ssot_entities framework
         /\ NoDup (dict_keys ssot_entities).
Proof.
  intros L ssot_data c w entities w1.
  unfold SSOTIndexer.extract_entities, SyncEngine._extract_ssot_entities.
  unfold bind at 1. unfold lift at 1.
  destruct (py_in "framework_requirements" ssot_data) as [present| |];
    [| discriminate | discriminate].
  cbn [rbind]. unfold bind at 1.
  assert (Hothers : forall framework w2,
    (contracts <-
       SSOTIndexer.for_items_of "contracts" ssot_data
         (fun contract_id contract_spec =>
            SSOTIndexer.one (SSOTIndexer.contract L contract_id contract_spec)) ;;
     extensions <-
       SSOTIndexer.for_items_of "extensions" ssot_data
         (fun category extensions =>
            items <- lift (py_items extensions) ;;
            mapM (fun kv => SSOTIndexer.extension L category (fst kv) (snd kv))
                 items) ;;
     ret (framework ++ contracts ++ extensions)%list) c w2
    = (Ok entities, w1) ->
    exists others,
      entities = (framework ++ others)%list
      /\ Forall (fun g => contract_or_extension g = true) others).
  { intros framework w2. unfold bind at 1.
    pose proof (yields_for_items_of
                  (fun g => contract_or_extension g = true /\ extracted_entity g)
                  "contracts" ssot_data
                  (fun contract_id contract_spec =>
                     SSOTIndexer.one
                       (SSOTIndexer.contract L contract_id contract_spec))
                  (fun k v => yields_one _ _ (is_contract L k v)) c w2) as Hc.
    destruct (SSOTIndexer.for_items_of "contracts" ssot_data _ c w2)
      as [[contracts|e|] w3]; [| discriminate | discriminate].
    destruct Hc as [Hc _]. unfold bind at 1.
    pose proof (yields_for_items_of
                  (fun g => contract_or_extension g = true /\ extracted_entity g)
                  "extensions" ssot_data
                  (fun category extensions =>
                     items <- lift (py_items extensions) ;;
                     mapM (fun kv =>
                             SSOTIndexer.extension L category (fst kv) (snd kv))
                          items)) as He.
    specialize (He (fun category extensions =>
                      yields_bind (fun _ => True) _ _ _
                        (yields_lift _ (py_items_fuel extensions))
                        (fun items _ =>
                           yields_mapM _ _ items
                             (fun kv => is_extension L category (fst kv) (snd kv))))
                   c w3).
    destruct (SSOTIndexer.for_items_of "extensions" ssot_data _ c w3)
      as [[extensions|e|] w4]; [| discriminate | discriminate].
    destruct He as [He _]. unfold ret. intros H. injection H as <- _.
    exists (contracts ++ extensions)%list. split; [reflexivity |].
    apply Forall_app. split.
    - refine (Forall_impl _ _ Hc). intros g [Hg _]. exact Hg.
    - refine (Forall_impl _ _ He). intros g [Hg _]. exact Hg. }
  destruct present.
  - unfold bind at 1. unfold lift at 1.
    destruct (py_getitem ssot_data "framework_requirements") as [fr_data| |];
      [| discriminate | discriminate].
    cbn [rbind]. unfold bind at 1.
    destruct (SSOTIndexer.for_items_of "functional_requirements" fr_data _ c w)
      as [[frs|e|] wa] eqn:Hfrs; [| discriminate | discriminate].
    unfold bind at 1.
    destruct (SSOTIndexer.for_items_of "non_functional_requirements" fr_data _
                c wa) as [[nfrs|e|] wb] eqn:Hnfrs;
      [| discriminate | discriminate].
    unfold bind at 1.
    destruct (SSOTIndexer.for_items_of "units_of_work" fr_data _ c wb)
      as [[uows|e|] wc] eqn:Huows; [| discriminate | discriminate].
    unfold ret at 1. intros H.
    destruct (Hothers _ _ H) as [others [-> Hrest]].
    destruct (for_items_of_records (built_from L) _ _ _ _ _ _ _
                (built_functional_requirement L) Hfrs) as [i1 [Hi1 B1]].
    destruct (for_items_of_records (built_from L) _ _ _ _ _ _ _
                (built_non_functional_requirement L) Hnfrs) as [i2 [Hi2 B2]].
    destruct (for_items_of_records (built_from L) _ _ _ _ _ _ _
                (built_unit_of_work L) Huows) as [i3 [Hi3 B3]].
    exists (frs ++ nfrs ++ uows)%list, others.
    split; [reflexivity |]. split; [exact Hrest |]. split.
    + assert (Hb : forall items gs,
                Forall2 (built_from L) items gs ->
                Forall (fun g => contract_or_extension g = false) gs).
      { intros items gs HF. induction HF as [|kv g items gs [_ [_ [Hg _]]] _ IH];
          constructor; assumption. }
      apply Forall_app. split; [exact (Hb _ _ B1) |].
      apply Forall_app. split; [exact (Hb _ _ B2) | exact (Hb _ _ B3)].
    + intros ssot_entities.
      destruct (SyncEngine.extract_section L "functional_requirements" _
                  fr_data []) as [d1| |] eqn:H1; try discriminate.
      cbn [rbind].
      destruct (SyncEngine.extract_section L "non_functional_requirements" _
                  fr_data d1) as [d2| |] eqn:H2; try discriminate.
      cbn [rbind]. intros H3.
      destruct (extract_section_records _ _ _ _ _ _ H1) as [j1 [Hj1 ->]].
      destruct (extract_section_records _ _ _ _ _ _ H2) as [j2 [Hj2 ->]].
      destruct (extract_section_records _ _ _ _ _ _ H3) as [j3 [Hj3 ->]].
      rewrite Hi1 in Hj1. rewrite Hi2 in Hj2. rewrite Hi3 in Hj3.
      apply Ok_inj in Hj1, Hj2, Hj3. subst j1 j2 j3.
      split.
      * rewrite app_assoc.
        apply in_sync_records; [exact B3 |].
        apply in_sync_records; [exact B2 |].
        apply (in_sync_records L _ _ _ B1 [] []). apply in_sync_nil.
      * apply fold_dict_set_NoDup. apply fold_dict_set_NoDup.
        apply fold_dict_set_NoDup. constructor.
  - unfold ret at 1. intros H.
    destruct (Hothers _ _ H) as [others [-> Hrest]].
    exists [], others. split; [reflexivity |]. split; [exact Hrest |].
    split; [constructor |]. intros ssot_entities E. apply Ok_inj in E.
    subst ssot_entities. split; [apply in_sync_nil | constructor].
Qed.

Lemma is_knowledge_extracted : forall g,
  extracted_entity g ->
  exists ty, py_get g "type" VNone = Ok ty /\ SyncEngine.is_knowledge ty = false.
Proof.
  intros g [id [type [_ [Hty Hin]]]].
  destruct g as [| | | | |d]; try discriminate Hty.
  cbn [py_getitem] in Hty. cbn [py_get].
  destruct (dict_get d "type") as [ty|]; [| discriminate Hty].
  apply Ok_inj in Hty. subst ty. exists (VStr type). split; [reflexivity |].
  simpl in Hin.
  destruct Hin as [<- | [<- | [<- | [<- | [<- | []]]]]]; reflexivity.
Qed.

Lemma _extract_ssot_entities_framework : forall L ssot_state ssot_data,
  py_in "framework_requirements" ssot_state
  = py_in "framework_requirements" ssot_data ->
  py_getitem ssot_state "framework_requirements"
  = py_getitem ssot_data "framework_requirements" ->
  SyncEngine._extract_ssot_entities L ssot_state
  = SyncEngine._extract_ssot_entities L ssot_data.
Proof.
  intros L ssot_state ssot_data Hin Hget.
  unfold SyncEngine._extract_ssot_entities. rewrite Hin, Hget. reflexivity.
Qed.

(** X23.  What the sync engine reports right after the indexer has run
    over the same documents ([ssot_state] and [ssot_data] are what the two
    loaders have read: they hold the same framework document).  No id is
    a derived update.  A requirement or a unit of work of the framework
    document is an authoritative update only when a contract or an
    extension of the index has taken its id.  And the conflicts are the
    ids of the index that are no id of the framework document: every
    contract and every extension of the index, unless it has the id of a
    requirement or a unit of work, is reported as a conflict. *)
Theorem fresh_index_changes :
  forall (L : library) (ssot_data ssot_state : value) (c : Clock) (w : world)
         (summary : value) (w' : world) (graphrag_state : value)
         (ch : SyncEngine.changes),
    py_in "framework_requirements" ssot_state
    = py_in "framework_requirements" ssot_data ->
    py_getitem ssot_state "framework_requirements"
    = py_getitem ssot_data "framework_requirements" ->
    SSOTIndexer.index_ssot L ssot_data c w = (Ok summary, w') ->
    SyncEngine.graphrag_state_of (index_dir w') = Ok graphrag_state ->
    SyncEngine.detect_changes L ssot_state graphrag_state = Ok ch ->
    exists entities ssot_entities,
      entities_json (index_dir w') = Some (Doc entities)
      /\ SyncEngine._extract_ssot_entities L ssot_state = Ok ssot_entities
      /\ SyncEngine.graphrag_updates ch = []
      /\ (forall id,
            In id (SyncEngine.ssot_updates ch) ->
            exists e,
              In e entities /\ id_of e = VStr id
              /\ contract_or_extension e = true)
      /\ (forall k,
            In k (SyncEngine.conflicts ch) <->
            In k (map id_of entities)
            /\ ~ In k (map VStr (dict_keys ssot_entities))).
Proof.
  intros L ssot_data ssot_state c w summary w' graphrag_state ch Hfr Hget
    Hindex Hstate.
  pose proof (_extract_ssot_entities_framework L _ _ Hfr Hget) as Hsame_docs.
  destruct (index_ssot_Ok _ _ _ _ _ _ Hindex)
    as [entities [relationships [metadata [w1 [Hextract Hdir]]]]].
  rewrite Hdir in Hstate. cbn in Hstate. apply Ok_inj in Hstate.
  subst graphrag_state.
  pose proof (yields_extract_entities L ssot_data c w) as Hshape.
  rewrite Hextract in Hshape. destruct Hshape as [Hshape _].
  rewrite Forall_forall in Hshape.
  destruct (extract_entities_in_sync _ _ _ _ _ _ Hextract)
    as [framework [others [Hsplit [Hothers [Hframework Hsync]]]]].
  unfold SyncEngine.detect_changes.
  cbn [py_in dict_keys map fst existsb String.eqb Ascii.eqb Bool.eqb orb rbind].
  rewrite Hsame_docs.
  destruct (SyncEngine._extract_ssot_entities L ssot_data)
    as [ssot_entities| |] eqn:Hs; cbn [rbind]; try discriminate.
  destruct (Hsync _ eq_refl) as [Hin_sync Hnd]. clear Hsync.
  cbn [py_getitem dict_get String.eqb Ascii.eqb Bool.eqb py_iter rbind].
  destruct (ImpactAnalyzer.build_index [] entities) as [index| |] eqn:Hi;
    cbn [rbind]; try discriminate.
  pose proof (build_index_latest _ _ _ Hi) as Hindexed.
  destruct (rfilter_map _ ssot_entities) as [updates| |] eqn:Hu; cbn [rbind];
    try discriminate.
  destruct (rfilter_map _ index) as [only| |] eqn:Ho; cbn [rbind];
    try discriminate.
  intros H. apply Ok_inj in H. subst ch.
  cbn [SyncEngine.ssot_updates SyncEngine.graphrag_updates SyncEngine.conflicts].
  exists entities, ssot_entities.
  split; [rewrite Hdir; reflexivity |]. split; [reflexivity |].
  assert (Hvalue : forall k g, In (k, g) index -> extracted_entity g).
  { intros k g Hg. destruct (Hindexed k) as [_ [_ H3]].
    destruct (H3 g Hg) as [[] | Hin]. exact (Hshape g Hin). }
  split; [| split].
  - destruct (map fst (filter snd only)) as [|k rest] eqn:Hk; [reflexivity |].
    exfalso.
    assert (Hin : In k (map fst (filter snd only)))
      by (rewrite Hk; left; reflexivity).
    apply In_knowledge in Hin.
    apply (only_graphrag_Ok _ _ _ _ _ Ho) in Hin.
    destruct Hin as [g [ty [Hg [_ [Hty Hknow]]]]].
    destruct (is_knowledge_extracted g (Hvalue _ _ Hg)) as [ty' [Hty' Hno]].
    rewrite Hty in Hty'. apply Ok_inj in Hty'. subst ty'.
    rewrite Hknow in Hno. discriminate Hno.
  - intros id Hid. apply (rfilter_map_Ok _ _ _ Hu) in Hid.
    destruct Hid as [[id' e] [Hin Hf]]. cbn [fst snd] in Hf.
    pose proof (Hin_sync id') as Hrec.
    rewrite (dict_get_In _ _ _ Hnd Hin) in Hrec.
    destruct Hrec as [type [spec [g [-> [Hlatest Hhash]]]]].
    destruct (latest others (VStr id')) as [g'|] eqn:Hothers'.
    + destruct (latest_Some _ _ _ Hothers') as [Hg' Hidg'].
      assert (Hsame : id = id').
      { match type of Hf with
        | (if ?b then _ else _) = _ => destruct b
        end.
        - match type of Hf with
          | context [SyncEngine._entities_differ ?a ?b] =>
              destruct (SyncEngine._entities_differ a b) as [[|]| |]
          end; cbn [rbind] in Hf; try discriminate Hf;
            apply Ok_inj in Hf; congruence.
        - apply Ok_inj in Hf. congruence. }
      subst id'. exists g'. split; [| split; [exact Hidg' |]].
      * rewrite Hsplit. apply in_app_iff. right. exact Hg'.
      * rewrite Forall_forall in Hothers. exact (Hothers g' Hg').
    + exfalso.
      assert (Hl : latest entities (VStr id') = Some g).
      { rewrite Hsplit, latest_app, Hothers'. exact Hlatest. }
      destruct (Hindexed (VStr id')) as [H1 [H2 _]]. rewrite Hl in H2.
      assert (Hkey : In (VStr id') (map fst index)).
      { apply H1. right.
        destruct (latest_Some _ _ _ Hl) as [Hg <-]. apply in_map. exact Hg. }
      destruct (existsb (fun k => value_eqb (fst k) (VStr id')) index) eqn:Hex.
      * rewrite H2, _entities_differ_hash, Hhash in Hf.
        cbn [rmap rbind] in Hf. rewrite value_eqb_refl in Hf.
        cbn [negb] in Hf. discriminate Hf.
      * apply key_absent in Hex. contradiction.
  - intros k. rewrite In_other, (only_graphrag_Ok _ _ _ _ _ Ho). split.
    + intros [g [ty [Hg [Hk _]]]]. split; [| exact Hk].
      destruct (Hindexed k) as [H1 _].
      destruct (proj1 H1 (in_map fst _ _ Hg)) as [[] | Hin]. exact Hin.
    + intros [Hin Hk].
      destruct (Hindexed k) as [H1 _].
      assert (Hkey : In k (map fst index)) by (apply H1; right; exact Hin).
      apply in_map_iff in Hkey. destruct Hkey as [[k' g] [Ek Hg]].
      cbn [fst] in Ek. subst k'.
      destruct (is_knowledge_extracted g (Hvalue _ _ Hg)) as [ty [Hty Hno]].
      exists g, ty. repeat split; assumption.
Qed.

Lemma fresh_index_changes_witness :
  py_in "framework_requirements" requirement_and_contract
  = py_in "framework_requirements" requirement_and_contract
  /\ py_getitem requirement_and_contract "framework_requirements"
     = py_getitem requirement_and_contract "framework_requirements"
  /\ SSOTIndexer.index_ssot constant_library requirement_and_contract midnight
       no_index
     = (Ok (VDict [ ("entities_count", VInt 2);
                    ("relationships_count", VInt 1);
                    ("status", VStr "success") ]), snd indexed_run)
  /\ SyncEngine.graphrag_state_of (index_dir (snd indexed_run))
     = Ok indexed_state
  /\ SyncEngine.detect_changes constant_library requirement_and_contract
       indexed_state
     = Ok (SyncEngine.mkChanges [] [] [VStr "CT-001"])
  /\ exists entities ssot_entities,
       entities_json (index_dir (snd indexed_run)) = Some (Doc entities)
       /\ SyncEngine._extract_ssot_entities constant_library
            requirement_and_contract = Ok ssot_entities
       /\ SyncEngine.graphrag_updates
            (SyncEngine.mkChanges [] [] [VStr "CT-001"]) = []
       /\ (forall id,
             In id (SyncEngine.ssot_updates
                      (SyncEngine.mkChanges [] [] [VStr "CT-001"])) ->
             exists e,
               In e entities /\ id_of e = VStr id
               /\ contract_or_extension e = true)
       /\ (forall k,
             In k (SyncEngine.conflicts
                     (SyncEngine.mkChanges [] [] [VStr "CT-001"])) <->
             In k (map id_of entities)
             /\ ~ In k (map VStr (dict_keys ssot_entities))).
Proof.
  assert (H1 : SSOTIndexer.index_ssot constant_library requirement_and_contract
                 midnight no_index
               = (Ok (VDict [ ("entities_count", VInt 2);
                              ("relationships_count", VInt 1);
                              ("status", VStr "success") ]), snd indexed_run))
    by reflexivity.
  assert (H2 : SyncEngine.graphrag_state_of (index_dir (snd indexed_run))
               = Ok indexed_state) by reflexivity.
  assert (H3 : SyncEngine.detect_changes constant_library
                 requirement_and_contract indexed_state
               = Ok (SyncEngine.mkChanges [] [] [VStr "CT-001"]))
    by reflexivity.
  split; [reflexivity |]. split; [reflexivity |].
  split; [exact H1 |]. split; [exact H2 |]. split; [exact H3 |].
  exact (fresh_index_changes constant_library requirement_and_contract
           requirement_and_contract midnight no_index _ (snd indexed_run)
           indexed_state _ eq_refl eq_refl H1 H2 H3).
Defined.

(** ** The query engine: implementing units of work *)

Lemma indirect_loop_never_ends : forall self cycle,
  dependency_cycle self cycle ->
  forall fuel pending items,
    (exists i, In i pending /\ In (SSOTQuery.uow_of i) cycle) ->
    SSOTQuery.indirect_loop self fuel pending <> Ok items.
Proof.
  intros self cycle Hcycle fuel.
  induction fuel as [|fuel IH]; intros pending items [i [Hin Hi]];
    destruct pending as [|uow rest]; try contradiction;
    cbn [SSOTQuery.indirect_loop]; [discriminate |].
  destruct (py_getitem (SSOTQuery.uow_of uow) "id") as [id| |] eqn:Hid;
    [| discriminate | discriminate].
  cbn [rbind].
  destruct (SSOTQuery._find_dependent_uows self id) as [deps| |] eqn:Hdeps;
    [| discriminate | discriminate].
  cbn [rbind].
  assert (Hnext : exists j,
            In j (rest ++ map (fun indirect_uow =>
                                 SSOTQuery.ImplementingUoW indirect_uow
                                   (VDict [("type", VStr "indirect")]) false)
                              deps)%list
            /\ In (SSOTQuery.uow_of j) cycle).
  { destruct Hin as [<- | Hrest].
    - destruct (Hcycle _ Hi) as [id' [deps' [d [Hid' [Hdeps' [Hd Hdc]]]]]].
      rewrite Hid in Hid'. apply Ok_inj in Hid'. subst id'.
      rewrite Hdeps in Hdeps'. apply Ok_inj in Hdeps'. subst deps'.
      exists (SSOTQuery.ImplementingUoW d (VDict [("type", VStr "indirect")])
                false).
      split; [| exact Hdc].
      apply in_app_iff. right.
      exact (in_map (fun indirect_uow =>
                       SSOTQuery.ImplementingUoW indirect_uow
                         (VDict [("type", VStr "indirect")]) false)
                    deps d Hd).
    - exists i. split; [apply in_app_iff; left; exact Hrest | exact Hi]. }
  destruct (SSOTQuery.indirect_loop self fuel _) as [tail| |] eqn:Htail;
    [| discriminate | discriminate].
  exfalso. exact (IH _ tail Hnext Htail).
Qed.

(** X24.  [find_implementing_uows] does not return when a unit of work
    that implements the requirement is on a dependency cycle, whatever
    else depends on the units of work of the cycle: its second loop runs
    over the list it appends to, and every unit of work of the cycle that
    it visits appends its dependents, one of which is on the cycle again.
    Whatever the number of iterations allowed, the call has not returned
    a list. *)
Theorem find_implementing_uows_loops_on_a_cycle :
  forall (self : SSOTQuery.SSOTQuery) (requirement_id : string)
         (cycle : list value) (rel source uow : value),
    dependency_cycle self cycle ->
    In rel (SSOTQuery.relationships self) ->
    py_get rel "type" VNone = Ok (VStr "implements") ->
    py_get rel "target" VNone = Ok (VStr requirement_id) ->
    py_get rel "source" VNone = Ok source ->
    SSOTQuery._get_entity_by_id self source = Ok uow ->
    In uow cycle ->
    forall (fuel : nat) (items : list SSOTQuery.item),
      SSOTQuery.find_implementing_uows self fuel requirement_id <> Ok items.
Proof.
  intros self requirement_id cycle rel source uow Hcycle Hrel Hty Htarget
    Hsource Huow Hin fuel items.
  unfold SSOTQuery.find_implementing_uows.
  destruct (rmapM _ (SSOTQuery.relationships self)) as [ls| |] eqn:Hm;
    [| discriminate | discriminate].
  cbn [rmap rbind].
  apply (indirect_loop_never_ends self cycle Hcycle).
  exists (SSOTQuery.ImplementingUoW uow rel true). split; [| exact Hin].
  destruct (Forall2_In_concat _ _ _ _ (rmapM_Ok _ _ _ Hm) Hrel)
    as [l [Hl Hincl]].
  cbv beta in Hl. rewrite Hty, Htarget in Hl. cbn [rbind] in Hl.
  unfold py_is in Hl. rewrite !value_eqb_refl in Hl. cbn [andb] in Hl.
  rewrite Hsource in Hl. cbn [rbind] in Hl. rewrite Huow in Hl.
  cbn [rbind] in Hl.
  assert (Hb : py_bool uow = true).
  { destruct (Hcycle _ Hin) as [id [_ [_ [Hid _]]]].
    destruct uow as [| | | | |d]; try discriminate Hid.
    destruct d; [discriminate Hid | reflexivity]. }
  rewrite Hb in Hl. apply Ok_inj in Hl. apply Hincl. rewrite <- Hl.
  left. reflexivity.
Qed.

Lemma find_implementing_uows_loops_on_a_cycle_witness :
  dependency_cycle cycle_with_dependent
    [entity "UoW-001" "unit_of_work"; entity "UoW-002" "unit_of_work"]
  /\ forall (fuel : nat) (items : list SSOTQuery.item),
       SSOTQuery.find_implementing_uows cycle_with_dependent fuel "FR-001" <> Ok items.
Proof.
  assert (H : dependency_cycle cycle_with_dependent
                [entity "UoW-001" "unit_of_work";
                 entity "UoW-002" "unit_of_work"]).
  { intros e [<- | [<- | []]].
    - exists (VStr "UoW-001"),
        [entity "UoW-003" "unit_of_work"; entity "UoW-002" "unit_of_work"],
        (entity "UoW-002" "unit_of_work").
      split; [reflexivity |]. split; [reflexivity |].
      split; [right; left; reflexivity | right; left; reflexivity].
    - exists (VStr "UoW-002"), [entity "UoW-001" "unit_of_work"],
        (entity "UoW-001" "unit_of_work").
      split; [reflexivity |]. split; [reflexivity |].
      split; left; reflexivity. }
  split; [exact H |].
  refine (find_implementing_uows_loops_on_a_cycle cycle_with_dependent "FR-001" _
            (edge "UoW-001" "FR-001" "implements") (VStr "UoW-001")
            (entity "UoW-001" "unit_of_work") H _ _ _ _ _ _).
  - left. reflexivity.
  - reflexivity.
  - reflexivity.
  - reflexivity.
  - reflexivity.
  - left. reflexivity.
Defined.

(** ** The query engine: coverage gaps *)

Lemma ids_of_type_In : forall self p ids id,
  SSOTQuery.ids_of_type self p = Ok ids ->
  (In id ids <->
   exists e ty,
     In e (SSOTQuery.entities self)
     /\ py_get e "type" VNone = Ok ty /\ p ty = true
     /\ py_getitem e "id" = Ok id).
Proof.
  intros self p ids id H. unfold SSOTQuery.ids_of_type in H.
  rewrite (rfilter_map_Ok _ _ _ H). split.
  - intros [e [He Hf]].
    destruct (py_get e "type" VNone) as [ty| |] eqn:Hty; try discriminate Hf.
    cbn [rbind] in Hf. destruct (p ty) eqn:Hp; [| discriminate Hf].
    destruct (py_getitem e "id") as [id'| |] eqn:Hid; try discriminate Hf.
    cbn [rbind] in Hf. apply Ok_inj in Hf. injection Hf as ->.
    exists e, ty. repeat split; assumption.
  - intros [e [ty [He [Hty [Hp Hid]]]]]. exists e. split; [exact He |].
    rewrite Hty. cbn [rbind]. rewrite Hp, Hid. reflexivity.
Qed.

(** X25.  The requirements that the coverage analysis reports without
    units of work are the ids of the functional and non-functional
    requirements of the index that are the target of no "implements"
    relationship, each as often as the index has a requirement with that
    id.  Whether the source of the relationship is an entity of the index
    is not looked at. *)
Theorem requirements_without_uows_are_not_targets :
  forall (self : SSOTQuery.SSOTQuery) (c : Clock) (w : world)
         (g : SSOTQuery.gaps),
    fst (SSOTQuery.analyze_coverage_gaps self c w) = Ok g ->
    forall req_id,
      In req_id (SSOTQuery.requirements_without_uows g) <->
      (exists e ty,
         In e (SSOTQuery.entities self)
         /\ py_get e "type" VNone = Ok ty
         /\ SSOTQuery.is_requirement ty = true
         /\ py_getitem e "id" = Ok req_id)
      /\ ~ (exists r,
              In r (SSOTQuery.relationships self)
              /\ py_get r "type" VNone = Ok (VStr "implements")
              /\ py_getitem r "target" = Ok req_id).
Proof.
  intros self c w g.
  unfold SSOTQuery.analyze_coverage_gaps, bind, now_isoformat, lift.
  cbv beta iota zeta delta [fst].
  destruct (SSOTQuery.ids_of_type self SSOTQuery.is_requirement)
    as [requirement_ids| |] eqn:Hreq; try discriminate.
  cbn [rbind].
  destruct (rfilter_map _ (SSOTQuery.relationships self))
    as [implemented_reqs| |] eqn:Himpl; try discriminate.
  cbn [rbind].
  destruct (SSOTQuery.ids_of_type self (fun ty => py_is ty "unit_of_work"))
    as [uow_ids| |]; try discriminate.
  cbn [rbind].
  destruct (rfilter_map _ (SSOTQuery.entities self)) as [contracted| |];
    try discriminate.
  cbn [rbind].
  destruct (rmapM _ (SSOTQuery.entities self)) as [valid| |]; try discriminate.
  cbn [rbind].
  destruct (rfilter_map _ (SSOTQuery.entities self)) as [orphaned| |];
    try discriminate.
  cbn [rbind]. intros H. apply Ok_inj in H. subst g.
  cbn [SSOTQuery.requirements_without_uows]. intros req_id.
  rewrite filter_In, (ids_of_type_In _ _ _ req_id Hreq).
  rewrite Bool.negb_true_iff, mem_not_In.
  assert (Hin : In req_id implemented_reqs <->
                exists r, In r (SSOTQuery.relationships self)
                          /\ py_get r "type" VNone = Ok (VStr "implements")
                          /\ py_getitem r "target" = Ok req_id).
  { rewrite (rfilter_map_Ok _ _ _ Himpl). split.
    - intros [r [Hr Hf]]. exists r. split; [exact Hr |].
      destruct (py_get r "type" VNone) as [ty| |] eqn:Hty; try discriminate Hf.
      cbn [rbind] in Hf. destruct (py_is ty "implements") eqn:Hi;
        [| discriminate Hf].
      unfold py_is in Hi. apply value_eqb_eq in Hi. subst ty.
      destruct (py_getitem r "target") as [t| |]; try discriminate Hf.
      cbn [rbind] in Hf. apply Ok_inj in Hf. injection Hf as ->.
      split; reflexivity.
    - intros [r [Hr [Hty Ht]]]. exists r. split; [exact Hr |].
      rewrite Hty. cbn [rbind]. unfold py_is. rewrite value_eqb_refl, Ht.
      reflexivity. }
  rewrite Hin. reflexivity.
Qed.

Lemma requirements_without_uows_are_not_targets_witness :
  fst (SSOTQuery.analyze_coverage_gaps login_engine midnight no_index)
  = Ok (SSOTQuery.mkGaps [VStr "FR-002"; VStr "FR-001"] [] [] []
          "2025-01-01T00:00:00")
  /\ forall req_id,
       In req_id [VStr "FR-002"; VStr "FR-001"] <->
       (exists e ty,
          In e (SSOTQuery.entities login_engine)
          /\ py_get e "type" VNone = Ok ty
          /\ SSOTQuery.is_requirement ty = true
          /\ py_getitem e "id" = Ok req_id)
       /\ ~ (exists r,
               In r (SSOTQuery.relationships login_engine)
               /\ py_get r "type" VNone = Ok (VStr "implements")
               /\ py_getitem r "target" = Ok req_id).
Proof.
  assert (H : fst (SSOTQuery.analyze_coverage_gaps login_engine midnight
                     no_index)
              = Ok (SSOTQuery.mkGaps [VStr "FR-002"; VStr "FR-001"] [] [] []
                      "2025-01-01T00:00:00")) by reflexivity.
  exact (conj H (requirements_without_uows_are_not_targets login_engine
                   midnight no_index _ H)).
Defined.

(** ** The query engine: the impact analysis *)

Lemma _calculate_risk_level_thresholds :
  forall direct_count indirect_count entity_type,
    SSOTQuery._calculate_risk_level direct_count indirect_count entity_type
    = (let total := (direct_count + indirect_count)%nat in
       if mem entity_type [VStr "functional_requirement"; VStr "contract"]
       then (if (7 <=? total)%nat then "high"
             else if (4 <=? total)%nat then "medium" else "low")
       else (if (10 <=? total)%nat then "high"
             else if (5 <=? total)%nat then "medium" else "low")).
Proof.
  intros d i ty. unfold SSOTQuery._calculate_risk_level. cbv zeta.
  generalize (d + i)%nat. intros n.
  destruct (mem ty [VStr "functional_requirement"; VStr "contract"]);
    unfold Qle_bool, Qmult, inject_Z; cbn [Qnum Qden].
  - destruct (Nat.leb_spec 7 n), (Nat.leb_spec 4 n);
      destruct (Z.leb_spec (10 * Z.pos (1 * 2)) (Z.of_nat n * 3 * 1));
      destruct (Z.leb_spec (5 * Z.pos (1 * 2)) (Z.of_nat n * 3 * 1));
      try reflexivity; lia.
  - destruct (Nat.leb_spec 10 n), (Nat.leb_spec 5 n);
      destruct (Z.leb_spec (10 * Z.pos (1 * 1)) (Z.of_nat n * 1 * 1));
      destruct (Z.leb_spec (5 * Z.pos (1 * 1)) (Z.of_nat n * 1 * 1));
      try reflexivity; lia.
Qed.

Lemma _get_entity_by_id_fuel : forall self entity_id,
  SSOTQuery._get_entity_by_id self entity_id <> OutOfFuel.
Proof.
  intros self entity_id. unfold SSOTQuery._get_entity_by_id.
  induction (SSOTQuery.entities self) as [|e t IH]; [discriminate |].
  destruct e; try discriminate. cbn [py_get rbind].
  destruct (value_eqb _ entity_id); [discriminate | exact IH].
Qed.

Lemma collect_fuel_each : forall {A B} (f : A -> list B * result unit) l,
  (forall x, snd (f x) <> OutOfFuel) -> snd (collect f l) <> OutOfFuel.
Proof.
  intros A B f l Hf. induction l as [|x t IH]; cbn [collect].
  - discriminate.
  - specialize (Hf x). destruct (f x) as [ys [[]|e|]]; cbn [snd] in *.
    + destruct (collect f t). exact IH.
    + discriminate.
    + congruence.
Qed.

Lemma query_touches_fuel : forall id r, SSOTQuery.touches id r <> OutOfFuel.
Proof.
  intros id r. unfold SSOTQuery.touches. destruct r; discriminate.
Qed.

Lemma query_other_end_fuel : forall id r, SSOTQuery.other_end id r <> OutOfFuel.
Proof.
  intros id r. unfold SSOTQuery.other_end. destruct r; try discriminate.
  cbn [py_get rbind]. destruct (value_eqb _ id); discriminate.
Qed.

Lemma query_direct_impact_of_fuel : forall self entity_id rel,
  SSOTQuery.direct_impact_of self entity_id rel <> OutOfFuel.
Proof.
  intros self entity_id rel. unfold SSOTQuery.direct_impact_of.
  pose proof (query_other_end_fuel (VStr entity_id) rel) as H1.
  destruct (SSOTQuery.other_end (VStr entity_id) rel) as [related| |];
    cbn [rbind]; [| discriminate | congruence].
  pose proof (_get_entity_by_id_fuel self related) as H2.
  destruct (SSOTQuery._get_entity_by_id self related) as [e| |];
    cbn [rbind]; [| discriminate | congruence].
  destruct (py_bool e); [| discriminate].
  unfold SSOTQuery._determine_impact_type. destruct rel; discriminate.
Qed.

Lemma indirect_impacts_of_fuel : forall self entity_id direct_relationships i,
  snd (SSOTQuery.indirect_impacts_of self entity_id direct_relationships i)
  <> OutOfFuel.
Proof.
  intros self entity_id rels i. unfold SSOTQuery.indirect_impacts_of.
  cbv zeta. cbn [rbind].
  match goal with
  | |- context [rfilter ?p ?l] =>
      pose proof (rfilter_fuel p l) as Hf; destruct (rfilter p l) as [out| |]
  end.
  - apply collect_fuel_each. intros rel.
    pose proof (py_getitem_fuel (SSOTQuery.fi_entity i) "id") as H0.
    destruct (py_getitem (SSOTQuery.fi_entity i) "id") as [id| |];
      cbn [rbind once snd]; [| discriminate | congruence].
    pose proof (query_other_end_fuel id rel) as H1.
    destruct (SSOTQuery.other_end id rel) as [related| |];
      cbn [rbind once snd]; [| discriminate | congruence].
    pose proof (_get_entity_by_id_fuel self related) as H2.
    destruct (SSOTQuery._get_entity_by_id self related) as [e| |];
      cbn [rbind once snd]; [| discriminate | congruence].
    destruct (py_bool e); [| discriminate].
    pose proof (py_getitem_fuel e "id") as H3.
    destruct (py_getitem e "id") as [rid| |];
      cbn [rbind once snd]; [| discriminate | congruence].
    destruct (negb (py_is rid entity_id)); discriminate.
  - discriminate.
  - exfalso. apply Hf; [| reflexivity]. intros r.
    pose proof (py_getitem_fuel (SSOTQuery.fi_entity i) "id") as H0.
    destruct (py_getitem (SSOTQuery.fi_entity i) "id") as [id| |];
      cbn [rbind]; [| discriminate | congruence].
    pose proof (query_touches_fuel id r) as H1.
    destruct (SSOTQuery.touches id r); cbn [rbind];
      [discriminate | discriminate | congruence].
Qed.

(** X26.  No exception leaves [analyze_impact]: it returns its dictionary
    for the entity, the change type and the time of the call whatever the
    index holds.  For an id that no entity of the index has, the dictionary
    has the error "Entity <id> not found", no impact, the risk level
    "low" and no recommendation. *)
Theorem analyze_impact_catches_every_exception :
  forall (self : SSOTQuery.SSOTQuery) (entity_id change_type : string)
         (c : Clock) (w : world),
    exists a,
      fst (SSOTQuery.analyze_impact self entity_id change_type c w) = Ok a
      /\ SSOTQuery.ia_entity_id a = entity_id
      /\ SSOTQuery.ia_change_type a = change_type
      /\ SSOTQuery.ia_analysis_timestamp a = c (ticks w)
      /\ (SSOTQuery._get_entity_by_id self (VStr entity_id) = Ok VNone ->
          a = SSOTQuery.mkImpactAnalysis entity_id change_type [] [] "low" []
                (c (ticks w))
                (Some (SSOTQuery.Message
                         ("Entity " ++ entity_id ++ " not found")))).
Proof.
  intros self entity_id change_type c w.
  unfold SSOTQuery.analyze_impact, bind, now_isoformat, lift.
  cbv beta iota zeta delta [fst].
  pose proof (_get_entity_by_id_fuel self (VStr entity_id)) as F0.
  destruct (SSOTQuery._get_entity_by_id self (VStr entity_id))
    as [entity|e|] eqn:Hentity; cbn [SSOTQuery.caught];
    [| eexists; split; [reflexivity |]; repeat split; discriminate
     | congruence].
  destruct (negb (py_bool entity)) eqn:Hfound.
  { eexists. split; [reflexivity |]. repeat split. }
  assert (Hsome : Ok entity = Ok VNone ->
                  forall a : SSOTQuery.impact_analysis,
                    a = SSOTQuery.mkImpactAnalysis entity_id change_type [] []
                          "low" [] (c (ticks w))
                          (Some (SSOTQuery.Message
                                   ("Entity " ++ entity_id ++ " not found")))).
  { intros E. apply Ok_inj in E. subst entity. discriminate Hfound. }
  pose proof (rfilter_fuel (SSOTQuery.touches (VStr entity_id))
                (SSOTQuery.relationships self)
                (query_touches_fuel (VStr entity_id))) as F1.
  destruct (rfilter _ (SSOTQuery.relationships self)) as [rels|e|];
    cbn [SSOTQuery.caught];
    [| eexists; split; [reflexivity |]; repeat split; intros E;
       exact (Hsome E _)
     | congruence].
  pose proof (collect_fuel (SSOTQuery.direct_impact_of self entity_id) rels
                (query_direct_impact_of_fuel self entity_id)) as F2.
  destruct (collect _ rels) as [direct [[]|e|]];
    cbn [SSOTQuery.caught snd] in *;
    [| eexists; split; [reflexivity |]; repeat split; intros E;
       exact (Hsome E _)
     | congruence].
  pose proof (collect_fuel_each
                (SSOTQuery.indirect_impacts_of self entity_id rels) direct
                (indirect_impacts_of_fuel self entity_id rels)) as F3.
  destruct (collect _ direct) as [indirect [[]|e|]];
    cbn [SSOTQuery.caught snd] in *;
    [| eexists; split; [reflexivity |]; repeat split; intros E;
       exact (Hsome E _)
     | congruence].
  pose proof (py_get_fuel entity "type" VNone) as F4.
  destruct (py_get entity "type" VNone) as [entity_type|e|] eqn:Hty;
    cbn [SSOTQuery.caught];
    [| eexists; split; [reflexivity |]; repeat split; intros E;
       exact (Hsome E _)
     | congruence].
  unfold SSOTQuery._generate_impact_recommendations. cbv zeta.
  rewrite Hty. cbn [rbind SSOTQuery.caught].
  eexists; split; [reflexivity |]; repeat split; intros E; exact (Hsome E _).
Qed.

(** X27.  The risk level of an impact analysis that completed follows
    from the number of its impacts and the type of the entity: for a
    functional requirement or a contract it is "high" from 7 impacts and
    "medium" from 4, for any other entity "high" from 10 and "medium"
    from 5, and "low" below. *)
Theorem risk_level_by_impact_count :
  forall (self : SSOTQuery.SSOTQuery) (entity_id change_type : string)
         (c : Clock) (w : world) (a : SSOTQuery.impact_analysis),
    fst (SSOTQuery.analyze_impact self entity_id change_type c w) = Ok a ->
    SSOTQuery.ia_error a = None ->
    exists entity entity_type,
      SSOTQuery._get_entity_by_id self (VStr entity_id) = Ok entity
      /\ py_get entity "type" VNone = Ok entity_type
      /\ SSOTQuery.ia_risk_level a
         = (let total :=
              (List.length (SSOTQuery.ia_direct_impacts a)
               + List.length (SSOTQuery.ia_indirect_impacts a))%nat in
            if mem entity_type [VStr "functional_requirement"; VStr "contract"]
            then (if (7 <=? total)%nat then "high"
                  else if (4 <=? total)%nat then "medium" else "low")
            else (if (10 <=? total)%nat then "high"
                  else if (5 <=? total)%nat then "medium" else "low")).
Proof.
  intros self entity_id change_type c w a.
  unfold SSOTQuery.analyze_impact, bind, now_isoformat, lift.
  cbv beta iota zeta delta [fst].
  destruct (SSOTQuery._get_entity_by_id self (VStr entity_id))
    as [entity|e|] eqn:Hentity; cbn [SSOTQuery.caught];
    [| intros H; apply Ok_inj in H; subst a; discriminate | discriminate].
  destruct (negb (py_bool entity));
    [intros H; apply Ok_inj in H; subst a; discriminate |].
  destruct (rfilter _ (SSOTQuery.relationships self)) as [rels|e|];
    cbn [SSOTQuery.caught];
    [| intros H; apply Ok_inj in H; subst a; discriminate | discriminate].
  destruct (collect _ rels) as [direct [[]|e|]];
    cbn [SSOTQuery.caught];
    [| intros H; apply Ok_inj in H; subst a; discriminate | discriminate].
  destruct (collect _ direct) as [indirect [[]|e|]];
    cbn [SSOTQuery.caught];
    [| intros H; apply Ok_inj in H; subst a; discriminate | discriminate].
  destruct (py_get entity "type" VNone) as [entity_type|e|] eqn:Hty;
    cbn [SSOTQuery.caught];
    [| intros H; apply Ok_inj in H; subst a; discriminate | discriminate].
  unfold SSOTQuery._generate_impact_recommendations. cbv zeta.
  rewrite Hty. cbn [rbind SSOTQuery.caught].
  intros H _. apply Ok_inj in H. subst a.
  exists entity, entity_type. split; [reflexivity |]. split; [exact Hty |].
  cbn [SSOTQuery.ia_risk_level SSOTQuery.ia_direct_impacts
       SSOTQuery.ia_indirect_impacts].
  apply _calculate_risk_level_thresholds.
Qed.

Lemma risk_level_by_impact_count_witness :
  fst (SSOTQuery.analyze_impact cyclic_engine "FR-001" "modification" midnight
         no_index)
  = Ok (SSOTQuery.mkImpactAnalysis "FR-001" "modification"
          [ SSOTQuery.mkFoundImpact (entity "UoW-001" "unit_of_work")
              (edge "UoW-001" "FR-001" "implements") None
              "implementation_change" ]
          [ SSOTQuery.mkFoundImpact (entity "UoW-002" "unit_of_work")
              (edge "UoW-001" "UoW-002" "depends_on") (Some (VStr "UoW-001"))
              "indirect";
            SSOTQuery.mkFoundImpact (entity "UoW-002" "unit_of_work")
              (edge "UoW-002" "UoW-001" "depends_on") (Some (VStr "UoW-001"))
              "indirect" ]
          "low" [] "2025-01-01T00:00:00" None)
  /\ exists entity entity_type,
       SSOTQuery._get_entity_by_id cyclic_engine (VStr "FR-001") = Ok entity
       /\ py_get entity "type" VNone = Ok entity_type
       /\ "low"
          = (let total := (1 + 2)%nat in
             if mem entity_type [VStr "functional_requirement"; VStr "contract"]
             then (if (7 <=? total)%nat then "high"
                   else if (4 <=? total)%nat then "medium" else "low")
             else (if (10 <=? total)%nat then "high"
                   else if (5 <=? total)%nat then "medium" else "low")).
Proof.
  assert (H : fst (SSOTQuery.analyze_impact cyclic_engine "FR-001"
                     "modification" midnight no_index)
              = Ok (SSOTQuery.mkImpactAnalysis "FR-001" "modification"
                      [ SSOTQuery.mkFoundImpact (entity "UoW-001" "unit_of_work")
                          (edge "UoW-001" "FR-001" "implements") None
                          "implementation_change" ]
                      [ SSOTQuery.mkFoundImpact (entity "UoW-002" "unit_of_work")
                          (edge "UoW-001" "UoW-002" "depends_on")
                          (Some (VStr "UoW-001")) "indirect";
                        SSOTQuery.mkFoundImpact (entity "UoW-002" "unit_of_work")
                          (edge "UoW-002" "UoW-001" "depends_on")
                          (Some (VStr "UoW-001")) "indirect" ]
                      "low" [] "2025-01-01T00:00:00" None)) by reflexivity.
  exact (conj H (risk_level_by_impact_count cyclic_engine "FR-001"
                   "modification" midnight no_index _ H eq_refl)).
Defined.

(** ** The sync engine: no id is reported twice *)

Lemma _extract_ssot_entities_NoDup : forall L ssot_state ssot_entities,
  SyncEngine._extract_ssot_entities L ssot_state = Ok ssot_entities ->
  NoDup (dict_keys ssot_entities).
Proof.
  intros L ssot_state ssot_entities. unfold SyncEngine._extract_ssot_entities.
  destruct (py_in "framework_requirements" ssot_state) as [[|]| |];
    cbn [rbind]; try discriminate.
  - destruct (py_getitem ssot_state "framework_requirements") as [fr_data| |];
      cbn [rbind]; try discriminate.
    destruct (SyncEngine.extract_section L "functional_requirements" _
                fr_data []) as [d1| |] eqn:H1; try discriminate.
    cbn [rbind].
    destruct (SyncEngine.extract_section L "non_functional_requirements" _
                fr_data d1) as [d2| |] eqn:H2; try discriminate.
    cbn [rbind]. intros H3.
    destruct (extract_section_records _ _ _ _ _ _ H1) as [j1 [_ ->]].
    destruct (extract_section_records _ _ _ _ _ _ H2) as [j2 [_ ->]].
    destruct (extract_section_records _ _ _ _ _ _ H3) as [j3 [_ ->]].
    apply fold_dict_set_NoDup. apply fold_dict_set_NoDup.
    apply fold_dict_set_NoDup. constructor.
  - intros H. apply Ok_inj in H. subst ssot_entities. constructor.
Qed.

Lemma index_set_NoDup : forall index k v,
  NoDup (map fst index) -> NoDup (map fst (ImpactAnalyzer.index_set index k v)).
Proof.
  intros index k v.
  induction index as [|[a b] t IH]; cbn [ImpactAnalyzer.index_set map fst];
    intros H.
  - constructor; [intros [] | constructor].
  - inversion H as [|x l Hx Hl]; subst.
    destruct (value_eqb a k) eqn:E; cbn [map fst].
    + constructor; assumption.
    + constructor; [| exact (IH Hl)].
      intros Hin. apply index_set_keys in Hin.
      destruct Hin as [-> | Hin]; [| contradiction].
      rewrite value_eqb_refl in E. discriminate E.
Qed.

Lemma build_index_NoDup : forall l index0 index,
  ImpactAnalyzer.build_index index0 l = Ok index ->
  NoDup (map fst index0) -> NoDup (map fst index).
Proof.
  induction l as [|e l IH]; intros index0 index;
    cbn [ImpactAnalyzer.build_index].
  - intros H. apply Ok_inj in H. subst index. auto.
  - destruct (py_getitem e "id") as [id| |]; try discriminate. cbn [rbind].
    destruct (hashable id); try discriminate. cbn [rbind].
    intros H Hnd. apply (IH _ _ H). apply index_set_NoDup. exact Hnd.
Qed.

Lemma rfilter_map_NoDup :
  forall {A B C} (f : A -> result (option B)) (g : B -> C) (key : A -> C) l out,
    (forall x y, f x = Ok (Some y) -> g y = key x) ->
    rfilter_map f l = Ok out ->
    NoDup (map key l) ->
    NoDup (map g out) /\ incl (map g out) (map key l).
Proof.
  intros A B C f g key l out Hkey. revert out.
  induction l as [|x t IH]; intros out; cbn [rfilter_map map].
  - intros H _. apply Ok_inj in H. subst out. split; [constructor |].
    intros y [].
  - destruct (f x) as [o| |] eqn:Hx; try discriminate. cbn [rbind].
    destruct (rfilter_map f t) as [r| |]; try discriminate. cbn [rbind].
    intros H Hnd. apply Ok_inj in H. subst out.
    inversion Hnd as [|a l Ha Hl]; subst.
    destruct (IH r eq_refl Hl) as [Hr Hincl].
    destruct o as [y|]; cbn [map].
    + rewrite (Hkey _ _ Hx). split.
      * constructor; [| exact Hr]. intros Hin. apply Ha. exact (Hincl _ Hin).
      * intros z [<- | Hz]; [left; reflexivity | right; exact (Hincl _ Hz)].
    + split; [exact Hr |]. intros z Hz. right. exact (Hincl _ Hz).
Qed.

Lemma NoDup_partition : forall {A} (p : A * bool -> bool) (l : list (A * bool)),
  NoDup (map fst l) ->
  NoDup (map fst (filter p l) ++ map fst (filter (fun x => negb (p x)) l)).
Proof.
  intros A p l. induction l as [|x t IH]; cbn [map filter]; intros H.
  - constructor.
  - inversion H as [|a l' Ha Hl]; subst. specialize (IH Hl).
    assert (Hout : forall q : A * bool -> bool,
                     ~ In (fst x) (map fst (filter q t))).
    { intros q Hin. apply Ha. apply in_map_iff in Hin.
      destruct Hin as [y [Hy Hin]]. apply filter_In in Hin.
      rewrite <- Hy. apply in_map. tauto. }
    destruct (p x); cbn [negb map app].
    + constructor; [| exact IH]. rewrite in_app_iff.
      intros [Hin | Hin]; exact (Hout _ Hin).
    + apply NoDup_Add with (a := fst x)
        (l := (map fst (filter p t)
               ++ map fst (filter (fun x => negb (p x)) t))%list).
      * apply Add_app.
      * split; [exact IH |]. rewrite in_app_iff.
        intros [Hin | Hin]; exact (Hout _ Hin).
Qed.

(** X28.  No id is reported twice by [detect_changes]: the authoritative
    updates name different ids, the derived updates and the conflicts
    together name different ids, and no authoritative update is also a
    derived update or a conflict. *)
Theorem detect_changes_reports_an_id_once :
  forall (L : library) (ssot_state graphrag_state : value)
         (ch : SyncEngine.changes),
    SyncEngine.detect_changes L ssot_state graphrag_state = Ok ch ->
    NoDup (SyncEngine.ssot_updates ch)
    /\ NoDup (SyncEngine.graphrag_updates ch ++ SyncEngine.conflicts ch)
    /\ forall id,
         In id (SyncEngine.ssot_updates ch) ->
         ~ In (VStr id)
              (SyncEngine.graphrag_updates ch ++ SyncEngine.conflicts ch).
Proof.
  intros L ssot_state graphrag_state ch. unfold SyncEngine.detect_changes.
  destruct (py_in "entities" graphrag_state) as [[|]| |]; cbn [rbind];
    try discriminate.
  2: { intros H. apply Ok_inj in H. subst ch. simpl.
       split; [constructor |]. split; [constructor | tauto]. }
  destruct (SyncEngine._extract_ssot_entities L ssot_state)
    as [ssot_entities| |] eqn:Hs; cbn [rbind]; try discriminate.
  destruct (rbind (py_getitem graphrag_state "entities") py_iter)
    as [listed| |]; cbn [rbind]; try discriminate.
  destruct (ImpactAnalyzer.build_index [] listed) as [index| |] eqn:Hi;
    cbn [rbind]; try discriminate.
  destruct (rfilter_map _ ssot_entities) as [updates| |] eqn:Hu; cbn [rbind];
    try discriminate.
  destruct (rfilter_map _ index) as [only| |] eqn:Ho; cbn [rbind];
    try discriminate.
  intros H. apply Ok_inj in H. subst ch.
  cbn [SyncEngine.ssot_updates SyncEngine.graphrag_updates SyncEngine.conflicts].
  pose proof (_extract_ssot_entities_NoDup _ _ _ Hs) as Hkeys.
  assert (Hupd : NoDup (map (fun id : string => id) updates)
                 /\ incl (map (fun id : string => id) updates)
                         (map fst ssot_entities)).
  { refine (rfilter_map_NoDup _ _ fst _ _ _ Hu Hkeys).
    intros kv y. cbn [fst snd].
    destruct (existsb _ index).
    - destruct (SyncEngine._entities_differ (snd kv) _) as [[|]| |];
        cbn [rbind]; intros E; try discriminate E;
        apply Ok_inj in E; congruence.
    - intros E. apply Ok_inj in E. congruence. }
  rewrite map_id in Hupd. destruct Hupd as [Hnd Hincl].
  split; [exact Hnd |]. split.
  - apply NoDup_partition.
    refine (proj1 (rfilter_map_NoDup _ fst fst _ _ _ Ho
                     (build_index_NoDup _ _ _ Hi (NoDup_nil _)))).
    intros kv y. cbn [fst snd].
    destruct (negb _); [| discriminate].
    destruct (py_get (snd kv) "type" VNone); cbn [rbind]; try discriminate.
    intros E. apply Ok_inj in E. injection E as <-. reflexivity.
  - intros id Hid Hin. apply Hincl in Hid. apply in_app_iff in Hin.
    assert (Hno : In (VStr id, true) only \/ In (VStr id, false) only).
    { destruct Hin as [Hin | Hin];
        [left; apply In_knowledge | right; apply In_other]; exact Hin. }
    destruct Hno as [Hno | Hno];
      apply (only_graphrag_Ok _ _ _ _ _ Ho) in Hno;
      destruct Hno as [g [ty [_ [Hk _]]]]; apply Hk;
      apply in_map; exact Hid.
Qed.

Lemma detect_changes_reports_an_id_once_witness :
  SyncEngine.detect_changes constant_library one_requirement
    (VDict [("entities", VList [])])
  = Ok (SyncEngine.mkChanges ["FR-001"] [] [])
  /\ NoDup ["FR-001"]
  /\ NoDup (@nil value ++ [])
  /\ forall id, In id ["FR-001"] -> ~ In (VStr id) (@nil value ++ []).
Proof.
  assert (H : SyncEngine.detect_changes constant_library one_requirement
                (VDict [("entities", VList [])])
              = Ok (SyncEngine.mkChanges ["FR-001"] [] [])) by reflexivity.
  exact (conj H (detect_changes_reports_an_id_once constant_library
                   one_requirement (VDict [("entities", VList [])]) _ H)).
Defined.

(** ** The query engine: the relevance of a keyword result *)

Lemma lower_char_idem : forall c, lower_char (lower_char c) = lower_char c.
Proof.
  intros [[|] [|] [|] [|] [|] [|] [|] [|]]; reflexivity.
Qed.

Lemma lower_idem : forall s, lower (lower s) = lower s.
Proof.
  induction s as [|c s IH]; cbn [lower].
  - reflexivity.
  - rewrite lower_char_idem, IH. reflexivity.
Qed.

Lemma count_from_positive : forall sub s,
  sub <> EmptyString ->
  str_in sub s = true ->
  (1 <= count_from 0 sub s)%nat.
Proof.
  intros sub s Hsub. induction s as [|c s IH]; cbn [str_in count_from].
  - rewrite Bool.orb_false_r. destruct sub; [contradiction Hsub; reflexivity |].
    discriminate.
  - destruct (startswith sub (String c s)); cbn [orb].
    + intros _. lia.
    + exact IH.
Qed.

Lemma str_count_positive : forall s sub,
  str_in sub s = true -> (1 <= str_count s sub)%nat.
Proof.
  intros s sub H. unfold str_count. destruct sub as [|c sub]; [lia |].
  apply count_from_positive; [discriminate | exact H].
Qed.

Lemma keyword_match_positive : forall keyword e r,
  SSOTQuery.keyword_match keyword e = Ok (Some r) ->
  (0 < SSOTQuery.relevance_of r)%Q.
Proof.
  intros keyword e r. unfold SSOTQuery.keyword_match.
  destruct (py_get e "type" VNone) as [ty| |]; try discriminate.
  cbn [rbind]. destruct (SSOTQuery.is_requirement ty); [| discriminate].
  unfold SSOTQuery.searchable_text.
  destruct (py_get e "title" (VStr "")) as [title| |]; try discriminate.
  cbn [rbind].
  destruct (py_get e "description" (VStr "")) as [description| |];
    try discriminate.
  cbn [rbind].
  destruct (py_get e "acceptance_criteria" (VList [])) as [criteria| |];
    try discriminate.
  cbn [rbind].
  destruct (py_join " " criteria) as [joined| |]; try discriminate.
  cbn [rbind].
  destruct (py_join " " (VList [title; description; VStr joined]))
    as [text| |]; try discriminate.
  cbn [rbind].
  destruct (str_in (lower keyword) (lower text)) eqn:Hin; [| discriminate].
  destruct (SSOTQuery._find_keyword_matches keyword e) as [matches| |];
    try discriminate.
  cbn [rbind]. intros H. apply Ok_inj in H. injection H as <-.
  cbn [SSOTQuery.relevance_of]. unfold SSOTQuery._calculate_relevance.
  cbv zeta. rewrite lower_idem.
  pose proof (str_count_positive _ _ Hin) as Hpos.
  unfold Qlt. cbn [Qnum Qden]. lia.
Qed.

(** X29.  Every result of a keyword query has a relevance greater than
    0: an entity is a result for a token only when the token occurs in its
    searchable text, and the occurrences are what the relevance counts. *)
Theorem keyword_results_are_relevant :
  forall (self : SSOTQuery.SSOTQuery) (query_text : string)
         (results : list SSOTQuery.item),
    SSOTQuery._process_keyword_query self query_text = Ok results ->
    Forall (fun r => (0 < SSOTQuery.relevance_of r)%Q) results.
Proof.
  intros self query_text results. unfold SSOTQuery._process_keyword_query.
  cbv zeta.
  destruct (rmapM _ _) as [ls| |] eqn:Hm; try discriminate.
  cbn [rmap rbind]. intros H.
  destruct (unique_results_Ok _ _ _ H) as [_ [Hin _]].
  apply Forall_forall. intros r Hr. destruct (Hin r Hr) as [Hc _].
  destruct (in_concat_Forall2 _ _ _ _ (rmapM_Ok _ _ _ Hm) Hc)
    as [keyword [l [_ [Hl Hrl]]]].
  unfold SSOTQuery.find_requirements_by_keyword in Hl.
  destruct (rfilter_map _ (SSOTQuery.entities self)) as [found| |] eqn:Hf;
    try discriminate.
  cbn [rmap rbind] in Hl. apply Ok_inj in Hl. subst l.
  apply In_sort_desc in Hrl. apply (rfilter_map_Ok _ _ _ Hf) in Hrl.
  destruct Hrl as [e [_ He]]. exact (keyword_match_positive _ _ _ He).
Qed.

Lemma keyword_results_are_relevant_witness :
  SSOTQuery._process_keyword_query login_engine "login" = Ok login_results
  /\ Forall (fun r => (0 < SSOTQuery.relevance_of r)%Q) login_results.
Proof.
  assert (H : SSOTQuery._process_keyword_query login_engine "login"
              = Ok login_results) by reflexivity.
  exact (conj H (keyword_results_are_relevant login_engine "login" _ H)).
Defined.

(** ** The query engine: the ids found in a query text *)

Lemma substring_0_0 : forall s, substring 0 0 s = EmptyString.
Proof. intros [|c s]; reflexivity. Qed.

Lemma substring_whole : forall s, substring 0 (String.length s) s = s.
Proof.
  induction s as [|c s IH]; cbn [String.length substring].
  - reflexivity.
  - rewrite IH. reflexivity.
Qed.

Lemma match_id_at_FR : forall a b c t,
  SSOTQuery.match_id_at "FR-" (String a (String b (String c t)))
  = if Ascii.eqb (lower_char a) "f" && Ascii.eqb (lower_char b) "r"
       && Ascii.eqb (lower_char c) "-"
    then match SSOTQuery.take_digits t with
         | EmptyString => None
         | digits => Some (String a (String b (String c digits)))
         end
    else None.
Proof.
  intros a b c t. unfold SSOTQuery.match_id_at.
  cbn [String.length substring Nat.sub lower].
  rewrite substring_0_0, Nat.sub_0_r, substring_whole.
  cbn [lower String.eqb append].
  change (lower_char "F") with "f"%char.
  change (lower_char "R") with "r"%char.
  change (lower_char "-") with "-"%char.
  destruct (Ascii.eqb (lower_char a) "f"); [| reflexivity].
  destruct (Ascii.eqb (lower_char b) "r"); [| reflexivity].
  destruct (Ascii.eqb (lower_char c) "-"); reflexivity.
Qed.

Lemma match_id_at_FR_short : forall s,
  (String.length s < 3)%nat -> SSOTQuery.match_id_at "FR-" s = None.
Proof.
  intros [|a [|b [|c t]]] H; [| | | cbn [String.length] in H; lia];
    unfold SSOTQuery.match_id_at;
    cbn [String.length substring lower String.eqb];
    repeat match goal with
           | |- context [Ascii.eqb ?x ?y] => destruct (Ascii.eqb x y)
           end; reflexivity.
Qed.

Lemma match_id_at_NFR : forall n a b c t,
  SSOTQuery.match_id_at "NFR-" (String n (String a (String b (String c t))))
  = if Ascii.eqb (lower_char n) "n" && Ascii.eqb (lower_char a) "f"
       && Ascii.eqb (lower_char b) "r" && Ascii.eqb (lower_char c) "-"
    then match SSOTQuery.take_digits t with
         | EmptyString => None
         | digits => Some (String n (String a (String b (String c digits))))
         end
    else None.
Proof.
  intros n a b c t. unfold SSOTQuery.match_id_at.
  cbn [String.length substring Nat.sub lower].
  rewrite substring_0_0, Nat.sub_0_r, substring_whole.
  cbn [lower String.eqb append].
  change (lower_char "N") with "n"%char.
  change (lower_char "F") with "f"%char.
  change (lower_char "R") with "r"%char.
  change (lower_char "-") with "-"%char.
  destruct (Ascii.eqb (lower_char n) "n"); [| reflexivity].
  destruct (Ascii.eqb (lower_char a) "f"); [| reflexivity].
  destruct (Ascii.eqb (lower_char b) "r"); [| reflexivity].
  destruct (Ascii.eqb (lower_char c) "-"); reflexivity.
Qed.

Lemma match_id_at_NFR_short : forall s,
  (String.length s < 4)%nat -> SSOTQuery.match_id_at "NFR-" s = None.
Proof.
  intros [|n [|a [|b [|c t]]]] H; [| | | | cbn [String.length] in H; lia];
    unfold SSOTQuery.match_id_at;
    cbn [String.length substring lower String.eqb];
    repeat match goal with
           | |- context [Ascii.eqb ?x ?y] => destruct (Ascii.eqb x y)
           end; reflexivity.
Qed.

(** An id that matches the pattern of the non-functional requirements
    holds, after its first character, an id that matches the pattern of
    the functional requirements. *)
Lemma match_id_at_NFR_FR : forall post m,
  SSOTQuery.match_id_at "NFR-" post = Some m ->
  exists n post' m',
    post = String n post' /\ lower_char n = "n"%char /\ m = String n m'
    /\ SSOTQuery.match_id_at "FR-" post' = Some m'.
Proof.
  intros post m H.
  destruct post as [|n [|a [|b [|c t]]]];
    try (rewrite match_id_at_NFR_short in H by (cbn; lia); discriminate H).
  rewrite match_id_at_NFR in H.
  destruct (Ascii.eqb_spec (lower_char n) "n") as [Hn | _];
    [| discriminate H].
  cbn [andb] in H.
  destruct (Ascii.eqb (lower_char a) "f" && Ascii.eqb (lower_char b) "r"
            && Ascii.eqb (lower_char c) "-") eqn:Hfr; [| discriminate H].
  destruct (SSOTQuery.take_digits t) as [|d ds] eqn:Hd; [discriminate H |].
  injection H as <-.
  exists n, (String a (String b (String c t))),
    (String a (String b (String c (String d ds)))).
  split; [reflexivity |]. split; [exact Hn |]. split; [reflexivity |].
  rewrite match_id_at_FR, Hfr, Hd. reflexivity.
Qed.

Lemma digit_is_not_n : forall c, is_digit c = true -> lower_char c <> "n"%char.
Proof.
  intros [[|] [|] [|] [|] [|] [|] [|] [|]] H; try discriminate H;
    discriminate.
Qed.

Lemma take_digits_covered : forall t rest,
  covered (String.length (SSOTQuery.take_digits t)) (SSOTQuery.take_digits t ++ rest).
Proof.
  induction t as [|c t IH]; intros rest; cbn [SSOTQuery.take_digits].
  - exact I.
  - destruct (is_digit c) eqn:Hc; [| exact I].
    cbn [String.length append covered]. split; [| apply IH].
    exact (digit_is_not_n c Hc).
Qed.

Lemma take_digits_prefix : forall t,
  exists rest, t = (SSOTQuery.take_digits t ++ rest)%string.
Proof.
  induction t as [|c t [rest IH]]; cbn [SSOTQuery.take_digits].
  - exists EmptyString. reflexivity.
  - destruct (is_digit c).
    + exists rest. cbn [append]. rewrite <- IH. reflexivity.
    + exists (String c t). reflexivity.
Qed.

(** After a match of the pattern of the functional requirements, the
    characters that the search passes over are none of them an [n]. *)
Lemma match_id_at_FR_covered : forall c t m,
  SSOTQuery.match_id_at "FR-" (String c t) = Some m ->
  covered (String.length m - 1) t.
Proof.
  intros a t m H.
  destruct t as [|b [|c t]];
    try (rewrite match_id_at_FR_short in H by (cbn; lia); discriminate H).
  rewrite match_id_at_FR in H.
  destruct (Ascii.eqb_spec (lower_char a) "f") as [Ha | _];
    [| discriminate H].
  destruct (Ascii.eqb_spec (lower_char b) "r") as [Hb | _];
    [| discriminate H].
  destruct (Ascii.eqb_spec (lower_char c) "-") as [Hc | _];
    [| discriminate H].
  cbn [andb] in H.
  destruct (SSOTQuery.take_digits t) as [|d ds] eqn:Hd; [discriminate H |].
  injection H as <-. cbn [String.length Nat.sub covered].
  split; [rewrite Hb; discriminate |]. split; [rewrite Hc; discriminate |].
  destruct (take_digits_prefix t) as [rest Hrest].
  pose proof (take_digits_covered t rest) as Hcov.
  rewrite <- Hrest in Hcov. rewrite Hd in Hcov.
  cbn [String.length] in Hcov. exact Hcov.
Qed.

Lemma findall_FR_after_n : forall pre k n post m,
  covered k (pre ++ String n post) ->
  lower_char n = "n"%char ->
  SSOTQuery.match_id_at "FR-" post = Some m ->
  In m (SSOTQuery.findall_from k "FR-" (pre ++ String n post)).
Proof.
  induction pre as [|c pre IH]; intros k n post m Hcov Hn Hm; cbn [append].
  - cbn [append] in Hcov.
    destruct k as [|k]; [| destruct Hcov as [Hc _]; contradiction].
    cbn [SSOTQuery.findall_from].
    assert (Hnone : SSOTQuery.match_id_at "FR-" (String n post) = None).
    { destruct post as [|b [|c t]];
        try (apply match_id_at_FR_short; cbn; lia).
      rewrite match_id_at_FR.
      destruct (Ascii.eqb_spec (lower_char n) "f") as [E | _];
        [rewrite Hn in E; discriminate E | reflexivity]. }
    rewrite Hnone.
    destruct post as [|a post]; [discriminate Hm |].
    cbn [SSOTQuery.findall_from]. rewrite Hm. left. reflexivity.
  - cbn [append] in Hcov. cbn [SSOTQuery.findall_from].
    destruct k as [|k].
    + destruct (SSOTQuery.match_id_at "FR-" (String c (pre ++ String n post)))
        as [m'|] eqn:Hm'.
      * right. apply IH; [| exact Hn | exact Hm].
        exact (match_id_at_FR_covered _ _ _ Hm').
      * apply IH; [exact I | exact Hn | exact Hm].
    + destruct Hcov as [_ Hcov]. apply IH; assumption.
Qed.

Lemma findall_from_found : forall prefix s k m,
  In m (SSOTQuery.findall_from k prefix s) ->
  exists pre post,
    s = (pre ++ post)%string /\ SSOTQuery.match_id_at prefix post = Some m.
Proof.
  intros prefix s. induction s as [|c s IH]; intros k m;
    cbn [SSOTQuery.findall_from]; [contradiction |].
  assert (Hlater : forall k', In m (SSOTQuery.findall_from k' prefix s) ->
            exists pre post,
              String c s = (pre ++ post)%string
              /\ SSOTQuery.match_id_at prefix post = Some m).
  { intros k' Hin. destruct (IH _ _ Hin) as [pre [post [-> Hpost]]].
    exists (String c pre), post. split; [reflexivity | exact Hpost]. }
  destruct k as [|k]; [| apply Hlater].
  destruct (SSOTQuery.match_id_at prefix (String c s)) as [m0|] eqn:Hm0;
    [| apply Hlater].
  intros [<- | Hin]; [| exact (Hlater _ Hin)].
  exists EmptyString, (String c s). split; [reflexivity | exact Hm0].
Qed.

(** X30.  An id of a non-functional requirement in a query text is also
    read as the id of a functional requirement: where the text has
    [NFR-7], in any letter case, the ids found are [NFR-7] and [FR-7],
    so a relationship query about a non-functional requirement also
    answers for the functional requirement of the same number. *)
Theorem nfr_id_is_also_read_as_fr_id :
  forall (query_text id : string),
    In id (SSOTQuery.findall "NFR-" query_text) ->
    exists n rest,
      id = String n rest
      /\ lower_char n = "n"%char
      /\ In rest (SSOTQuery.findall "FR-" query_text)
      /\ In id (SSOTQuery.found_entities query_text)
      /\ In rest (SSOTQuery.found_entities query_text).
Proof.
  intros query_text id Hin.
  destruct (findall_from_found _ _ _ _ Hin) as [pre [post [Htext Hpost]]].
  destruct (match_id_at_NFR_FR _ _ Hpost)
    as [n [post' [m' [-> [Hn [-> Hm']]]]]].
  assert (Hfr : In m' (SSOTQuery.findall "FR-" query_text)).
  { unfold SSOTQuery.findall. rewrite Htext.
    apply findall_FR_after_n; [exact I | exact Hn | exact Hm']. }
  exists n, m'. split; [reflexivity |]. split; [exact Hn |].
  split; [exact Hfr |].
  unfold SSOTQuery.found_entities, SSOTQuery.entity_patterns.
  cbn [map concat]. rewrite !in_app_iff. split.
  - right. left. exact Hin.
  - left. exact Hfr.
Qed.

Lemma nfr_id_is_also_read_as_fr_id_witness :
  In "NFR-7" (SSOTQuery.findall "NFR-" "units for NFR-7")
  /\ exists n rest,
       "NFR-7" = String n rest
       /\ lower_char n = "n"%char
       /\ In rest (SSOTQuery.findall "FR-" "units for NFR-7")
       /\ In "NFR-7" (SSOTQuery.found_entities "units for NFR-7")
       /\ In rest (SSOTQuery.found_entities "units for NFR-7").
Proof.
  assert (H : In "NFR-7" (SSOTQuery.findall "NFR-" "units for NFR-7"))
    by (left; reflexivity).
  exact (conj H (nfr_id_is_also_read_as_fr_id "units for NFR-7" "NFR-7" H)).
Defined.
